(** * JSON2TOON: the TOON codec, the strategy planner and the metrics

    A shallow embedding of [src/advanced_converter.py] (class
    [AdvancedTOONConverter]) and of the planning step of
    [src/pattern_analyzer.py] ([get_compression_strategy]).

    Python values are embedded as follows.
    - A JSON document is a [value].  [int] is [Z]; a finite [float] is the
      binary fraction [m * 2^e]; a [str] is a [string] (one character of
      the model is one character of the Python string); a [list] is a
      [list]; a [dict] is an association list in insertion order, as
      Python dictionaries keep it.
    - A raised exception is [Err] with the exception's class.
    - The library functions the converter calls ([json.dumps],
      [json.loads], [zlib], [base64], [re.match]) are the fields of the
      class [Runtime], together with the round-trip laws of their
      documentation. *)

From stdpp Require Import countable strings.
From Stdlib Require Import ZArith QArith Qround Qabs Lqa String Ascii List Lia Bool.
From Stdlib Require Import DecimalString DecimalNat Sorted Permutation.
Import ListNotations.
Close Scope Q_scope.
Open Scope string_scope.
Open Scope nat_scope.

(** ** Documents *)

#[warnings="-register-all"]
Inductive value : Type :=
| VNull
| VBool (b : bool)
| VInt (z : Z)
| VFloat (m e : Z)
| VStr (s : string)
| VArr (items : list value)
| VObj (fields : list (string * value)).

(** ** Python dictionaries with string keys *)

Definition dict (A : Type) : Type := list (string * A).

Fixpoint dict_get {A : Type} (k : string) (d : dict A) : option A :=
  match d with
  | [] => None
  | (k', v) :: rest => if String.eqb k k' then Some v else dict_get k rest
  end.

(** [d[k] = v]: an existing key keeps its place, a new key goes last. *)
Fixpoint dict_set {A : Type} (k : string) (v : A) (d : dict A) : dict A :=
  match d with
  | [] => [(k, v)]
  | (k', v') :: rest =>
      if String.eqb k k' then (k', v) :: rest
      else (k', v') :: dict_set k v rest
  end.

(** [k in d] *)
Definition dict_has {A : Type} (k : string) (d : dict A) : bool :=
  match dict_get k d with Some _ => true | None => false end.

(** [d.get(k, default)] *)
Definition dict_get_default {A : Type} (k : string) (default : A) (d : dict A) : A :=
  match dict_get k d with Some v => v | None => default end.

Definition dict_keys {A : Type} (d : dict A) : list string := map fst d.

Definition dict_values {A : Type} (d : dict A) : list A := map snd d.

(** A dictionary display [{k1: v1, k2: v2, ...}] and a dictionary
    comprehension insert their items from left to right. *)
Definition dict_of_items {A : Type} (items : list (string * A)) : dict A :=
  fold_left (fun d kv => dict_set (fst kv) (snd kv) d) items [].

(** ** The abbreviation table *)

Module AdvancedTOONConverter.

(** The items of the display that defines [KEY_ABBREV], in source order. *)
Definition KEY_ABBREV_items : list (string * string) :=
  [ (* Core fields *)
    ("id", "i"); ("identifier", "idf"); ("uuid", "uid"); ("guid", "gid");
    ("name", "n"); ("title", "ttl"); ("label", "lbl"); ("description", "dsc");
    ("type", "t"); ("kind", "knd"); ("category", "cat"); ("class", "cls");
    ("value", "v"); ("data", "d"); ("content", "cnt"); ("text", "txt");
    (* Status and state *)
    ("status", "s"); ("state", "st"); ("enabled", "en"); ("disabled", "dis");
    ("active", "act"); ("inactive", "inact"); ("visible", "vis"); ("hidden", "hid");
    ("valid", "vld"); ("invalid", "invld"); ("pending", "pnd"); ("complete", "cmp");
    (* Metadata *)
    ("metadata", "meta"); ("attributes", "attr"); ("properties", "prop");
    ("configuration", "cfg"); ("settings", "set"); ("options", "opt");
    ("parameters", "prm"); ("arguments", "arg"); ("flags", "flg");
    (* Timestamps *)
    ("timestamp", "ts"); ("created_at", "ca"); ("updated_at", "ua");
    ("deleted_at", "da"); ("modified_at", "ma"); ("published_at", "pa");
    ("created", "crt"); ("updated", "upd"); ("modified", "mod");
    ("created_by", "cb"); ("updated_by", "ub"); ("modified_by", "mb");
    (* User/Account fields *)
    ("user", "usr"); ("username", "unm"); ("email", "eml"); ("password", "pwd");
    ("first_name", "fn"); ("last_name", "ln"); ("full_name", "fnm");
    ("display_name", "dnm"); ("nickname", "nnm"); ("avatar", "avt");
    ("profile", "prf"); ("account", "acc"); ("role", "rol"); ("permission", "prm");
    (* Contact info *)
    ("phone", "ph"); ("mobile", "mob"); ("telephone", "tel"); ("fax", "fx");
    ("address", "addr"); ("street", "str"); ("city", "cty"); ("state", "stt");
    ("country", "ctry"); ("postal_code", "pc"); ("zip_code", "zc");
    (* Location/Geography *)
    ("latitude", "lat"); ("longitude", "lng"); ("altitude", "alt");
    ("coordinates", "coord"); ("location", "loc"); ("position", "pos");
    ("region", "rgn"); ("zone", "zn"); ("area", "ar");
    (* Measurements *)
    ("width", "w"); ("height", "h"); ("depth", "d"); ("length", "l");
    ("size", "sz"); ("weight", "wt"); ("volume", "vol"); ("capacity", "cap");
    ("distance", "dst"); ("duration", "dur"); ("quantity", "qty");
    (* API/Response fields *)
    ("message", "m"); ("error", "err"); ("errors", "errs"); ("warning", "wrn");
    ("success", "suc"); ("failure", "fail"); ("result", "res"); ("results", "rslts");
    ("response", "rsp"); ("request", "req"); ("code", "cd"); ("status_code", "sc");
    (* Pagination *)
    ("page", "pg"); ("per_page", "pp"); ("total", "tot"); ("count", "cnt");
    ("total_pages", "tp"); ("total_count", "tc"); ("limit", "lmt"); ("offset", "ofs");
    ("next", "nxt"); ("previous", "prv"); ("first", "fst"); ("last", "lst");
    (* Collections *)
    ("items", "itm"); ("list", "lst"); ("array", "arr"); ("collection", "col");
    ("children", "ch"); ("parent", "par"); ("siblings", "sib"); ("ancestors", "anc");
    (* Indexing *)
    ("index", "idx"); ("position", "pos"); ("order", "ord"); ("rank", "rnk");
    ("priority", "pri"); ("sequence", "seq"); ("level", "lvl");
    (* URL/Media *)
    ("url", "url"); ("uri", "uri"); ("link", "lnk"); ("href", "hrf");
    ("image", "img"); ("thumbnail", "thb"); ("icon", "icn"); ("logo", "lgo");
    ("video", "vid"); ("audio", "aud"); ("file", "fil"); ("document", "doc");
    (* Database *)
    ("table", "tbl"); ("column", "col"); ("row", "rw"); ("field", "fld");
    ("primary_key", "pk"); ("foreign_key", "fk"); ("unique", "unq");
    (* Financial *)
    ("price", "prc"); ("cost", "cst"); ("amount", "amt"); ("total", "ttl");
    ("subtotal", "sub"); ("tax", "tx"); ("discount", "dsc"); ("currency", "cur");
    (* Boolean/Logic *)
    ("is_active", "ia"); ("is_valid", "iv"); ("is_deleted", "idl");
    ("has_children", "hc"); ("can_edit", "ce"); ("can_delete", "cd");
    (* Version control *)
    ("version", "ver"); ("revision", "rev"); ("branch", "brn"); ("commit", "cmt") ].

Definition KEY_ABBREV : dict string :=
  Eval vm_compute in dict_of_items KEY_ABBREV_items.

(** [ABBREV_KEY = {v: k for k, v in KEY_ABBREV.items()}] *)
Definition ABBREV_KEY : dict string :=
  Eval vm_compute in dict_of_items (map (fun kv => (snd kv, fst kv)) KEY_ABBREV).

(** [self.KEY_ABBREV.get(k, k)] *)
Definition abbreviate (k : string) : string := dict_get_default k k KEY_ABBREV.

(** [self.ABBREV_KEY.get(k, k)] *)
Definition expand (k : string) : string := dict_get_default k k ABBREV_KEY.

(** ** Exceptions *)

Inductive exn : Type :=
| ValueError        (* raise ValueError("Invalid TOON format: ...") *)
| JSONDecodeError   (* json.loads on a text that is not JSON *)
| KeyError          (* d[k] with k absent *)
| IndexError        (* l[-1] on an empty sequence *)
| TypeError         (* iterating or indexing a scalar, hashing a container *)
| AttributeError    (* .get, .items or .encode on a value without it *)
| Base64Error       (* binascii.Error, UnicodeEncodeError *)
| ZlibError         (* zlib.error, UnicodeDecodeError *)
| RecursionError    (* the recursion went deeper than the allowance *)
| NonStringKey.     (* a decoded object would get a key that is not a
                       string: outside the documents of this model *)

Inductive result (A : Type) : Type :=
| Ok (a : A)
| Err (e : exn).

Arguments Ok {A} a.
Arguments Err {A} e.

Definition bind {A B : Type} (r : result A) (k : A -> result B) : result B :=
  match r with
  | Ok a => k a
  | Err e => Err e
  end.

Notation "'let*' x ':=' r 'in' k" := (bind r (fun x => k))
  (at level 10, x pattern, r at level 100, k at level 200).

Definition of_option {A : Type} (o : option A) (e : exn) : result A :=
  match o with
  | Some a => Ok a
  | None => Err e
  end.

(** [[f(x) for x in l]], evaluated from left to right; the first
    exception ends the evaluation. *)
Fixpoint map_result {A B : Type} (f : A -> result B) (l : list A) : result (list B) :=
  match l with
  | [] => Ok []
  | x :: rest =>
      let* y := f x in
      let* ys := map_result f rest in
      Ok (y :: ys)
  end.

(** A loop [for x in l: acc = step(acc, x)] whose body may raise. *)
Fixpoint fold_result {A S : Type} (step : S -> A -> result S) (l : list A) (acc : S) : result S :=
  match l with
  | [] => Ok acc
  | x :: rest =>
      let* acc' := step acc x in
      fold_result step rest acc'
  end.

(** ** The library functions the converter calls *)

Class Runtime : Type := {
  (** [json.dumps(v, separators=(',', ':'))] *)
  json_dumps : value -> string;
  (** [json.dumps(v, indent=2)] *)
  json_dumps_indent : value -> string;
  (** [json.loads(s)]; [None] when it raises *)
  json_loads : string -> option value;
  (** [zlib.compress(s.encode('utf-8'))] *)
  zlib_compress : string -> string;
  (** [zlib.decompress(c).decode('utf-8')]; [None] when it raises *)
  zlib_decompress : string -> option string;
  (** [base64.b64encode(b).decode('ascii')] *)
  b64encode : string -> string;
  (** [base64.b64decode(s.encode('ascii'))]; [None] when it raises *)
  b64decode : string -> option string;
  (** [re.match(pattern, s)] as a truth value *)
  re_match : string -> string -> bool;
  json_loads_dumps : forall v, json_loads (json_dumps v) = Some v;
  json_loads_dumps_indent : forall v, json_loads (json_dumps_indent v) = Some v;
  zlib_decompress_compress : forall s, zlib_decompress (zlib_compress s) = Some s;
  b64decode_b64encode : forall s, b64decode (b64encode s) = Some s
}.

(** ** Python built-ins on strings, lists and sets *)

(** [str(n)] for a natural number, as an f-string prints it. *)
Definition str_of_nat (n : nat) : string :=
  NilEmpty.string_of_uint (Nat.to_uint n).

(** [s.startswith(p)] *)
Fixpoint startswith (s p : string) {struct p} : bool :=
  match p with
  | EmptyString => true
  | String c p' =>
      match s with
      | EmptyString => false
      | String d s' => Ascii.eqb c d && startswith s' p'
      end
  end.

(** [s[n:]] *)
Fixpoint str_drop (n : nat) (s : string) : string :=
  match n, s with
  | O, _ => s
  | S n', String _ rest => str_drop n' rest
  | S _, EmptyString => EmptyString
  end.

(** The characters of a string, each as a string of length one: what
    iterating over a [str] yields. *)
Fixpoint chars (s : string) : list string :=
  match s with
  | EmptyString => []
  | String c rest => String c EmptyString :: chars rest
  end.

(** [needle in s] for two strings. *)
Fixpoint str_contains (needle s : string) : bool :=
  startswith s needle ||
  match s with
  | EmptyString => false
  | String _ rest => str_contains needle rest
  end.

Fixpoint insert_sorted (x : string) (l : list string) : list string :=
  match l with
  | [] => [x]
  | y :: rest => if String.leb x y then x :: l else y :: insert_sorted x rest
  end.

(** [sorted(keys)] on strings: increasing code points, lexicographically. *)
Definition sorted (l : list string) : list string :=
  fold_right insert_sorted [] l.

Definition mem (x : string) (l : list string) : bool :=
  existsb (String.eqb x) l.

(** [set(l)], kept as a list without repetition; the code only takes its
    length, tests membership and sorts it. *)
Fixpoint pyset (l : list string) : list string :=
  match l with
  | [] => []
  | x :: rest => if mem x rest then pyset rest else x :: pyset rest
  end.

(** [a & b] on sets *)
Definition set_inter (a b : list string) : list string :=
  filter (fun x => mem x b) a.

(** [a | b] on sets *)
Definition set_union (a b : list string) : list string :=
  a ++ filter (fun x => negb (mem x a)) b.

(** [a - b] on sets *)
Definition set_diff (a b : list string) : list string :=
  filter (fun x => negb (mem x b)) a.

(** [set.intersection] of all the sets of a list *)
Definition set_intersection (sets : list (list string)) : list string :=
  match sets with
  | [] => []
  | s :: rest => fold_left set_inter rest s
  end.

(** [set.union] of all the sets of a list *)
Definition set_union_all (sets : list (list string)) : list string :=
  match sets with
  | [] => []
  | s :: rest => fold_left set_union rest s
  end.

Definition list_string_eqb (a b : list string) : bool :=
  if list_eq_dec string_dec a b then true else false.

(** The number of distinct elements of a list of tuples of strings:
    [len(set(...))]. *)
Fixpoint count_distinct (l : list (list string)) : nat :=
  match l with
  | [] => 0
  | x :: rest =>
      if existsb (list_string_eqb x) rest then count_distinct rest
      else S (count_distinct rest)
  end.

(** The truth value of a document in a condition. *)
Definition truthy (v : value) : bool :=
  match v with
  | VNull => false
  | VBool b => b
  | VInt z => negb (Z.eqb z 0)
  | VFloat m _ => negb (Z.eqb m 0)
  | VStr s => negb (String.eqb s "")
  | VArr items => match items with [] => false | _ => true end
  | VObj fields => match fields with [] => false | _ => true end
  end.

Definition is_dict (v : value) : bool :=
  match v with VObj _ => true | _ => false end.

(** [v.get(k, default)]: only a [dict] has [get]. *)
Definition value_get (k : string) (default : value) (v : value) : result value :=
  match v with
  | VObj d => Ok (dict_get_default k default d)
  | _ => Err AttributeError
  end.

(** What [for x in v] yields: the elements of a list, the characters of
    a string, the keys of a dictionary. *)
Definition py_iter (v : value) : result (list value) :=
  match v with
  | VArr items => Ok items
  | VStr s => Ok (map VStr (chars s))
  | VObj d => Ok (map VStr (dict_keys d))
  | _ => Err TypeError
  end.

(** ** Compression levels *)

Inductive CompressionLevel : Type :=
| MINIMAL
| STANDARD
| AGGRESSIVE
| EXTREME.

(** [level.value] *)
Definition level_value (l : CompressionLevel) : Z :=
  match l with
  | MINIMAL => 1
  | STANDARD => 2
  | AGGRESSIVE => 3
  | EXTREME => 4
  end.

(** ** Encoding *)

Section Encoder.

Context {R : Runtime}.

(** The patterns of [VALUE_PATTERNS] that the converter itself uses. *)
Definition VALUE_PATTERNS_iso_timestamp : string :=
  "^\d{4}-\d{2}-\d{2}T\d{2}:\d{2}:\d{2}(\.\d+)?(Z|[+-]\d{2}:\d{2})?$".

Definition VALUE_PATTERNS_uuid : string :=
  "^[0-9a-f]{8}-[0-9a-f]{4}-[0-9a-f]{4}-[0-9a-f]{4}-[0-9a-f]{12}$".

(** [struct_hash = json.dumps(sorted(d.keys()))] *)
Definition struct_hash (fields : dict value) : string :=
  json_dumps (VArr (map VStr (sorted (dict_keys fields)))).

(** [collect_structures(d, p)] of [_build_ref_cache], with the dictionary
    [structure_counts] it fills passed along. *)
Fixpoint collect_structures (d : value) (p : string)
    (structure_counts : dict (list (string * value))) : dict (list (string * value)) :=
  match d with
  | VObj fields =>
      let h := struct_hash fields in
      let counts1 :=
        dict_set h (dict_get_default h [] structure_counts ++ [(p, d)])%list structure_counts in
      (fix items (fs : list (string * value)) (acc : dict (list (string * value))) :=
         match fs with
         | [] => acc
         | (key, v) :: rest =>
             items rest (collect_structures v (p ++ "." ++ key) acc)
         end) fields counts1
  | VArr l =>
      (fix elements (i : nat) (its : list value) (acc : dict (list (string * value))) :=
         match its with
         | [] => acc
         | item :: rest =>
             elements (S i) rest
               (collect_structures item (p ++ "[" ++ str_of_nat i ++ "]") acc)
         end) O l structure_counts
  | _ => structure_counts
  end.

(** The loop that ends [_build_ref_cache]: a structure met three times
    or more gets the next identifier and its first occurrence is kept.
    The state is [(self.ref_counter, self.ref_cache)]. *)
Definition add_reference (st : nat * dict value) (entry : string * list (string * value))
    : nat * dict value :=
  let (ref_counter, ref_cache) := st in
  if 3 <=? length (snd entry) then
    match snd entry with
    | (_, first) :: _ => (S ref_counter, dict_set ("r" ++ str_of_nat ref_counter) first ref_cache)
    | [] => st
    end
  else st.

(** [_build_ref_cache(data)]: the value of [self.ref_cache] afterwards. *)
Definition _build_ref_cache (data : value) : dict value :=
  snd (fold_left add_reference (collect_structures data "" []) (O, [])).

(** [collect_strings(d)] of [_build_string_dict], with the [Counter]
    [string_counts] passed along. *)
Fixpoint collect_strings (d : value) (string_counts : dict nat) : dict nat :=
  match d with
  | VStr s =>
      if 10 <? String.length s
      then dict_set s (S (dict_get_default s O string_counts)) string_counts
      else string_counts
  | VObj fields =>
      (fix items (fs : list (string * value)) (acc : dict nat) :=
         match fs with
         | [] => acc
         | (_, v) :: rest => items rest (collect_strings v acc)
         end) fields string_counts
  | VArr l =>
      (fix elements (its : list value) (acc : dict nat) :=
         match its with
         | [] => acc
         | item :: rest => elements rest (collect_strings item acc)
         end) l string_counts
  | _ => string_counts
  end.

Definition add_string (st : nat * dict string) (entry : string * nat) : nat * dict string :=
  let (string_counter, string_dict) := st in
  if 2 <=? snd entry
  then (S string_counter, dict_set ("s" ++ str_of_nat string_counter) (fst entry) string_dict)
  else st.

(** [_build_string_dict(data)]: the value of [self.string_dict] afterwards. *)
Definition _build_string_dict (data : value) : dict string :=
  snd (fold_left add_string (collect_strings data []) (O, [])).

(** The first identifier of [string_dict] whose string is [s]. *)
Fixpoint find_string (s : string) (string_dict : dict string) : option string :=
  match string_dict with
  | [] => None
  | (dict_id, dict_string) :: rest =>
      if String.eqb s dict_string then Some dict_id else find_string s rest
  end.

Variable level : CompressionLevel.
Variable string_dict : dict string.

(** [_compress_string(s)] *)
Definition _compress_string (s : string) : string :=
  let aggressive := (level_value AGGRESSIVE <=? level_value level)%Z in
  match (if aggressive then find_string s string_dict else None) with
  | Some dict_id => "@" ++ dict_id
  | None =>
      if aggressive && re_match VALUE_PATTERNS_iso_timestamp s then "$ts:" ++ s
      else if aggressive && re_match VALUE_PATTERNS_uuid s then "$uid:" ++ s
      else s
  end.

(** [item[k]] on an item whose values are already converted.  The keys
    asked for are keys of every item, so the default is never taken. *)
Definition converted_field (k : string) (converted : dict value) : value :=
  dict_get_default k (VStr "~") converted.

(** [{KEY_ABBREV.get(k, k): convert(v) for k, v in item.items()
      if k not in common_keys}] on the converted values. *)
Definition optional_fields (common_keys : list string) (converted : dict value) : dict value :=
  dict_of_items
    (map (fun kv => (abbreviate (fst kv), snd kv))
       (filter (fun kv => negb (mem (fst kv) common_keys)) converted)).

(** A row of the partial schema. *)
Definition partial_row (common_keys common_keys_list : list string) (converted : dict value)
    : value :=
  let row := map (fun k => converted_field k converted) common_keys_list in
  let optional := optional_fields common_keys converted in
  match optional with
  | [] => VArr row
  | _ => VArr (row ++ [VObj [("_opt", VObj optional)]])%list
  end.

Definition item_keys (item : value) : list string :=
  match item with
  | VObj fields => dict_keys fields
  | _ => []
  end.

(** [_compress_array(arr)].  [converted_items] is
    [[convert(item) for item in arr]]; [converted_fields] gives, for each
    item that is a dictionary, its items with the values converted. *)
Definition _compress_array (arr : list value) (converted_items : list value)
    (converted_fields : list (dict value)) : value :=
  match arr with
  | [] => VArr []
  | first :: _ =>
      let fallback := VArr converted_items in
      if forallb is_dict arr then
        let all_keys := map (fun item => pyset (item_keys item)) arr in
        if (level_value STANDARD <=? level_value level)%Z then
          if count_distinct (map sorted all_keys) =? 1 then
            let keys := sorted (item_keys first) in
            VObj [("_sch", VArr (map (fun k => VStr (abbreviate k)) keys));
                  ("_dat", VArr (map (fun converted =>
                                        VArr (map (fun k => converted_field k converted) keys))
                                     converted_fields))]
          else if (level_value AGGRESSIVE <=? level_value level)%Z then
            let common_keys := set_intersection all_keys in
            if 3 <=? length common_keys then
              let common_keys_list := sorted common_keys in
              VObj [("_sch", VArr (map (fun k => VStr (abbreviate k)) common_keys_list));
                    ("_dat", VArr (map (partial_row common_keys common_keys_list)
                                     converted_fields))]
            else fallback
          else fallback
        else fallback
      else fallback
  end.

(** [_compress_object(obj)] on the converted values. *)
Definition _compress_object (converted : dict value) : value :=
  VObj (fold_left
          (fun compressed kv =>
             let compressed_key :=
               if (level_value MINIMAL <=? level_value level)%Z
               then abbreviate (fst kv) else fst kv in
             dict_set compressed_key (snd kv) compressed)
          converted []).

(** [_convert_to_toon(data)] *)
Fixpoint _convert_to_toon (data : value) : value :=
  match data with
  | VNull => VStr "~"
  | VBool b => VStr (if b then "T" else "F")
  | VInt _ => data
  | VFloat _ _ => data
  | VStr s => VStr (_compress_string s)
  | VArr arr =>
      _compress_array arr
        (map _convert_to_toon arr)
        (map (fun item =>
                match item with
                | VObj fields => map (fun kv => (fst kv, _convert_to_toon (snd kv))) fields
                | _ => []
                end) arr)
  | VObj obj =>
      _compress_object (map (fun kv => (fst kv, _convert_to_toon (snd kv))) obj)
  end.

End Encoder.

(** ** Decoding *)

Fixpoint value_depth (v : value) : nat :=
  match v with
  | VArr items => S (fold_right (fun item d => Nat.max (value_depth item) d) O items)
  | VObj fields => S (fold_right (fun kv d => Nat.max (value_depth (snd kv)) d) O fields)
  | _ => O
  end.

(** [row[-1]]: the last element of a list, the last character of a
    string; a dictionary parsed from JSON has no key [-1]. *)
Definition row_last (row : value) : result value :=
  match row with
  | VArr items => of_option (last (map Some items) None) IndexError
  | VStr s => of_option (last (map (fun c => Some (VStr c)) (chars s)) None) IndexError
  | VObj _ => Err KeyError
  | _ => Err TypeError
  end.

(** The start of the loop body of [_decompress_schema_array]: the
    optional fields of a row, when its last element carries them, and
    the cells [row_data]. *)
Definition split_row (row : value) : result (option value * list value) :=
  let* final := row_last row in
  let* cells := py_iter row in
  match final with
  | VObj d =>
      if dict_has "_opt" d
      then Ok (Some (dict_get_default "_opt" VNull d), removelast cells)
      else Ok (None, cells)
  | _ => Ok (None, cells)
  end.

(** [self.ABBREV_KEY.get(k, k)] for an element [k] of a schema: a list or
    a dictionary cannot be hashed, another scalar is returned as it is. *)
Definition expand_schema_key (k : value) : result value :=
  match k with
  | VStr s => Ok (VStr (expand s))
  | VArr _ => Err TypeError
  | VObj _ => Err TypeError
  | _ => Ok k
  end.

(** [obj[key] = v] *)
Definition set_item (key : value) (v : value) (obj : dict value) : result (dict value) :=
  match key with
  | VStr s => Ok (dict_set s v obj)
  | _ => Err NonStringKey
  end.

Section Decoder.

Variable refs : value.
Variable string_dict : value.

(** The recursive calls of the three decoding functions go through
    [convert]. *)
Variable convert : value -> result value.

(** The body of the loop [for row in values] of
    [_decompress_schema_array].  [enumerate(expanded_keys)] with the test
    [i < len(row_data)] pairs each key with the cell of its index and
    stops at the shorter of the two. *)
Definition decompress_row (expanded_keys : list value) (row : value) : result value :=
  let* split := split_row row in
  let optional := fst split in
  let row_data := snd split in
  let* obj :=
    fold_result
      (fun obj kc =>
         let* v := convert (snd kc) in
         set_item (fst kc) v obj)
      (combine expanded_keys row_data) [] in
  let* obj' :=
    match optional with
    | Some opt =>
        if truthy opt then
          match opt with
          | VObj fields =>
              fold_result
                (fun obj kv =>
                   let* v := convert (snd kv) in
                   Ok (dict_set (expand (fst kv)) v obj))
                fields obj
          | _ => Err AttributeError
          end
        else Ok obj
    | None => Ok obj
    end in
  Ok (VObj obj').

(** [_decompress_schema_array(data, refs, string_dict)], for a
    dictionary that has the keys [_sch] and [_dat]. *)
Definition _decompress_schema_array (data : dict value) : result value :=
  let schema := dict_get_default "_sch" VNull data in
  let values := dict_get_default "_dat" VNull data in
  let* schema_items := py_iter schema in
  let* expanded_keys := map_result expand_schema_key schema_items in
  let* rows := py_iter values in
  let* decoded := map_result (decompress_row expanded_keys) rows in
  Ok (VArr decoded).

(** [_decompress_object(obj, refs, string_dict)] *)
Definition _decompress_object (obj : dict value) : result value :=
  let* decompressed :=
    fold_result
      (fun acc kv =>
         let* v := convert (snd kv) in
         Ok (dict_set (expand (fst kv)) v acc))
      obj [] in
  Ok (VObj decompressed).

(** The body of [_convert_from_toon(data, refs, string_dict)]. *)
Definition convert_from_toon_body (data : value) : result value :=
  match data with
  | VStr s =>
      if String.eqb s "~" then Ok VNull
      else if String.eqb s "T" then Ok (VBool true)
      else if String.eqb s "F" then Ok (VBool false)
      else if startswith s "@s" then value_get (str_drop 1 s) data string_dict
      else if startswith s "$ts:" then Ok (VStr (str_drop 4 s))
      else if startswith s "$uid:" then Ok (VStr (str_drop 5 s))
      else if startswith s "@r" then value_get (str_drop 1 s) data refs
      else Ok data
  | VArr items =>
      let* decoded := map_result convert items in
      Ok (VArr decoded)
  | VObj fields =>
      if dict_has "_sch" fields && dict_has "_dat" fields
      then _decompress_schema_array fields
      else _decompress_object fields
  | _ => Ok data
  end.

End Decoder.

(** [_convert_from_toon] with an allowance of nested calls. *)
Fixpoint convert_from_toon_fuel (fuel : nat) (refs string_dict data : value) : result value :=
  match fuel with
  | O => Err RecursionError
  | S fuel' =>
      convert_from_toon_body refs string_dict
        (convert_from_toon_fuel fuel' refs string_dict) data
  end.

(** [_convert_from_toon(data, refs, string_dict)]: every call goes to a
    part of [data] that is nested less deeply, or to one character, so
    the depth of [data] bounds the nesting of the calls. *)
Definition _convert_from_toon (data refs string_dict : value) : result value :=
  convert_from_toon_fuel (S (value_depth data)) refs string_dict data.

Section Converter.

Context {R : Runtime}.

(** [k not in toon_data] needs a container: a dictionary is asked for the
    key, a list for an equal element, a string for the substring. *)
Definition contains_key (k : string) (toon_data : value) : result bool :=
  match toon_data with
  | VObj d => Ok (dict_has k d)
  | VArr items =>
      Ok (existsb (fun v => match v with VStr s => String.eqb s k | _ => false end) items)
  | VStr s => Ok (str_contains k s)
  | _ => Err TypeError
  end.

(** [toon_data[k]] for a string [k]. *)
Definition value_index (k : string) (toon_data : value) : result value :=
  match toon_data with
  | VObj d => of_option (dict_get k d) KeyError
  | _ => Err TypeError
  end.

(** The lines of [toon_to_json] that handle [_zlib]. *)
Definition unwrap_zlib (toon_data : value) : result value :=
  let* encoded := value_index "d" toon_data in
  match encoded with
  | VStr e =>
      let* compressed := of_option (b64decode e) Base64Error in
      let* json_str := of_option (zlib_decompress compressed) ZlibError in
      of_option (json_loads json_str) JSONDecodeError
  | _ => Err AttributeError
  end.

(** The lines of [toon_to_json] that follow the handling of [_zlib]:
    the references and the string dictionary are read from the envelope
    and its data are converted. *)
Definition decode_envelope (toon_data : value) : result value :=
  let* refs := value_get "_refs" (VObj []) toon_data in
  let* string_dict := value_get "_dict" (VObj []) toon_data in
  let* d := value_index "d" toon_data in
  _convert_from_toon d refs string_dict.

(** [toon_to_json(toon_str)] up to its last line: the document
    [json_data] that the last line serialises. *)
Definition toon_to_json_data (toon_str : string) : result value :=
  let* toon_data := of_option (json_loads toon_str) JSONDecodeError in
  let* has_version := contains_key "_toon" toon_data in
  if negb has_version then Err ValueError
  else
    let* zlib_flag := value_get "_zlib" VNull toon_data in
    let* toon_data' := (if truthy zlib_flag then unwrap_zlib toon_data else Ok toon_data) in
    decode_envelope toon_data'.

(** [toon_to_json(toon_str)] *)
Definition toon_to_json (toon_str : string) : result string :=
  let* json_data := toon_to_json_data toon_str in
  Ok (json_dumps_indent json_data).

(** [self.ref_cache] once [json_to_toon] has reset and filled it. *)
Definition encoder_ref_cache (level : CompressionLevel) (data : value) : dict value :=
  if (level_value STANDARD <=? level_value level)%Z then _build_ref_cache data else [].

(** [self.string_dict] once [json_to_toon] has reset and filled it. *)
Definition encoder_string_dict (level : CompressionLevel) (data : value) : dict string :=
  if (level_value AGGRESSIVE <=? level_value level)%Z then _build_string_dict data else [].

(** [toon_data = self._convert_to_toon(data)] in [json_to_toon]. *)
Definition encoder_toon_data (level : CompressionLevel) (data : value) : value :=
  _convert_to_toon level (encoder_string_dict level data) data.

(** The string dictionary as a document, for [json.dumps]. *)
Definition string_dict_value (string_dict : dict string) : value :=
  VObj (map (fun kv => (fst kv, VStr (snd kv))) string_dict).

(** The dictionary [result] of [json_to_toon], before it is serialised. *)
Definition envelope (level : CompressionLevel) (data : value) : value :=
  let ref_cache := encoder_ref_cache level data in
  let string_dict := encoder_string_dict level data in
  let toon_data := encoder_toon_data level data in
  let result :=
    [("_toon", VStr "2.0"); ("_lvl", VInt (level_value level)); ("d", toon_data)] in
  let result1 :=
    match ref_cache with
    | [] => result
    | _ => dict_set "_refs" (VObj ref_cache) result
    end in
  let result2 :=
    match string_dict with
    | [] => result1
    | _ => dict_set "_dict" (string_dict_value string_dict) result1
    end in
  VObj result2.

(** The wrapper that [json_to_toon] returns at level [EXTREME]. *)
Definition zlib_wrapper (json_str : string) : value :=
  VObj [("_toon", VStr "2.0"); ("_lvl", VInt 4); ("_zlib", VBool true);
        ("d", VStr (b64encode (zlib_compress json_str)))].

(** The first lines of [json_to_toon]: a document given as a string is
    parsed. *)
Definition input_document (data : value) : result value :=
  match data with
  | VStr s => of_option (json_loads s) JSONDecodeError
  | _ => Ok data
  end.

(** [json_to_toon(data)] of a converter made with [level]. *)
Definition json_to_toon (level : CompressionLevel) (data : value) : result string :=
  let* data' := input_document data in
  let json_str := json_dumps (envelope level data') in
  match level with
  | EXTREME => Ok (json_dumps (zlib_wrapper json_str))
  | _ => Ok json_str
  end.

(** Encoding and then decoding, as the tests of the converter do:
    [toon_to_json(json_to_toon(data))], read back as a document. *)
Definition round_trip (level : CompressionLevel) (data : value) : result value :=
  let* toon_str := json_to_toon level data in
  toon_to_json_data toon_str.

End Converter.

(** ** Metrics

    Sizes are lengths of texts; the quotients are taken in the rationals,
    which stand for Python's floats. *)

(** [round(x)] to the nearest integer, a tie going to the even one. *)
Definition round_half_even (x : Q) : Z :=
  let f := Qfloor x in
  match Qcompare (x - inject_Z f)%Q (1 # 2)%Q with
  | Lt => f
  | Gt => (f + 1)%Z
  | Eq => if Z.even f then f else (f + 1)%Z
  end.

(** [round(x, 2)] *)
Definition round2 (x : Q) : Q := Qmake (round_half_even (x * 100)%Q) 100.

(** The counters of [self.metrics]. *)
Record metrics_state : Type := {
  m_abbreviations_used : nat;
  m_schema_compressions : nat;
  m_value_compressions : nat;
  m_reference_count : nat;
  m_patterns_detected : list string
}.

Record ConversionMetrics : Type := {
  original_size : nat;
  compressed_size : nat;
  compression_ratio : Q;
  savings_percent : Q;
  compression_level : CompressionLevel;
  patterns_detected : list string;
  abbreviations_used : nat;
  schema_compressions : nat;
  value_compressions : nat;
  reference_count : nat
}.

(** [calculate_metrics(original_json, toon_str)] of a converter whose
    level is [level] and whose counters are [metrics]. *)
Definition calculate_metrics (level : CompressionLevel) (metrics : metrics_state)
    (original_json toon_str : string) : ConversionMetrics :=
  let original := String.length original_json in
  let compressed := String.length toon_str in
  let savings := (Z.of_nat original - Z.of_nat compressed)%Z in
  let percent :=
    if 0 <? original
    then (inject_Z savings / inject_Z (Z.of_nat original) * 100)%Q
    else 0%Q in
  let ratio :=
    if 0 <? original
    then (inject_Z (Z.of_nat compressed) / inject_Z (Z.of_nat original))%Q
    else 0%Q in
  {| original_size := original;
     compressed_size := compressed;
     compression_ratio := ratio;
     savings_percent := round2 percent;
     compression_level := level;
     patterns_detected := pyset (m_patterns_detected metrics);
     abbreviations_used := m_abbreviations_used metrics;
     schema_compressions := m_schema_compressions metrics;
     value_compressions := m_value_compressions metrics;
     reference_count := m_reference_count metrics |}.

End AdvancedTOONConverter.

(** ** The strategy planner *)

Module AdvancedPatternAnalyzer.

Inductive PatternType : Type :=
| API_RESPONSE
| DATABASE_RECORD
| USER_DATA
| PAGINATION
| NESTED_ADDRESS
| NESTED_COORDINATES
| NESTED_DIMENSIONS
| NESTED_METADATA
| HOMOGENEOUS_ARRAY
| CONSISTENT_SCHEMA_ARRAY
| REPEATED_STRUCTURE
| TIME_SERIES
| GRAPH_NODE
| TREE_STRUCTURE
| ENUM_VALUES
| SPARSE_ARRAY
| DEEP_NESTING.

Record Pattern : Type := {
  pattern_type : PatternType;
  confidence : Q;
  location : string;
  keys : option (list string);
  sample : option value;
  count : Z;
  compression_potential : Q;
  recommendation : string
}.

(** The lines of [reasoning], each with the values its text is
    formatted from. *)
Inductive reason : Type :=
| SchemaCompressionRecommended (items : Z) (consistency : Q)
| PartialSchemaCompression (consistency : Q)
| ReferenceCompression (times : Z)
| StringDictionaryForEnums
| ValueCompressionFor (kind : PatternType)
| ExtremeRecommended
| AggressiveRecommended
| StandardRecommended
| MinimalSufficient.

Record CompressionStrategy : Type := {
  use_schema_compression : bool;
  use_reference_compression : bool;
  use_string_dictionary : bool;
  use_value_compression : bool;
  use_partial_schema : bool;
  custom_abbreviations : dict string;
  expected_savings : Q;
  recommended_level : Z;
  patterns : list Pattern;
  reasoning : list reason
}.

(** [a > b] *)
Definition Qgtb (a b : Q) : bool := negb (Qle_bool a b).

(** [min(a, b)] *)
Definition Qmin2 (a b : Q) : Q := if Qle_bool a b then a else b.

(** The assignments of the body of the loop [for pattern in patterns]. *)
Definition plan_step (strategy : CompressionStrategy) (pattern : Pattern) : CompressionStrategy :=
  let add (flags : CompressionStrategy) (gain : Q) (why : reason) :=
    {| use_schema_compression := use_schema_compression flags;
       use_reference_compression := use_reference_compression flags;
       use_string_dictionary := use_string_dictionary flags;
       use_value_compression := use_value_compression flags;
       use_partial_schema := use_partial_schema flags;
       custom_abbreviations := custom_abbreviations flags;
       expected_savings := (expected_savings flags + gain)%Q;
       recommended_level := recommended_level flags;
       patterns := patterns flags;
       reasoning := (reasoning flags ++ [why])%list |} in
  let set_schema (st : CompressionStrategy) :=
    {| use_schema_compression := true;
       use_reference_compression := use_reference_compression st;
       use_string_dictionary := use_string_dictionary st;
       use_value_compression := use_value_compression st;
       use_partial_schema := use_partial_schema st;
       custom_abbreviations := custom_abbreviations st;
       expected_savings := expected_savings st;
       recommended_level := recommended_level st;
       patterns := patterns st;
       reasoning := reasoning st |} in
  let set_partial (st : CompressionStrategy) :=
    {| use_schema_compression := use_schema_compression st;
       use_reference_compression := use_reference_compression st;
       use_string_dictionary := use_string_dictionary st;
       use_value_compression := use_value_compression st;
       use_partial_schema := true;
       custom_abbreviations := custom_abbreviations st;
       expected_savings := expected_savings st;
       recommended_level := recommended_level st;
       patterns := patterns st;
       reasoning := reasoning st |} in
  let set_reference (st : CompressionStrategy) :=
    {| use_schema_compression := use_schema_compression st;
       use_reference_compression := true;
       use_string_dictionary := use_string_dictionary st;
       use_value_compression := use_value_compression st;
       use_partial_schema := use_partial_schema st;
       custom_abbreviations := custom_abbreviations st;
       expected_savings := expected_savings st;
       recommended_level := recommended_level st;
       patterns := patterns st;
       reasoning := reasoning st |} in
  let set_dictionary (st : CompressionStrategy) :=
    {| use_schema_compression := use_schema_compression st;
       use_reference_compression := use_reference_compression st;
       use_string_dictionary := true;
       use_value_compression := use_value_compression st;
       use_partial_schema := use_partial_schema st;
       custom_abbreviations := custom_abbreviations st;
       expected_savings := expected_savings st;
       recommended_level := recommended_level st;
       patterns := patterns st;
       reasoning := reasoning st |} in
  let set_value (st : CompressionStrategy) :=
    {| use_schema_compression := use_schema_compression st;
       use_reference_compression := use_reference_compression st;
       use_string_dictionary := use_string_dictionary st;
       use_value_compression := true;
       use_partial_schema := use_partial_schema st;
       custom_abbreviations := custom_abbreviations st;
       expected_savings := expected_savings st;
       recommended_level := recommended_level st;
       patterns := patterns st;
       reasoning := reasoning st |} in
  match pattern_type pattern with
  | CONSISTENT_SCHEMA_ARRAY =>
      if Qgtb (confidence pattern) (8 # 10)%Q then
        add (set_schema strategy) (25 # 100)%Q
          (SchemaCompressionRecommended (count pattern) (confidence pattern))
      else if Qgtb (confidence pattern) (5 # 10)%Q then
        add (set_partial strategy) (15 # 100)%Q (PartialSchemaCompression (confidence pattern))
      else strategy
  | REPEATED_STRUCTURE =>
      if (3 <=? count pattern)%Z then
        add (set_reference strategy)
          (Qmin2 (20 # 100)%Q (inject_Z (count pattern) * (2 # 100))%Q)
          (ReferenceCompression (count pattern))
      else strategy
  | ENUM_VALUES => add (set_dictionary strategy) (15 # 100)%Q StringDictionaryForEnums
  | TIME_SERIES => add (set_value strategy) (10 # 100)%Q (ValueCompressionFor TIME_SERIES)
  | DATABASE_RECORD => add (set_value strategy) (10 # 100)%Q (ValueCompressionFor DATABASE_RECORD)
  | _ => strategy
  end.

(** The level that the thresholds give for a savings estimate, with the
    line added to the reasoning. *)
Definition level_for (savings : Q) : Z * reason :=
  if Qgtb savings (6 # 10)%Q then (4%Z, ExtremeRecommended)
  else if Qgtb savings (4 # 10)%Q then (3%Z, AggressiveRecommended)
  else if Qgtb savings (2 # 10)%Q then (2%Z, StandardRecommended)
  else (1%Z, MinimalSufficient).

(** [get_compression_strategy(data)], given the two results it obtains
    from other methods: [found = self.analyze(data)] and
    [custom_abbrevs = self.suggest_custom_abbreviations()]. *)
Definition get_compression_strategy (found : list Pattern) (custom_abbrevs : dict string)
    : CompressionStrategy :=
  let initial :=
    {| use_schema_compression := false;
       use_reference_compression := false;
       use_string_dictionary := false;
       use_value_compression := false;
       use_partial_schema := false;
       custom_abbreviations := [];
       expected_savings := 0%Q;
       recommended_level := 2%Z;
       patterns := found;
       reasoning := [] |} in
  let looped := fold_left plan_step found initial in
  let savings :=
    match custom_abbrevs with
    | [] => expected_savings looped
    | _ => (expected_savings looped + inject_Z (Z.of_nat (length custom_abbrevs)) * (1 # 100))%Q
    end in
  let chosen := level_for savings in
  {| use_schema_compression := use_schema_compression looped;
     use_reference_compression := use_reference_compression looped;
     use_string_dictionary := use_string_dictionary looped;
     use_value_compression := use_value_compression looped;
     use_partial_schema := use_partial_schema looped;
     custom_abbreviations := custom_abbrevs;
     expected_savings := Qmin2 savings (85 # 100)%Q;
     recommended_level := fst chosen;
     patterns := found;
     reasoning := (reasoning looped ++ [snd chosen])%list |}.

End AdvancedPatternAnalyzer.

(** ** Notions used to state the properties *)

(** [a <= b] on strings, as a proposition. *)
Definition leb_prop (a b : string) : Prop := String.leb a b = true.

(** [item.get(k)]: the value under the key, [None] when there is none. *)
Definition item_field (k : string) (item : value) : value :=
  match item with
  | VObj fields => dict_get_default k VNull fields
  | _ => VNull
  end.

(** Two items have the same set of keys. *)
Definition same_keys (a b : value) : Prop :=
  forall k, In k (AdvancedTOONConverter.item_keys a) <-> In k (AdvancedTOONConverter.item_keys b).

(** The key [k] is a key of every item of the array. *)
Definition common_key (arr : list value) (k : string) : Prop :=
  forall item, In item arr -> In k (AdvancedTOONConverter.item_keys item).



(** A string that is none of the tokens [~], [T], [F] and starts with
    none of the markers of the decoder. *)
Definition plain_string (s : string) : bool :=
  negb (String.eqb s "~") && negb (String.eqb s "T") && negb (String.eqb s "F")
  && negb (AdvancedTOONConverter.startswith s "@s")
  && negb (AdvancedTOONConverter.startswith s "$ts:")
  && negb (AdvancedTOONConverter.startswith s "$uid:")
  && negb (AdvancedTOONConverter.startswith s "@r").

(** A key that is recovered from its code. *)
Definition plain_key (k : string) : bool :=
  String.eqb (AdvancedTOONConverter.expand (AdvancedTOONConverter.abbreviate k)) k.

(** No string occurs twice in the list. *)
Fixpoint distinct (l : list string) : bool :=
  match l with
  | [] => true
  | x :: rest => negb (AdvancedTOONConverter.mem x rest) && distinct rest
  end.

(** The documents that the lowest level encodes without loss: their
    strings are plain, and in each object the keys are plain, have
    different codes, and are not both [_sch] and [_dat]. *)
Fixpoint plain_document (v : value) : bool :=
  match v with
  | VStr s => plain_string s
  | VArr items => forallb plain_document items
  | VObj fields =>
      forallb (fun kv => plain_key (fst kv) && plain_document (snd kv)) fields
      && distinct (map AdvancedTOONConverter.abbreviate (dict_keys fields))
      && negb (AdvancedTOONConverter.mem "_sch" (dict_keys fields)
               && AdvancedTOONConverter.mem "_dat" (dict_keys fields))
  | _ => true
  end.

Definition is_string (v : value) : bool :=
  match v with
  | VStr _ => true
  | _ => false
  end.

(** No string in a value position of the data starts with [@r], the
    marker of a reference. *)
Fixpoint ref_free (v : value) : bool :=
  match v with
  | VStr s => negb (AdvancedTOONConverter.startswith s "@r")
  | VArr items => forallb ref_free items
  | VObj fields => forallb (fun kv => ref_free (snd kv)) fields
  | _ => true
  end.

(** No string and no key of the document starts with [@r]. *)
Fixpoint ref_free_document (v : value) : bool :=
  match v with
  | VStr s => negb (AdvancedTOONConverter.startswith s "@r")
  | VArr items => forallb ref_free_document items
  | VObj fields =>
      forallb (fun kv => negb (AdvancedTOONConverter.startswith (fst kv) "@r")
                         && ref_free_document (snd kv)) fields
  | _ => true
  end.

(** A row whose cells are free of reference markers: a string counts,
    since its cells are single characters. *)
Definition row_ref_free (row : value) : bool :=
  match row with
  | VStr _ => true
  | _ => ref_free row
  end.

(** No identifier of the string dictionary starts with [r]. *)
Definition dictionary_ids_ok (string_dict : dict string) : bool :=
  forallb (fun kv => negb (AdvancedTOONConverter.startswith (fst kv) "r")) string_dict.

(** ** The optimizer: [src/optimizer.py] *)

Module SmartOptimizer.

Import AdvancedTOONConverter.

Inductive OptimizationProfile : Type :=
| SPEED
| BALANCED
| SIZE.

(** [a < b] *)
Definition Qltb (a b : Q) : bool := negb (Qle_bool b a).

(** [_select_level(profile, expected_savings)] *)
Definition _select_level (profile : OptimizationProfile) (expected_savings : Q)
    : CompressionLevel :=
  match profile with
  | SPEED =>
      if Qltb expected_savings (3 # 10) then MINIMAL else STANDARD
  | SIZE =>
      if AdvancedPatternAnalyzer.Qgtb expected_savings (6 # 10) then EXTREME
      else if AdvancedPatternAnalyzer.Qgtb expected_savings (4 # 10) then AGGRESSIVE
      else STANDARD
  | BALANCED =>
      if Qltb expected_savings (25 # 100) then MINIMAL
      else if Qltb expected_savings (5 # 10) then STANDARD
      else if Qltb expected_savings (65 # 100) then AGGRESSIVE
      else EXTREME
  end.

End SmartOptimizer.

(** ** The conditions under which the planner sets each flag *)

Definition schema_trigger (p : AdvancedPatternAnalyzer.Pattern) : bool :=
  match AdvancedPatternAnalyzer.pattern_type p with
  | AdvancedPatternAnalyzer.CONSISTENT_SCHEMA_ARRAY =>
      AdvancedPatternAnalyzer.Qgtb (AdvancedPatternAnalyzer.confidence p) (8 # 10)
  | _ => false
  end.

Definition partial_trigger (p : AdvancedPatternAnalyzer.Pattern) : bool :=
  match AdvancedPatternAnalyzer.pattern_type p with
  | AdvancedPatternAnalyzer.CONSISTENT_SCHEMA_ARRAY =>
      negb (AdvancedPatternAnalyzer.Qgtb (AdvancedPatternAnalyzer.confidence p) (8 # 10))
      && AdvancedPatternAnalyzer.Qgtb (AdvancedPatternAnalyzer.confidence p) (5 # 10)
  | _ => false
  end.

Definition reference_trigger (p : AdvancedPatternAnalyzer.Pattern) : bool :=
  match AdvancedPatternAnalyzer.pattern_type p with
  | AdvancedPatternAnalyzer.REPEATED_STRUCTURE => (3 <=? AdvancedPatternAnalyzer.count p)%Z
  | _ => false
  end.

Definition dictionary_trigger (p : AdvancedPatternAnalyzer.Pattern) : bool :=
  match AdvancedPatternAnalyzer.pattern_type p with
  | AdvancedPatternAnalyzer.ENUM_VALUES => true
  | _ => false
  end.

Definition value_trigger (p : AdvancedPatternAnalyzer.Pattern) : bool :=
  match AdvancedPatternAnalyzer.pattern_type p with
  | AdvancedPatternAnalyzer.TIME_SERIES => true
  | AdvancedPatternAnalyzer.DATABASE_RECORD => true
  | _ => false
  end.

(** ** Notions about the caches of the encoder *)

(** The strings in value positions of a document, in the order in which
    [collect_strings] meets them. *)
Fixpoint string_leaves (v : value) : list string :=
  match v with
  | VStr s => [s]
  | VArr items => flat_map string_leaves items
  | VObj fields => flat_map (fun kv => string_leaves (snd kv)) fields
  | _ => []
  end.

(** The dictionary that gives the values of [l] the identifiers
    [prefix0], [prefix1], ... counted from [start]. *)
Fixpoint numbered {A : Type} (prefix : string) (start : nat) (l : list A) : dict A :=
  match l with
  | [] => []
  | x :: rest =>
      (prefix ++ AdvancedTOONConverter.str_of_nat start, x) :: numbered prefix (S start) rest
  end.

(** The step of the counter of [collect_strings]. *)
Definition count_string (counts : dict nat) (s : string) : dict nat :=
  if 10 <? String.length s
  then dict_set s (S (dict_get_default s O counts)) counts
  else counts.

(** The strings counted twice or more. *)
Definition frequent_strings (counts : dict nat) : list string :=
  map fst (filter (fun entry => 2 <=? snd entry) counts).

(** The objects of a document with their paths, in the order in which
    [collect_structures] meets them. *)
Fixpoint occurrences (d : value) (p : string) : list (string * value) :=
  match d with
  | VObj fields =>
      (p, d)
      :: (fix items (fs : list (string * value)) : list (string * value) :=
            match fs with
            | [] => []
            | (key, v) :: rest => (occurrences v (p ++ "." ++ key) ++ items rest)%list
            end) fields
  | VArr l =>
      (fix elements (i : nat) (its : list value) : list (string * value) :=
         match its with
         | [] => []
         | item :: rest =>
             (occurrences item (p ++ "[" ++ AdvancedTOONConverter.str_of_nat i ++ "]")
              ++ elements (S i) rest)%list
         end) O l
  | _ => []
  end.

(** The objects of a document, the outer ones first. *)
Definition document_objects (data : value) : list value :=
  map snd (occurrences data "").

(** The structural shape of an object: its sorted keys. *)
Definition shape (o : value) : list string :=
  AdvancedTOONConverter.sorted (AdvancedTOONConverter.item_keys o).

Definition same_shape (a b : value) : bool :=
  AdvancedTOONConverter.list_string_eqb (shape a) (shape b).

(** How many objects of the document have the shape of [o]. *)
Definition shape_count (data : value) (o : value) : nat :=
  length (filter (same_shape o) (document_objects data)).

(** The step of [collect_structures] at one object. *)
Definition record_structure {R : AdvancedTOONConverter.Runtime}
    (structure_counts : dict (list (string * value))) (occ : string * value)
    : dict (list (string * value)) :=
  let h := AdvancedTOONConverter.struct_hash
             (match snd occ with VObj fields => fields | _ => [] end) in
  dict_set h (dict_get_default h [] structure_counts ++ [occ])%list structure_counts.

(** The first occurrences of the structures met three times or more. *)
Definition frequent_structures (entries : dict (list (string * value))) : list value :=
  flat_map (fun entry =>
              if 3 <=? length (snd entry) then
                match snd entry with
                | (_, first) :: _ => [first]
                | [] => []
                end
              else []) entries.

(** The key under which [collect_structures] files an object. *)
Definition structure_hash {R : AdvancedTOONConverter.Runtime} (o : value) : string :=
  AdvancedTOONConverter.struct_hash (match o with VObj fields => fields | _ => [] end).

(** ** Tables: arrays of flat objects *)

Definition is_scalar (v : value) : bool :=
  match v with
  | VArr _ => false
  | VObj _ => false
  | _ => true
  end.

(** An object whose values are plain scalars and whose keys are plain
    and have different codes. *)
Definition flat_object (item : value) : bool :=
  match item with
  | VObj fields =>
      forallb (fun kv => plain_key (fst kv) && is_scalar (snd kv) && plain_document (snd kv))
        fields
      && distinct (map AdvancedTOONConverter.abbreviate (dict_keys fields))
  | _ => false
  end.

(** The object that has the given keys, in their order, with the values
    of [item]. *)
Definition project (keys : list string) (item : value) : value :=
  VObj (map (fun k => (k, item_field k item)) keys).

(** ** The statistics of the analyzer: [_deep_traverse] and
    [_detect_deep_nesting] of [src/pattern_analyzer.py] *)

Module AnalyzerStatistics.

Import AdvancedTOONConverter AdvancedPatternAnalyzer.

(** The four collections that [_deep_traverse] fills. *)
Record statistics : Type := {
  nesting_depths : list nat;
  key_frequency : dict nat;
  value_type_counts : dict nat;
  array_sizes : list nat
}.

(** The state after [analyze] has reset the collections. *)
Definition empty_statistics : statistics :=
  {| nesting_depths := []; key_frequency := []; value_type_counts := []; array_sizes := [] |}.

(** [type(value).__name__] *)
Definition type_name (v : value) : string :=
  match v with
  | VNull => "NoneType"
  | VBool _ => "bool"
  | VInt _ => "int"
  | VFloat _ _ => "float"
  | VStr _ => "str"
  | VArr _ => "list"
  | VObj _ => "dict"
  end.

(** [counter[k] += 1] *)
Definition increment (k : string) (counter : dict nat) : dict nat :=
  dict_set k (S (dict_get_default k O counter)) counter.

(** [_deep_traverse(data, path, depth)], with the collections passed
    along. *)
Fixpoint _deep_traverse (data : value) (path : string) (depth : nat) (st : statistics)
    : statistics :=
  let st1 :=
    {| nesting_depths := (nesting_depths st ++ [depth])%list;
       key_frequency := key_frequency st;
       value_type_counts := value_type_counts st;
       array_sizes := array_sizes st |} in
  match data with
  | VObj fields =>
      (fix items (fs : list (string * value)) (acc : statistics) : statistics :=
         match fs with
         | [] => acc
         | (key, v) :: rest =>
             let acc1 :=
               {| nesting_depths := nesting_depths acc;
                  key_frequency := increment key (key_frequency acc);
                  value_type_counts := increment (type_name v) (value_type_counts acc);
                  array_sizes := array_sizes acc |} in
             items rest (_deep_traverse v (path ++ "." ++ key) (S depth) acc1)
         end) fields st1
  | VArr l =>
      let st2 :=
        {| nesting_depths := nesting_depths st1;
           key_frequency := key_frequency st1;
           value_type_counts := value_type_counts st1;
           array_sizes := (array_sizes st1 ++ [length l])%list |} in
      (fix elements (i : nat) (its : list value) (acc : statistics) : statistics :=
         match its with
         | [] => acc
         | item :: rest =>
             elements (S i) rest
               (_deep_traverse item (path ++ "[" ++ str_of_nat i ++ "]") (S depth) acc)
         end) O l st2
  | _ => st1
  end.

(** [max(l)] and [sum(l)] on the list of depths. *)
Definition max_depth (depths : list nat) : nat := fold_right Nat.max O depths.

Definition sum_depths (depths : list nat) : nat := fold_right Nat.add O depths.

(** [_detect_deep_nesting(data, path)]: the findings it appends.
    [describe] stands for the formatting of the recommendation text from
    the largest and the average depth. *)
Definition _detect_deep_nesting (describe : nat -> Q -> string)
    (st : statistics) (path : string) : list Pattern :=
  match nesting_depths st with
  | [] => []
  | _ =>
      let deepest := max_depth (nesting_depths st) in
      let avg_depth :=
        (inject_Z (Z.of_nat (sum_depths (nesting_depths st)))
         / inject_Z (Z.of_nat (length (nesting_depths st))))%Q in
      if (5 <? deepest) || Qgtb avg_depth 3 then
        [ {| pattern_type := DEEP_NESTING;
             confidence := Qmin2 (inject_Z (Z.of_nat deepest) / 10) 1;
             location := path;
             keys := None;
             sample := None;
             count := 0;
             compression_potential := 4 # 10;
             recommendation := describe deepest avg_depth |} ]
      else []
  end.

End AnalyzerStatistics.

(** The number of nodes of a document. *)
Fixpoint value_nodes (v : value) : nat :=
  match v with
  | VArr items => S (fold_right (fun item n => value_nodes item + n) O items)
  | VObj fields => S (fold_right (fun kv n => value_nodes (snd kv) + n) O fields)
  | _ => 1
  end.

(** The keys of all the objects of a document, with repetition. *)
Fixpoint all_keys (v : value) : list string :=
  match v with
  | VArr items => flat_map all_keys items
  | VObj fields => flat_map (fun kv => fst kv :: all_keys (snd kv)) fields
  | _ => []
  end.

(** The depths of the nodes of a document whose root is at depth [d],
    the root first. *)
Fixpoint depths_of (v : value) (d : nat) : list nat :=
  d :: match v with
       | VArr items => flat_map (fun item => depths_of item (S d)) items
       | VObj fields => flat_map (fun kv => depths_of (snd kv) (S d)) fields
       | _ => []
       end.

(** How deep the nodes of a document go below its root: 0 for a scalar
    and for an empty container. *)
Fixpoint nesting (v : value) : nat :=
  match v with
  | VArr items => fold_right (fun item n => Nat.max (S (nesting item)) n) O items
  | VObj fields => fold_right (fun kv n => Nat.max (S (nesting (snd kv))) n) O fields
  | _ => O
  end.

(** ** The consistency score of an array: [_calculate_schema_consistency] *)

Module AnalyzerConsistency.

Import AdvancedTOONConverter.

(** [_calculate_schema_consistency(arr)] *)
Definition _calculate_schema_consistency (arr : list value) : Q :=
  match arr with
  | [] => 0
  | _ =>
      let key_sets := map (fun item => pyset (item_keys item)) (filter is_dict arr) in
      match key_sets with
      | [] => 0
      | _ =>
          if count_distinct (map sorted key_sets) =? 1 then 1
          else
            let all_keys := set_union_all key_sets in
            let common_keys := set_intersection key_sets in
            match all_keys with
            | [] => 0
            | _ =>
                (inject_Z (Z.of_nat (length common_keys))
                 / inject_Z (Z.of_nat (length all_keys)))%Q
            end
      end
  end.

End AnalyzerConsistency.

(** ** A runtime that satisfies the laws

    The laws of [Runtime] hold of the Python libraries.  To see that they
    can be met inside the model, and to run the converter on examples,
    here is a runtime whose serialisation is an injective numbering of the
    documents written in binary, whose compression and base-64 steps keep
    the text as it is, and whose pattern matcher matches nothing. *)

Module ModelRuntime.

Fixpoint tree_of_value (v : value) : gen_tree (Z + string) :=
  match v with
  | VNull => GenNode 0 []
  | VBool true => GenNode 1 []
  | VBool false => GenNode 2 []
  | VInt z => GenLeaf (inl z)
  | VFloat m e => GenNode 3 [GenLeaf (inl m); GenLeaf (inl e)]
  | VStr s => GenLeaf (inr s)
  | VArr items => GenNode 4 (map tree_of_value items)
  | VObj fields =>
      GenNode 5 (map (fun kv => GenNode 6 [GenLeaf (inr (fst kv)); tree_of_value (snd kv)]) fields)
  end.

Fixpoint value_of_tree (t : gen_tree (Z + string)) : value :=
  match t with
  | GenLeaf (inl z) => VInt z
  | GenLeaf (inr s) => VStr s
  | GenNode 0 _ => VNull
  | GenNode 1 _ => VBool true
  | GenNode 2 _ => VBool false
  | GenNode 3 [GenLeaf (inl m); GenLeaf (inl e)] => VFloat m e
  | GenNode 4 ts => VArr (map value_of_tree ts)
  | GenNode 5 ts =>
      VObj (map (fun t' =>
                   match t' with
                   | GenNode _ [GenLeaf (inr k); tv] => (k, value_of_tree tv)
                   | _ => (EmptyString, VNull)
                   end) ts)
  | _ => VNull
  end.

Lemma value_of_tree_of_value (v : value) : value_of_tree (tree_of_value v) = v.
Proof.
  revert v. fix IH 1. intros [| [|] | z | m e | s | items | fields]; simpl; try reflexivity.
  - f_equal. induction items as [| item items IHitems]; simpl.
    + reflexivity.
    + rewrite IH, IHitems. reflexivity.
  - f_equal. induction fields as [| [k v] fields IHfields]; simpl.
    + reflexivity.
    + rewrite IH, IHfields. reflexivity.
Qed.

#[local] Instance value_eq_dec : EqDecision value.
Proof.
  intros x y. destruct (decide (tree_of_value x = tree_of_value y)) as [E | N].
  - left. rewrite <- (value_of_tree_of_value x), <- (value_of_tree_of_value y), E. reflexivity.
  - right. intros ->. apply N. reflexivity.
Defined.

#[local] Instance value_countable : Countable value :=
  inj_countable' tree_of_value value_of_tree value_of_tree_of_value.

Fixpoint bits_of_positive (p : positive) : string :=
  match p with
  | xH => EmptyString
  | xO q => String "0" (bits_of_positive q)
  | xI q => String "1" (bits_of_positive q)
  end.

Fixpoint positive_of_bits (s : string) : option positive :=
  match s with
  | EmptyString => Some xH
  | String c rest =>
      match positive_of_bits rest with
      | Some q =>
          if Ascii.eqb c "0" then Some (xO q)
          else if Ascii.eqb c "1" then Some (xI q)
          else None
      | None => None
      end
  end.

Lemma positive_of_bits_of_positive (p : positive) :
  positive_of_bits (bits_of_positive p) = Some p.
Proof.
  induction p as [q IHq | q IHq |]; simpl; try rewrite IHq; reflexivity.
Qed.

Definition dumps (v : value) : string := bits_of_positive (encode v).

Definition loads (s : string) : option value :=
  match positive_of_bits s with
  | Some p => decode p
  | None => None
  end.

Lemma loads_dumps (v : value) : loads (dumps v) = Some v.
Proof.
  unfold loads, dumps. rewrite positive_of_bits_of_positive. apply decode_encode.
Qed.

Definition runtime : AdvancedTOONConverter.Runtime :=
  {| AdvancedTOONConverter.json_dumps := dumps;
     AdvancedTOONConverter.json_dumps_indent := dumps;
     AdvancedTOONConverter.json_loads := loads;
     AdvancedTOONConverter.zlib_compress := fun s => s;
     AdvancedTOONConverter.zlib_decompress := fun s => Some s;
     AdvancedTOONConverter.b64encode := fun s => s;
     AdvancedTOONConverter.b64decode := fun s => Some s;
     AdvancedTOONConverter.re_match := fun _ _ => false;
     AdvancedTOONConverter.json_loads_dumps := loads_dumps;
     AdvancedTOONConverter.json_loads_dumps_indent := loads_dumps;
     AdvancedTOONConverter.zlib_decompress_compress := fun s => eq_refl;
     AdvancedTOONConverter.b64decode_b64encode := fun s => eq_refl |}.

End ModelRuntime.

(** * Properties *)

Import AdvancedTOONConverter.

(** ** Dictionaries *)

Lemma dict_get_set_same {A : Type} (k : string) (v : A) (d : dict A) :
  dict_get k (dict_set k v d) = Some v.
Proof.
  induction d as [| [k' v'] d IH]; simpl.
  - rewrite String.eqb_refl. reflexivity.
  - destruct (String.eqb k k') eqn:E; simpl; rewrite E; [reflexivity | exact IH].
Qed.

Lemma dict_get_set_other {A : Type} (k k' : string) (v : A) (d : dict A) :
  k <> k' -> dict_get k (dict_set k' v d) = dict_get k d.
Proof.
  intros Hne. induction d as [| [k1 v1] d IH]; simpl.
  - apply String.eqb_neq in Hne. rewrite Hne. reflexivity.
  - destruct (String.eqb k' k1) eqn:E; simpl.
    + apply String.eqb_eq in E. subst k1.
      apply String.eqb_neq in Hne. rewrite Hne. reflexivity.
    + rewrite IH. reflexivity.
Qed.

Lemma dict_has_set_other {A : Type} (k k' : string) (v : A) (d : dict A) :
  k <> k' -> dict_has k (dict_set k' v d) = dict_has k d.
Proof.
  intros Hne. unfold dict_has. rewrite dict_get_set_other by exact Hne. reflexivity.
Qed.

(** What [item[k]] is on converted items: converting commutes with the
    lookup. *)
Lemma dict_get_map_values {A B : Type} (f : A -> B) (k : string) (d : dict A) :
  dict_get k (map (fun kv => (fst kv, f (snd kv))) d) = option_map f (dict_get k d).
Proof.
  induction d as [| [k' v] d IH]; simpl.
  - reflexivity.
  - destruct (String.eqb k k'); [reflexivity | exact IH].
Qed.

(** ** The envelope and its decoding *)

Section EnvelopeFacts.

Context {R : Runtime}.

Lemma envelope_fields (level : CompressionLevel) (data : value) :
  exists fields,
    envelope level data = VObj fields /\
    dict_has "_toon" fields = true /\
    dict_get "_zlib" fields = None /\
    dict_get "_lvl" fields = Some (VInt (level_value level)) /\
    dict_get "d" fields = Some (encoder_toon_data level data) /\
    dict_get_default "_refs" (VObj []) fields = VObj (encoder_ref_cache level data) /\
    dict_get_default "_dict" (VObj []) fields
      = string_dict_value (encoder_string_dict level data).
Proof.
  unfold envelope.
  destruct (encoder_ref_cache level data) as [| r rs];
    destruct (encoder_string_dict level data) as [| e es];
    eexists; (split; [reflexivity |]); repeat split; reflexivity.
Qed.

(** Decoding the text of an envelope made by the encoder comes down to
    converting its data with its references and its dictionary. *)
Lemma decode_envelope_envelope (level : CompressionLevel) (data : value) :
  decode_envelope (envelope level data)
  = _convert_from_toon (encoder_toon_data level data)
      (VObj (encoder_ref_cache level data))
      (string_dict_value (encoder_string_dict level data)).
Proof.
  destruct (envelope_fields level data) as (fields & -> & _ & _ & _ & Hd & Hrefs & Hdict).
  unfold decode_envelope. simpl. rewrite Hrefs, Hdict. simpl. rewrite Hd. reflexivity.
Qed.

Lemma toon_to_json_data_envelope (level : CompressionLevel) (data : value) :
  toon_to_json_data (json_dumps (envelope level data))
  = decode_envelope (envelope level data).
Proof.
  unfold toon_to_json_data. rewrite json_loads_dumps.
  destruct (envelope_fields level data) as (fields & -> & Htoon & Hz & _).
  cbn [of_option bind contains_key value_get]. rewrite Htoon.
  unfold dict_get_default. rewrite Hz. reflexivity.
Qed.

Lemma toon_to_json_data_zlib_wrapper (json_str : string) :
  toon_to_json_data (json_dumps (zlib_wrapper json_str))
  = (let* toon_data := of_option (json_loads json_str) JSONDecodeError in
     decode_envelope toon_data).
Proof.
  unfold toon_to_json_data. rewrite json_loads_dumps.
  cbn [of_option bind contains_key value_get zlib_wrapper].
  change (dict_has "_toon" _) with true.
  change (dict_get_default "_zlib" VNull _) with (VBool true).
  cbn [negb truthy]. unfold unwrap_zlib.
  change (value_index "d" _) with (Ok (VStr (b64encode (zlib_compress json_str)))).
  cbn [bind]. rewrite b64decode_b64encode. cbn [of_option bind].
  rewrite zlib_decompress_compress. cbn [of_option bind].
  destruct (of_option (json_loads json_str) JSONDecodeError); reflexivity.
Qed.

End EnvelopeFacts.

Section RoundTripFacts.

Context {R : Runtime}.

Lemma json_to_toon_eq (level : CompressionLevel) (data : value) :
  json_to_toon level data
  = (let* data' := input_document data in
     Ok (match level with
         | EXTREME => json_dumps (zlib_wrapper (json_dumps (envelope EXTREME data')))
         | _ => json_dumps (envelope level data')
         end)).
Proof.
  unfold json_to_toon. destruct (input_document data) as [data' | e]; [| reflexivity].
  destruct level; reflexivity.
Qed.

Lemma round_trip_eq (level : CompressionLevel) (data : value) :
  round_trip level data
  = (let* data' := input_document data in
     _convert_from_toon (encoder_toon_data level data')
       (VObj (encoder_ref_cache level data'))
       (string_dict_value (encoder_string_dict level data'))).
Proof.
  unfold round_trip. rewrite json_to_toon_eq.
  destruct (input_document data) as [data' | e]; [| reflexivity].
  cbn [bind]. rewrite <- decode_envelope_envelope.
  destruct level; try apply toon_to_json_data_envelope.
  rewrite toon_to_json_data_zlib_wrapper, json_loads_dumps. reflexivity.
Qed.

End RoundTripFacts.

(** ** Arrays of empty objects *)

Lemma forallb_repeat {A : Type} (f : A -> bool) (x : A) (n : nat) :
  f x = true -> forallb f (repeat x n) = true.
Proof.
  intros Hx. induction n as [| n IH]; simpl; [reflexivity |].
  rewrite Hx, IH. reflexivity.
Qed.

Lemma existsb_repeat_self (x : list string) (n : nat) :
  existsb (list_string_eqb x) (repeat x (S n)) = true.
Proof.
  simpl. unfold list_string_eqb at 1.
  destruct (list_eq_dec string_dec x x) as [_ | N]; [reflexivity | contradiction].
Qed.

Lemma count_distinct_repeat (x : list string) (n : nat) :
  count_distinct (repeat x (S n)) = 1.
Proof.
  induction n as [| n IH].
  - reflexivity.
  - change (repeat x (S (S n))) with (x :: repeat x (S n)).
    cbn [count_distinct]. rewrite existsb_repeat_self. exact IH.
Qed.

(** ** The claims *)

(** C1 (contradicted by the code): the round trip does not return the
    document.  At every level, the object [{"data": 1}] is encoded with
    the key [d] and decoded as [{"depth": 1}], because the codes of
    [data] and [depth] are the same. *)
Theorem round_trip_renames_data_key (R : Runtime) (level : CompressionLevel) :
  round_trip level (VObj [("data", VInt 1)]) = Ok (VObj [("depth", VInt 1)]) /\
  VObj [("depth", VInt 1)] <> VObj [("data", VInt 1)].
Proof.
  split; [| discriminate].
  rewrite round_trip_eq. destruct level; reflexivity.
Qed.

(** C2 (contradicted by the code): the table is not one-to-one.  The keys
    [data] and [depth] share the code [d], so expanding the code of
    [data] gives [depth]; eight keys of the table are not recovered from
    their code. *)
Theorem KEY_ABBREV_codes_collide :
  abbreviate "data" = "d" /\
  abbreviate "depth" = "d" /\
  expand (abbreviate "data") = "depth" /\
  filter (fun k => negb (String.eqb (expand (abbreviate k)) k)) (dict_keys KEY_ABBREV)
  = ["title"; "description"; "data"; "content"; "parameters"; "code"; "last"; "collection"].
Proof.
  repeat split; vm_compute; reflexivity.
Qed.

(** C3: at level [STANDARD] or above, a non-empty array of empty objects
    is encoded as a schema block with no key and empty rows, and decoding
    what the encoder returned raises [IndexError]. *)
Theorem empty_objects_array_raises_IndexError
    (R : Runtime) (level : CompressionLevel) (n : nat) :
  (level_value STANDARD <= level_value level)%Z ->
  encoder_toon_data level (VArr (repeat (VObj []) (S n)))
  = VObj [("_sch", VArr []); ("_dat", VArr (repeat (VArr []) (S n)))] /\
  round_trip level (VArr (repeat (VObj []) (S n))) = Err IndexError.
Proof.
  intros Hlevel.
  assert (Hdata : encoder_toon_data level (VArr (repeat (VObj []) (S n)))
                  = VObj [("_sch", VArr []); ("_dat", VArr (repeat (VArr []) (S n)))]).
  { unfold encoder_toon_data. cbn [_convert_to_toon].
    unfold _compress_array.
    change (repeat (VObj []) (S n)) with (VObj [] :: repeat (VObj []) n) at 1.
    cbv beta iota.
    rewrite (forallb_repeat is_dict (VObj []) (S n) eq_refl).
    apply Z.leb_le in Hlevel. rewrite Hlevel.
    rewrite !map_repeat. cbn [item_keys dict_keys map pyset sorted fold_right].
    rewrite count_distinct_repeat. reflexivity. }
  split; [exact Hdata |].
  rewrite round_trip_eq. cbn [input_document bind]. rewrite Hdata.
  reflexivity.
Qed.

(** The claim C3 at a concrete array and level. *)
Lemma empty_objects_array_raises_IndexError_witness :
  encoder_toon_data (R := ModelRuntime.runtime) STANDARD (VArr (repeat (VObj []) 3))
  = VObj [("_sch", VArr []); ("_dat", VArr (repeat (VArr []) 3))] /\
  round_trip (R := ModelRuntime.runtime) STANDARD (VArr (repeat (VObj []) 3)) = Err IndexError.
Proof.
  apply (empty_objects_array_raises_IndexError ModelRuntime.runtime STANDARD 2).
  simpl. lia.
Defined.



(** C6: at level [EXTREME] the encoder returns the wrapper whose flag
    [_zlib] is true and whose data are the base-64 text of the compressed
    envelope; decoding a wrapper undoes the base-64 and the compression
    and parses the text before anything else, and only then converts the
    data of the envelope found inside. *)
Theorem extreme_wraps_and_decode_unwraps_first (R : Runtime) :
  (forall data : value,
     json_to_toon EXTREME data
     = (let* data' := input_document data in
        Ok (json_dumps
              (VObj [("_toon", VStr "2.0"); ("_lvl", VInt 4); ("_zlib", VBool true);
                     ("d", VStr (b64encode (zlib_compress
                                               (json_dumps (envelope EXTREME data')))))]))))
  /\ (forall json_str : string,
        toon_to_json_data (json_dumps (zlib_wrapper json_str))
        = (let* toon_data := of_option (json_loads json_str) JSONDecodeError in
           decode_envelope toon_data))
  /\ (forall data : value,
        toon_to_json_data (json_dumps (zlib_wrapper (json_dumps (envelope EXTREME data))))
        = _convert_from_toon (encoder_toon_data EXTREME data)
            (VObj (encoder_ref_cache EXTREME data))
            (string_dict_value (encoder_string_dict EXTREME data))).
Proof.
  split; [| split].
  - intros data. rewrite json_to_toon_eq. reflexivity.
  - exact toon_to_json_data_zlib_wrapper.
  - intros data. rewrite toon_to_json_data_zlib_wrapper, json_loads_dumps.
    cbn [of_option bind]. apply decode_envelope_envelope.
Qed.


(** ** The planner *)

Import AdvancedPatternAnalyzer.

Lemma Qle_bool_false (a b : Q) : Qle_bool a b = false -> (b < a)%Q.
Proof.
  intros E. apply Qnot_le_lt. intros Hle. apply Qle_bool_iff in Hle. congruence.
Qed.

Lemma Qgtb_true (a b : Q) : Qgtb a b = true <-> (b < a)%Q.
Proof.
  unfold Qgtb. destruct (Qle_bool a b) eqn:E; simpl.
  - apply Qle_bool_iff in E. split; [discriminate | intros H; lra].
  - apply Qle_bool_false in E. split; [intros _; exact E | reflexivity].
Qed.

Lemma Qgtb_false (a b : Q) : Qgtb a b = false <-> (a <= b)%Q.
Proof.
  unfold Qgtb. destruct (Qle_bool a b) eqn:E; simpl.
  - apply Qle_bool_iff in E. split; [intros _; exact E | reflexivity].
  - apply Qle_bool_false in E. split; [discriminate | intros H; lra].
Qed.

(** A cap above a threshold does not change the side of the threshold. *)
Lemma Qgtb_Qmin2 (x cap threshold : Q) :
  (threshold < cap)%Q -> Qgtb (Qmin2 x cap) threshold = Qgtb x threshold.
Proof.
  intros Hcap. unfold Qmin2. destruct (Qle_bool x cap) eqn:E; [reflexivity |].
  apply Qle_bool_false in E.
  transitivity true; [| symmetry]; apply Qgtb_true; lra.
Qed.

Lemma Qmin2_le_r (x cap : Q) : (Qmin2 x cap <= cap)%Q.
Proof.
  unfold Qmin2. destruct (Qle_bool x cap) eqn:E.
  - apply Qle_bool_iff. exact E.
  - lra.
Qed.

(** C8: the savings estimate that the planner returns is at most 0.85,
    and the level it recommends is the one the thresholds 0.6, 0.4 and
    0.2 give for that estimate: 4 above 0.6, else 3 above 0.4, else 2
    above 0.2, else 1.  ([Qgtb a b] is the test [a > b].) *)
Theorem planner_caps_savings_and_picks_level
    (found : list Pattern) (custom_abbrevs : dict string) :
  (expected_savings (get_compression_strategy found custom_abbrevs) <= 85 # 100)%Q
  /\ recommended_level (get_compression_strategy found custom_abbrevs)
     = (if Qgtb (expected_savings (get_compression_strategy found custom_abbrevs)) (6 # 10)
        then 4
        else if Qgtb (expected_savings (get_compression_strategy found custom_abbrevs)) (4 # 10)
        then 3
        else if Qgtb (expected_savings (get_compression_strategy found custom_abbrevs)) (2 # 10)
        then 2
        else 1)%Z
  /\ (forall a b : Q, Qgtb a b = true <-> (b < a)%Q).
Proof.
  split; [| split].
  - apply Qmin2_le_r.
  - unfold get_compression_strategy. cbn [expected_savings recommended_level].
    rewrite !Qgtb_Qmin2 by lra. unfold level_for.
    repeat match goal with
           | |- context [Qgtb ?a ?b] => destruct (Qgtb a b)
           end; reflexivity.
  - exact Qgtb_true.
Qed.

(** ** The metrics *)

Lemma round_half_even_close (x : Q) :
  (Qabs (inject_Z (round_half_even x) - x) <= 1 # 2)%Q.
Proof.
  unfold round_half_even.
  pose proof (Qfloor_le x) as Hlo.
  pose proof (Qlt_floor x) as Hhi.
  pose proof (inject_Z_plus (Qfloor x) 1) as Hplus.
  change (inject_Z 1) with 1%Q in Hplus.
  destruct (Qcompare (x - inject_Z (Qfloor x)) (1 # 2)) eqn:E.
  - apply Qeq_alt in E. rewrite Hplus in Hhi.
    destruct (Z.even (Qfloor x)); rewrite ?Hplus; apply Qabs_case; intros; lra.
  - apply Qlt_alt in E. apply Qabs_case; intros; lra.
  - apply Qgt_alt in E. rewrite Hplus in Hhi |- *. apply Qabs_case; intros; lra.
Qed.




(** * Further properties of the code *)

(** ** The order of strings and [sorted] *)

Lemma ascii_compare_cases (a b : ascii) :
  match Ascii.compare a b with
  | Eq => a = b
  | Lt => (N_of_ascii a < N_of_ascii b)%N
  | Gt => (N_of_ascii b < N_of_ascii a)%N
  end.
Proof.
  unfold Ascii.compare. destruct (N.compare_spec (N_of_ascii a) (N_of_ascii b)) as [E | L | G].
  - rewrite <- (ascii_N_embedding a), <- (ascii_N_embedding b), E. reflexivity.
  - exact L.
  - exact G.
Qed.

Lemma string_leb_trans (s1 s2 s3 : string) :
  String.leb s1 s2 = true -> String.leb s2 s3 = true -> String.leb s1 s3 = true.
Proof.
  unfold String.leb. revert s2 s3.
  induction s1 as [| c1 s1 IH]; intros [| c2 s2] [| c3 s3]; simpl; try congruence.
  pose proof (ascii_compare_cases c1 c2) as H12.
  pose proof (ascii_compare_cases c2 c3) as H23.
  pose proof (ascii_compare_cases c1 c3) as H13.
  destruct (Ascii.compare c1 c2) eqn:E12; destruct (Ascii.compare c2 c3) eqn:E23;
    destruct (Ascii.compare c1 c3) eqn:E13; subst;
    try congruence; try (intros; reflexivity); try lia.
  apply IH.
Qed.

Lemma string_leb_refl (s : string) : String.leb s s = true.
Proof.
  destruct (String.leb_total s s) as [H | H]; exact H.
Qed.

Lemma mem_In (x : string) (l : list string) : mem x l = true <-> In x l.
Proof.
  unfold mem. rewrite existsb_exists. split.
  - intros (y & Hy & E). apply String.eqb_eq in E. subst. exact Hy.
  - intros H. exists x. split; [exact H | apply String.eqb_refl].
Qed.

Lemma mem_false (x : string) (l : list string) : mem x l = false <-> ~ In x l.
Proof.
  rewrite <- mem_In. destruct (mem x l); split; congruence.
Qed.

Lemma In_insert_sorted (x y : string) (l : list string) :
  In y (insert_sorted x l) <-> y = x \/ In y l.
Proof.
  induction l as [| z l IH]; simpl.
  - intuition.
  - destruct (String.leb x z); simpl; rewrite ?IH; intuition.
Qed.

Lemma In_sorted (x : string) (l : list string) : In x (sorted l) <-> In x l.
Proof.
  unfold sorted. induction l as [| y l IH]; simpl.
  - reflexivity.
  - rewrite In_insert_sorted, IH. intuition.
Qed.

Lemma length_insert_sorted (x : string) (l : list string) :
  length (insert_sorted x l) = S (length l).
Proof.
  induction l as [| z l IH]; simpl; [reflexivity |].
  destruct (String.leb x z); simpl; [reflexivity | rewrite IH; reflexivity].
Qed.

(** [sorted] keeps every element, repeated ones included. *)
Lemma length_sorted (l : list string) : length (sorted l) = length l.
Proof.
  unfold sorted. induction l as [| y l IH]; simpl; [reflexivity |].
  rewrite length_insert_sorted, IH. reflexivity.
Qed.

Lemma insert_sorted_StronglySorted (x : string) (l : list string) :
  StronglySorted leb_prop l -> StronglySorted leb_prop (insert_sorted x l).
Proof.
  induction 1 as [| z l Hl IH Hz]; simpl.
  - constructor; constructor.
  - destruct (String.leb x z) eqn:E.
    + constructor; [constructor; assumption |].
      constructor; [exact E |].
      apply Forall_forall. intros y Hy. rewrite Forall_forall in Hz.
      apply (string_leb_trans x z y); [exact E | apply Hz; exact Hy].
    + constructor; [exact IH |].
      apply Forall_forall. intros y Hy. apply In_insert_sorted in Hy.
      destruct Hy as [-> | Hy].
      * destruct (String.leb_total x z) as [H | H]; [congruence | exact H].
      * rewrite Forall_forall in Hz. apply Hz. exact Hy.
Qed.

Lemma sorted_StronglySorted (l : list string) : StronglySorted leb_prop (sorted l).
Proof.
  unfold sorted. induction l as [| y l IH]; simpl.
  - constructor.
  - apply insert_sorted_StronglySorted. exact IH.
Qed.

Lemma NoDup_insert_sorted (x : string) (l : list string) :
  ~ In x l -> NoDup l -> NoDup (insert_sorted x l).
Proof.
  intros Hx Hl. induction Hl as [| z l Hz Hl IH]; simpl.
  - constructor; [intros [] | constructor].
  - destruct (String.leb x z).
    + constructor; [exact Hx | constructor; assumption].
    + constructor.
      * rewrite In_insert_sorted. intros [-> | H]; [apply Hx; left; reflexivity | contradiction].
      * apply IH. intros H. apply Hx. right. exact H.
Qed.

Lemma NoDup_sorted (l : list string) : NoDup l -> NoDup (sorted l).
Proof.
  unfold sorted. induction 1 as [| y l Hy Hl IH]; simpl.
  - constructor.
  - apply NoDup_insert_sorted; [| exact IH].
    intros H. apply Hy. apply (In_sorted y l). exact H.
Qed.

(** Two sorted lists without repetition that have the same elements are
    the same list. *)
Lemma sorted_unique (l1 l2 : list string) :
  StronglySorted leb_prop l1 -> StronglySorted leb_prop l2 ->
  NoDup l1 -> NoDup l2 ->
  (forall x, In x l1 <-> In x l2) ->
  l1 = l2.
Proof.
  intros S1. revert l2.
  induction S1 as [| a l1 S1 IH Ha]; intros l2 S2 N1 N2 Hsame.
  - destruct l2 as [| b l2]; [reflexivity |].
    exfalso. apply (Hsame b). left. reflexivity.
  - destruct S2 as [| b l2 S2 Hb].
    + exfalso. apply (Hsame a). left. reflexivity.
    + inversion N1 as [| ? ? Na N1']; subst. inversion N2 as [| ? ? Nb N2']; subst.
      rewrite Forall_forall in Ha, Hb.
      assert (Hab : a = b).
      { assert (H1 : In a (b :: l2)) by (apply Hsame; left; reflexivity).
        assert (H2 : In b (a :: l1)) by (apply Hsame; left; reflexivity).
        destruct H1 as [E | H1]; [congruence |].
        destruct H2 as [E | H2]; [congruence |].
        apply String.leb_antisym; [apply Ha; exact H2 | apply Hb; exact H1]. }
      subst b. f_equal. apply IH; try assumption.
      intros x. split; intros Hx.
      * assert (H : In x (a :: l2)) by (apply Hsame; right; exact Hx).
        destruct H as [E | H]; [subst; contradiction | exact H].
      * assert (H : In x (a :: l1)) by (apply Hsame; right; exact Hx).
        destruct H as [E | H]; [subst; contradiction | exact H].
Qed.

Lemma In_pyset (x : string) (l : list string) : In x (pyset l) <-> In x l.
Proof.
  induction l as [| y l IH]; simpl; [reflexivity |].
  destruct (mem y l) eqn:E.
  - rewrite IH. apply mem_In in E. split; [auto | intros [-> | H]; assumption].
  - simpl. rewrite IH. reflexivity.
Qed.

Lemma NoDup_pyset (l : list string) : NoDup (pyset l).
Proof.
  induction l as [| y l IH]; simpl; [constructor |].
  destruct (mem y l) eqn:E; [exact IH |].
  constructor; [| exact IH].
  rewrite In_pyset. apply mem_false. exact E.
Qed.

(** The sorted tuple of a set of keys depends on the set only. *)
Lemma sorted_pyset_same (l1 l2 : list string) :
  sorted (pyset l1) = sorted (pyset l2) <-> (forall x, In x l1 <-> In x l2).
Proof.
  split.
  - intros E x. rewrite <- (In_pyset x l1), <- (In_pyset x l2).
    rewrite <- (In_sorted x (pyset l1)), <- (In_sorted x (pyset l2)), E. reflexivity.
  - intros Hsame. apply sorted_unique.
    + apply sorted_StronglySorted.
    + apply sorted_StronglySorted.
    + apply NoDup_sorted, NoDup_pyset.
    + apply NoDup_sorted, NoDup_pyset.
    + intros x. rewrite !In_sorted, !In_pyset. apply Hsame.
Qed.

(** ** Sets of keys *)

Lemma list_string_eqb_true (a b : list string) :
  AdvancedTOONConverter.list_string_eqb a b = true <-> a = b.
Proof.
  unfold list_string_eqb. destruct (list_eq_dec string_dec a b); split; congruence.
Qed.

Lemma count_distinct_zero (l : list (list string)) : count_distinct l = 0 -> l = [].
Proof.
  induction l as [| x l IH]; simpl; [reflexivity |].
  destruct (existsb (list_string_eqb x) l) eqn:E; [| discriminate].
  intros H. apply IH in H. subst l. discriminate.
Qed.

(** [len(set(tuples)) == 1] says that the list is not empty and that all
    its tuples are the same. *)
Lemma count_distinct_one (l : list (list string)) :
  count_distinct l = 1 <-> exists x, In x l /\ forall y, In y l -> y = x.
Proof.
  induction l as [| x l IH]; simpl.
  - split; [discriminate | intros (x & [] & _)].
  - destruct (existsb (list_string_eqb x) l) eqn:E.
    + apply existsb_exists in E. destruct E as (x' & Hx' & E).
      apply list_string_eqb_true in E. subst x'.
      rewrite IH. split.
      * intros (z & Hz & Hall). exists z. split; [right; exact Hz |].
        intros y [<- | Hy]; [apply Hall; exact Hx' | apply Hall; exact Hy].
      * intros (z & _ & Hall). exists z. split.
        -- rewrite <- (Hall x (or_introl eq_refl)). exact Hx'.
        -- intros y Hy. apply Hall. right. exact Hy.
    + split.
      * intros H. injection H as H. apply count_distinct_zero in H. subst l.
        exists x. split; [left; reflexivity | intros y [<- | []]; reflexivity].
      * intros (z & _ & Hall). destruct l as [| y l]; [reflexivity |].
        exfalso. assert (Hy : y = x).
        { rewrite (Hall y (or_intror (or_introl eq_refl))).
          rewrite (Hall x (or_introl eq_refl)). reflexivity. }
        subst y. simpl in E.
        destruct (list_string_eqb x x) eqn:Ex; [discriminate |].
        assert (Hx : list_string_eqb x x = true) by (apply list_string_eqb_true; reflexivity).
        congruence.
Qed.

Lemma In_set_inter (x : string) (a b : list string) :
  In x (set_inter a b) <-> In x a /\ In x b.
Proof.
  unfold set_inter. rewrite filter_In, mem_In. reflexivity.
Qed.

Lemma In_fold_set_inter (x : string) (rest : list (list string)) (s : list string) :
  In x (fold_left set_inter rest s) <-> In x s /\ forall r, In r rest -> In x r.
Proof.
  revert s. induction rest as [| r rest IH]; intros s; simpl.
  - intuition.
  - rewrite IH, In_set_inter. split.
    + intros [[Hs Hr] Hrest]. split; [exact Hs |].
      intros r' [<- | H]; [exact Hr | apply Hrest; exact H].
    + intros [Hs Hall]. split; [split; [exact Hs | apply Hall; left; reflexivity] |].
      intros r' H. apply Hall. right. exact H.
Qed.

Lemma NoDup_fold_set_inter (rest : list (list string)) (s : list string) :
  NoDup s -> NoDup (fold_left set_inter rest s).
Proof.
  revert s. induction rest as [| r rest IH]; intros s Hs; simpl; [exact Hs |].
  apply IH. unfold set_inter. apply NoDup_filter. exact Hs.
Qed.

(** The keys in [set.intersection] of the key sets of a non-empty array
    are the keys common to all its items, each once. *)
Lemma set_intersection_keys (first : value) (rest : list value) :
  NoDup (set_intersection (map (fun item => pyset (item_keys item)) (first :: rest))) /\
  forall k,
    In k (set_intersection (map (fun item => pyset (item_keys item)) (first :: rest)))
    <-> common_key (first :: rest) k.
Proof.
  simpl. split.
  - apply NoDup_fold_set_inter, NoDup_pyset.
  - intros k. rewrite In_fold_set_inter, In_pyset. unfold common_key. split.
    + intros [Hfirst Hrest] item [<- | Hitem]; [exact Hfirst |].
      apply (In_pyset k (item_keys item)). apply Hrest.
      apply in_map_iff. exists item. split; [reflexivity | exact Hitem].
    + intros Hall. split; [apply Hall; left; reflexivity |].
      intros r Hr. apply in_map_iff in Hr. destruct Hr as (item & <- & Hitem).
      apply In_pyset. apply Hall. right. exact Hitem.
Qed.


(** ** How arrays are encoded *)





Section ArrayFacts.

Context {R : Runtime}.
Variable level : CompressionLevel.
Variable string_dict : dict string.

Let conv : value -> value := _convert_to_toon level string_dict.

Let conv_fields (item : value) : dict value :=
  match item with
  | VObj fields => map (fun kv => (fst kv, conv (snd kv))) fields
  | _ => []
  end.

Lemma convert_array_unfold (arr : list value) :
  conv (VArr arr) = _compress_array level arr (map conv arr) (map conv_fields arr).
Proof.
  reflexivity.
Qed.

(** A cell of a row is the converted value of the key in the item. *)
Lemma converted_field_conv (k : string) (item : value) :
  is_dict item = true ->
  converted_field k (conv_fields item) = conv (item_field k item).
Proof.
  destruct item; try discriminate. intros _.
  unfold converted_field, item_field, conv_fields, dict_get_default.
  rewrite dict_get_map_values. destruct (dict_get k fields); reflexivity.
Qed.

Lemma schema_rows_conv (keys : list string) (arr : list value) :
  forallb is_dict arr = true ->
  map (fun converted => VArr (map (fun k => converted_field k converted) keys))
    (map conv_fields arr)
  = map (fun item => VArr (map (fun k => conv (item_field k item)) keys)) arr.
Proof.
  intros Hdicts. rewrite map_map. apply map_ext_in. intros item Hitem.
  rewrite forallb_forall in Hdicts. f_equal. apply map_ext. intros k.
  apply converted_field_conv. apply Hdicts. exact Hitem.
Qed.

Lemma uniform_keys_count (first : value) (rest : list value) :
  (forall item, In item rest -> same_keys item first) ->
  count_distinct (map sorted (map (fun item => pyset (item_keys item)) (first :: rest))) = 1.
Proof.
  intros Hsame. apply count_distinct_one.
  exists (sorted (pyset (item_keys first))). split; [left; reflexivity |].
  intros y Hy. rewrite map_map in Hy. apply in_map_iff in Hy.
  destruct Hy as (item & <- & [<- | Hitem]); [reflexivity |].
  apply sorted_pyset_same. apply Hsame. exact Hitem.
Qed.

Lemma mixed_keys_count (arr : list value) :
  (exists a b, In a arr /\ In b arr /\ ~ same_keys a b) ->
  count_distinct (map sorted (map (fun item => pyset (item_keys item)) arr)) <> 1.
Proof.
  intros (a & b & Ha & Hb & Hdiff) Hcount. apply count_distinct_one in Hcount.
  destruct Hcount as (x & _ & Hall). apply Hdiff.
  assert (E : sorted (pyset (item_keys a)) = sorted (pyset (item_keys b))).
  { transitivity x; [| symmetry]; apply Hall; rewrite map_map; apply in_map_iff;
      eexists; (split; [reflexivity | eassumption]). }
  exact (proj1 (sorted_pyset_same _ _) E).
Qed.



End ArrayFacts.

(** X1: at level [STANDARD] or above, a non-empty array of objects that
    all have the same set of keys is encoded as one schema block: [_sch]
    lists the codes of the sorted keys of the first object, and [_dat]
    has one row per object, in order, with the converted value of each
    of these keys. *)
Theorem uniform_array_becomes_schema_block
    (R : Runtime) (level : CompressionLevel) (string_dict : dict string)
    (first : value) (rest : list value) :
  forallb is_dict (first :: rest) = true ->
  (forall item, In item rest -> same_keys item first) ->
  (level_value STANDARD <= level_value level)%Z ->
  _convert_to_toon level string_dict (VArr (first :: rest))
  = VObj [("_sch", VArr (map (fun k => VStr (abbreviate k)) (sorted (item_keys first))));
          ("_dat", VArr (map (fun item =>
                               VArr (map (fun k =>
                                            _convert_to_toon level string_dict
                                              (item_field k item))
                                       (sorted (item_keys first))))
                            (first :: rest)))].
Proof.
  intros Hdicts Hsame Hlevel.
  rewrite convert_array_unfold. unfold _compress_array.
  rewrite Hdicts. apply Z.leb_le in Hlevel. rewrite Hlevel.
  rewrite (uniform_keys_count first rest Hsame). cbn [Nat.eqb].
  rewrite schema_rows_conv by exact Hdicts. reflexivity.
Qed.

(** X1 on two objects that list the same keys in different orders. *)
Lemma uniform_array_becomes_schema_block_witness :
  _convert_to_toon (R := ModelRuntime.runtime) STANDARD []
    (VArr [VObj [("name", VStr "a"); ("id", VInt 1)];
           VObj [("id", VInt 2); ("name", VStr "b")]])
  = VObj [("_sch", VArr [VStr "i"; VStr "n"]);
          ("_dat", VArr [VArr [VInt 1; VStr "a"]; VArr [VInt 2; VStr "b"]])].
Proof.
  apply (uniform_array_becomes_schema_block ModelRuntime.runtime STANDARD []
           (VObj [("name", VStr "a"); ("id", VInt 1)])
           [VObj [("id", VInt 2); ("name", VStr "b")]]).
  - reflexivity.
  - intros item [<- | []] k. simpl. tauto.
  - simpl. lia.
Defined.



Lemma convert_array_minimal {R : Runtime} (string_dict : dict string) (arr : list value) :
  _convert_to_toon MINIMAL string_dict (VArr arr)
  = VArr (map (_convert_to_toon MINIMAL string_dict) arr).
Proof.
  rewrite convert_array_unfold. unfold _compress_array.
  destruct arr as [| first rest]; [reflexivity |].
  destruct (forallb is_dict (first :: rest)); reflexivity.
Qed.

(** X3: an array is encoded element by element, as a list of the same
    length, whenever no schema applies: at level [MINIMAL], when one of
    its elements is not an object, and at level [STANDARD] when the key
    sets of its objects differ. *)
Theorem array_kept_as_list
    (R : Runtime) (level : CompressionLevel) (string_dict : dict string) (arr : list value) :
  level = MINIMAL \/
  forallb is_dict arr = false \/
  (level = STANDARD /\ exists a b, In a arr /\ In b arr /\ ~ same_keys a b) ->
  _convert_to_toon level string_dict (VArr arr)
  = VArr (map (_convert_to_toon level string_dict) arr).
Proof.
  intros Hcase. rewrite convert_array_unfold. unfold _compress_array.
  destruct arr as [| first rest]; [reflexivity |].
  destruct Hcase as [-> | [Hdicts | [-> Hmixed]]].
  - destruct (forallb is_dict (first :: rest)); reflexivity.
  - rewrite Hdicts. reflexivity.
  - destruct (forallb is_dict (first :: rest)); [| reflexivity].
    pose proof (mixed_keys_count (first :: rest) Hmixed) as Hcount.
    apply Nat.eqb_neq in Hcount. rewrite Hcount. reflexivity.
Qed.

(** X3 on an array with a number among its objects, at the highest
    level. *)
Lemma array_kept_as_list_witness :
  _convert_to_toon (R := ModelRuntime.runtime) EXTREME []
    (VArr [VObj [("id", VInt 1)]; VInt 2; VObj [("id", VInt 3)]])
  = VArr (map (_convert_to_toon (R := ModelRuntime.runtime) EXTREME [])
            [VObj [("id", VInt 1)]; VInt 2; VObj [("id", VInt 3)]]).
Proof.
  apply (array_kept_as_list ModelRuntime.runtime EXTREME []
           [VObj [("id", VInt 1)]; VInt 2; VObj [("id", VInt 3)]]).
  right. left. reflexivity.
Defined.

(** ** Induction on documents *)

Lemma value_induction (P : value -> Prop) :
  P VNull ->
  (forall b, P (VBool b)) ->
  (forall z, P (VInt z)) ->
  (forall m e, P (VFloat m e)) ->
  (forall s, P (VStr s)) ->
  (forall items, Forall P items -> P (VArr items)) ->
  (forall fields, Forall (fun kv => P (snd kv)) fields -> P (VObj fields)) ->
  forall v, P v.
Proof.
  intros Hnull Hbool Hint Hfloat Hstr Harr Hobj.
  fix IH 1. intros [| b | z | m e | s | items | fields].
  - exact Hnull.
  - apply Hbool.
  - apply Hint.
  - apply Hfloat.
  - apply Hstr.
  - apply Harr. induction items as [| item items IHitems]; constructor; [apply IH | exact IHitems].
  - apply Hobj. induction fields as [| [k v] fields IHfields]; constructor;
      [apply IH | exact IHfields].
Qed.

Lemma value_depth_item (item : value) (items : list value) :
  In item items -> value_depth item < value_depth (VArr items).
Proof.
  simpl. induction items as [| x items IH]; simpl; [intros [] |].
  intros [<- | H]; [lia |]. specialize (IH H). lia.
Qed.

Lemma value_depth_field (kv : string * value) (fields : list (string * value)) :
  In kv fields -> value_depth (snd kv) < value_depth (VObj fields).
Proof.
  simpl. induction fields as [| x fields IH]; simpl; [intros [] |].
  intros [<- | H]; [lia |]. specialize (IH H). lia.
Qed.

(** ** Dictionaries with distinct keys *)

Lemma dict_get_None {A : Type} (k : string) (d : dict A) :
  dict_get k d = None <-> ~ In k (dict_keys d).
Proof.
  induction d as [| [k' v] d IH]; simpl.
  - intuition.
  - destruct (String.eqb k k') eqn:E.
    + apply String.eqb_eq in E. subst. split; [discriminate | intros H; exfalso; auto].
    + apply String.eqb_neq in E. rewrite IH. split.
      * intros H [H' | H']; [congruence | auto].
      * intros H H'. apply H. right. exact H'.
Qed.

Lemma dict_has_In {A : Type} (k : string) (d : dict A) :
  dict_has k d = true <-> In k (dict_keys d).
Proof.
  unfold dict_has. destruct (dict_get k d) eqn:E.
  - split; [intros _ | reflexivity].
    destruct (in_dec string_dec k (dict_keys d)) as [H | H]; [exact H |].
    apply dict_get_None in H. congruence.
  - apply dict_get_None in E. split; [discriminate | contradiction].
Qed.

Lemma dict_get_In_values {A : Type} (k : string) (v : A) (d : dict A) :
  dict_get k d = Some v -> In v (dict_values d).
Proof.
  induction d as [| [k' v'] d IH]; simpl; [discriminate |].
  destruct (String.eqb k k'); [intros [= <-]; left; reflexivity | intros H; right; auto].
Qed.

(** Assigning to a key that the dictionary does not have appends it. *)
Lemma dict_set_new {A : Type} (k : string) (v : A) (d : dict A) :
  ~ In k (dict_keys d) -> dict_set k v d = (d ++ [(k, v)])%list.
Proof.
  induction d as [| [k' v'] d IH]; simpl; intros H; [reflexivity |].
  destruct (String.eqb k k') eqn:E.
  - apply String.eqb_eq in E. subst. exfalso. apply H. left. reflexivity.
  - rewrite IH; [reflexivity |]. intros H'. apply H. right. exact H'.
Qed.

Lemma distinct_NoDup (l : list string) : distinct l = true <-> NoDup l.
Proof.
  induction l as [| x l IH]; simpl.
  - split; [constructor | reflexivity].
  - rewrite andb_true_iff, negb_true_iff, mem_false, IH. split.
    + intros [H1 H2]. constructor; assumption.
    + intros H. inversion H; subst. split; assumption.
Qed.

Lemma fold_dict_set_distinct {A : Type} (f : string -> string)
    (l : list (string * A)) (acc : dict A) :
  NoDup (map f (dict_keys l)) ->
  (forall k, In k (dict_keys l) -> ~ In (f k) (dict_keys acc)) ->
  fold_left (fun d kv => dict_set (f (fst kv)) (snd kv) d) l acc
  = (acc ++ map (fun kv => (f (fst kv), snd kv)) l)%list.
Proof.
  revert acc. induction l as [| [k v] l IH]; intros acc Hnodup Hfresh; simpl.
  - rewrite app_nil_r. reflexivity.
  - simpl in Hnodup. inversion Hnodup as [| ? ? Hk Hl]; subst.
    rewrite dict_set_new by (apply Hfresh; left; reflexivity).
    rewrite IH.
    + rewrite <- app_assoc. reflexivity.
    + exact Hl.
    + intros k' Hk'. unfold dict_keys. rewrite map_app, in_app_iff. simpl.
      intros [H | [H | []]].
      * apply (Hfresh k'); [right; exact Hk' | exact H].
      * apply Hk. rewrite H. apply in_map. exact Hk'.
Qed.

(** ** The round trip at the lowest level *)

Lemma level_at_least_minimal (level : CompressionLevel) :
  (level_value MINIMAL <=? level_value level)%Z = true.
Proof.
  destruct level; reflexivity.
Qed.

(** When the codes of the keys differ, [_compress_object] renames the
    keys and keeps the fields in their order. *)
Lemma compress_object_distinct (level : CompressionLevel) (converted : dict value) :
  distinct (map abbreviate (dict_keys converted)) = true ->
  _compress_object level converted
  = VObj (map (fun kv => (abbreviate (fst kv), snd kv)) converted).
Proof.
  intros Hdistinct. apply distinct_NoDup in Hdistinct.
  unfold _compress_object. rewrite level_at_least_minimal.
  rewrite (fold_dict_set_distinct abbreviate converted []); [reflexivity | exact Hdistinct |].
  intros k _ [].
Qed.

Lemma abbreviate_not_reserved (k reserved : string) :
  mem reserved (dict_values KEY_ABBREV) = false ->
  abbreviate k = reserved -> k = reserved.
Proof.
  intros Hfree. unfold abbreviate, dict_get_default.
  destruct (dict_get k KEY_ABBREV) as [code |] eqn:E; [| intros H; exact H].
  intros ->. apply dict_get_In_values in E. apply mem_In in E. congruence.
Qed.

Lemma map_result_inverse {A B : Type} (f : A -> B) (g : B -> result A) (l : list A) :
  (forall x, In x l -> g (f x) = Ok x) ->
  map_result g (map f l) = Ok l.
Proof.
  induction l as [| x l IH]; intros H; simpl; [reflexivity |].
  rewrite (H x (or_introl eq_refl)). simpl.
  rewrite IH; [reflexivity |]. intros y Hy. apply H. right. exact Hy.
Qed.

(** Decoding the fields of an encoded object gives the fields back when
    the keys are plain and differ and the values are recovered. *)
Lemma decompress_fields_inverse (dec : value -> result value) (conv : value -> value)
    (fields : dict value) (acc : dict value) :
  NoDup (dict_keys fields) ->
  (forall k, In k (dict_keys fields) -> ~ In k (dict_keys acc)) ->
  (forall kv, In kv fields ->
     plain_key (fst kv) = true /\ dec (conv (snd kv)) = Ok (snd kv)) ->
  fold_result
    (fun acc' kv =>
       let* v := dec (snd kv) in
       Ok (dict_set (expand (fst kv)) v acc'))
    (map (fun kv => (abbreviate (fst kv), conv (snd kv))) fields) acc
  = Ok (acc ++ fields)%list.
Proof.
  revert acc. induction fields as [| [k v] fields IH]; intros acc Hnodup Hfresh Hfields; simpl.
  - rewrite app_nil_r. reflexivity.
  - destruct (Hfields (k, v) (or_introl eq_refl)) as [Hk Hv]. simpl in Hk, Hv.
    rewrite Hv. simpl. apply String.eqb_eq in Hk. rewrite Hk.
    rewrite dict_set_new by (apply Hfresh; left; reflexivity).
    simpl in Hnodup. inversion Hnodup as [| ? ? Hnew Hrest]; subst.
    rewrite IH.
    + rewrite <- app_assoc. reflexivity.
    + exact Hrest.
    + intros k' Hk'. unfold dict_keys. rewrite map_app, in_app_iff. simpl.
      intros [H | [H | []]].
      * apply (Hfresh k'); [right; exact Hk' | exact H].
      * apply Hnew. rewrite H. exact Hk'.
    + intros kv Hkv. apply Hfields. right. exact Hkv.
Qed.

Lemma plain_string_decoded (refs sd : value) (convert : value -> result value) (s : string) :
  plain_string s = true ->
  convert_from_toon_body refs sd convert (VStr s) = Ok (VStr s).
Proof.
  unfold plain_string. rewrite !andb_true_iff, !negb_true_iff.
  intros [[[[[[H1 H2] H3] H4] H5] H6] H7].
  unfold convert_from_toon_body. rewrite H1, H2, H3, H4, H5, H6, H7. reflexivity.
Qed.

Lemma depth_of_renamed_fields (f : string -> string) (conv : value -> value)
    (fields : dict value) :
  (forall kv, In kv fields -> value_depth (conv (snd kv)) = value_depth (snd kv)) ->
  value_depth (VObj (map (fun kv => (f (fst kv), conv (snd kv))) fields))
  = value_depth (VObj fields).
Proof.
  intros H. simpl. f_equal. induction fields as [| kv fields IH]; simpl; [reflexivity |].
  rewrite (H kv (or_introl eq_refl)), IH; [reflexivity |].
  intros kv' Hkv'. apply H. right. exact Hkv'.
Qed.

Lemma depth_of_mapped_items (conv : value -> value) (items : list value) :
  (forall item, In item items -> value_depth (conv item) = value_depth item) ->
  value_depth (VArr (map conv items)) = value_depth (VArr items).
Proof.
  intros H. simpl. f_equal. induction items as [| x items IH]; simpl; [reflexivity |].
  rewrite (H x (or_introl eq_refl)), IH; [reflexivity |].
  intros y Hy. apply H. right. exact Hy.
Qed.

Section MinimalRoundTrip.

Context {R : Runtime}.
Variable string_dict : dict string.
Variables refs sd : value.

Lemma convert_object_minimal (fields : dict value) :
  distinct (map abbreviate (dict_keys fields)) = true ->
  _convert_to_toon MINIMAL string_dict (VObj fields)
  = VObj (map (fun kv => (abbreviate (fst kv), _convert_to_toon MINIMAL string_dict (snd kv)))
            fields).
Proof.
  intros Hdistinct.
  change (_convert_to_toon MINIMAL string_dict (VObj fields))
    with (_compress_object MINIMAL
            (map (fun kv => (fst kv, _convert_to_toon MINIMAL string_dict (snd kv))) fields)).
  rewrite compress_object_distinct.
  - rewrite map_map. reflexivity.
  - unfold dict_keys in *. rewrite !map_map in *. simpl. exact Hdistinct.
Qed.

Lemma plain_document_decoded (data : value) :
  plain_document data = true ->
  value_depth (_convert_to_toon MINIMAL string_dict data) = value_depth data /\
  forall fuel,
    value_depth data < fuel ->
    convert_from_toon_fuel fuel refs sd (_convert_to_toon MINIMAL string_dict data) = Ok data.
Proof.
  induction data as [| b | z | m e | s | items IH | fields IH] using value_induction;
    intros Hplain.
  - split; [reflexivity |]. intros [| fuel] Hfuel; [lia | reflexivity].
  - split; [reflexivity |]. intros [| fuel] Hfuel; [lia | destruct b; reflexivity].
  - split; [reflexivity |]. intros [| fuel] Hfuel; [lia | reflexivity].
  - split; [reflexivity |]. intros [| fuel] Hfuel; [lia | reflexivity].
  - split; [reflexivity |]. intros [| fuel] Hfuel; [lia |].
    apply plain_string_decoded. exact Hplain.
  - simpl in Hplain. rewrite forallb_forall in Hplain. rewrite Forall_forall in IH.
    rewrite (convert_array_minimal string_dict items).
    split.
    + apply depth_of_mapped_items. intros item Hitem.
      apply IH; [exact Hitem | apply Hplain; exact Hitem].
    + intros [| fuel] Hfuel; [lia |].
      cbn [convert_from_toon_fuel convert_from_toon_body].
      rewrite map_result_inverse; [reflexivity |].
      intros item Hitem. apply IH; [exact Hitem | apply Hplain; exact Hitem |].
      pose proof (value_depth_item item items Hitem). lia.
  - simpl in Hplain. rewrite !andb_true_iff in Hplain.
    destruct Hplain as [[Hfields Hdistinct] Hreserved].
    rewrite forallb_forall in Hfields. rewrite Forall_forall in IH.
    assert (Hkv : forall kv, In kv fields ->
              plain_key (fst kv) = true /\ plain_document (snd kv) = true).
    { intros kv Hin. apply andb_true_iff. apply Hfields. exact Hin. }
    rewrite (convert_object_minimal fields Hdistinct).
    split.
    + apply depth_of_renamed_fields. intros kv Hin.
      apply IH; [exact Hin | apply Hkv; exact Hin].
    + intros [| fuel] Hfuel; [lia |].
      cbn [convert_from_toon_fuel convert_from_toon_body].
      assert (Hblock : dict_has "_sch"
                         (map (fun kv => (abbreviate (fst kv),
                                          _convert_to_toon MINIMAL string_dict (snd kv))) fields)
                       && dict_has "_dat"
                            (map (fun kv => (abbreviate (fst kv),
                                             _convert_to_toon MINIMAL string_dict (snd kv)))
                               fields) = false).
      { apply negb_true_iff in Hreserved. apply andb_false_iff in Hreserved.
        apply andb_false_iff.
        destruct Hreserved as [H | H]; [left | right];
          apply not_true_is_false; intros Hhas; apply dict_has_In in Hhas;
          unfold dict_keys in Hhas; rewrite map_map in Hhas; simpl in Hhas;
          apply in_map_iff in Hhas; destruct Hhas as (kv & Hcode & Hin);
          apply abbreviate_not_reserved in Hcode; try reflexivity;
          apply mem_false in H; apply H; rewrite <- Hcode;
          apply in_map; exact Hin. }
      rewrite Hblock. unfold _decompress_object.
      rewrite (decompress_fields_inverse
                 (convert_from_toon_fuel fuel refs sd)
                 (_convert_to_toon MINIMAL string_dict) fields []).
      * reflexivity.
      * apply distinct_NoDup in Hdistinct.
        apply (NoDup_map_inv abbreviate). exact Hdistinct.
      * intros k _ [].
      * intros kv Hin. split; [apply Hkv; exact Hin |].
        apply IH; [exact Hin | apply Hkv; exact Hin |].
        pose proof (value_depth_field kv fields Hin). lia.
Qed.

End MinimalRoundTrip.

(** X4: at level [MINIMAL], encoding and then decoding returns the
    document itself, with the order of the keys, for every plain
    document that is not given as a string: its strings are none of the
    tokens of the decoder and start with none of its markers, and in
    each object the keys are recovered from their codes, have different
    codes, and are not both [_sch] and [_dat]. *)
Theorem minimal_round_trip_of_plain_documents (R : Runtime) (data : value) :
  plain_document data = true ->
  is_string data = false ->
  round_trip MINIMAL data = Ok data.
Proof.
  intros Hplain Hstring. rewrite round_trip_eq.
  assert (Hinput : input_document data = Ok data).
  { destruct data; try reflexivity. discriminate. }
  rewrite Hinput. cbn [bind]. unfold encoder_toon_data, _convert_from_toon.
  destruct (plain_document_decoded (encoder_string_dict MINIMAL data)
              (VObj (encoder_ref_cache MINIMAL data))
              (string_dict_value (encoder_string_dict MINIMAL data))
              data Hplain) as [Hdepth Hdecoded].
  apply Hdecoded. rewrite Hdepth. lia.
Qed.

(** X4 on the object of the tests of the converter. *)
Lemma minimal_round_trip_of_plain_documents_witness :
  round_trip (R := ModelRuntime.runtime) MINIMAL
    (VObj [("id", VInt 456); ("name", VStr "Test Item"); ("type", VStr "product");
           ("status", VStr "active"); ("tags", VArr [VStr "electronics"; VStr "gadgets"]);
           ("metadata", VObj [("created_at", VStr "2025-01-01T00:00:00Z");
                              ("views", VInt 1500)])])
  = Ok (VObj [("id", VInt 456); ("name", VStr "Test Item"); ("type", VStr "product");
              ("status", VStr "active"); ("tags", VArr [VStr "electronics"; VStr "gadgets"]);
              ("metadata", VObj [("created_at", VStr "2025-01-01T00:00:00Z");
                                 ("views", VInt 1500)])]).
Proof.
  apply (minimal_round_trip_of_plain_documents ModelRuntime.runtime); reflexivity.
Defined.

(** ** What [toon_to_json] rejects *)

(** X5: a text that is a JSON object without the key [_toon] is refused
    with [ValueError], whatever else it holds; an object that has the
    key [_toon], no true [_zlib] and no key [d] makes the decoder raise
    [KeyError]. *)
Theorem envelope_without_version_or_data_is_refused (R : Runtime) (fields : dict value) :
  (dict_has "_toon" fields = false ->
   toon_to_json (json_dumps (VObj fields)) = Err ValueError)
  /\ (dict_has "_toon" fields = true ->
      truthy (dict_get_default "_zlib" VNull fields) = false ->
      dict_has "d" fields = false ->
      toon_to_json (json_dumps (VObj fields)) = Err KeyError).
Proof.
  unfold toon_to_json, toon_to_json_data. rewrite json_loads_dumps.
  cbn [of_option bind contains_key value_get]. split.
  - intros ->. reflexivity.
  - intros -> Hzlib Hd. cbn [negb]. rewrite Hzlib. cbn [bind].
    unfold decode_envelope, value_get, value_index.
    unfold dict_has in Hd. destruct (dict_get "d" fields); [discriminate |].
    cbn [bind of_option]. reflexivity.
Qed.

(** X5 on two envelopes. *)
Lemma envelope_without_version_or_data_is_refused_witness :
  toon_to_json (R := ModelRuntime.runtime)
    (json_dumps (Runtime := ModelRuntime.runtime) (VObj [("d", VObj [("i", VInt 1)])]))
  = Err ValueError
  /\ toon_to_json (R := ModelRuntime.runtime)
       (json_dumps (Runtime := ModelRuntime.runtime) (VObj [("_toon", VStr "2.0")]))
     = Err KeyError.
Proof.
  split.
  - apply (envelope_without_version_or_data_is_refused ModelRuntime.runtime
             [("d", VObj [("i", VInt 1)])]).
    reflexivity.
  - apply (envelope_without_version_or_data_is_refused ModelRuntime.runtime
             [("_toon", VStr "2.0")]); reflexivity.
Defined.

(** X6: a text that is JSON but not an object never reaches the
    conversion: a number, a boolean or null raises [TypeError] at the
    test for [_toon]; a list or a string that does not contain [_toon]
    is refused with [ValueError]; and one that contains it passes the
    test and then raises [AttributeError], having no [get]. *)
Theorem non_object_texts_are_not_decoded (R : Runtime) :
  toon_to_json (json_dumps VNull) = Err TypeError
  /\ (forall b, toon_to_json (json_dumps (VBool b)) = Err TypeError)
  /\ (forall z, toon_to_json (json_dumps (VInt z)) = Err TypeError)
  /\ (forall m e, toon_to_json (json_dumps (VFloat m e)) = Err TypeError)
  /\ (forall s,
        toon_to_json (json_dumps (VStr s))
        = Err (if str_contains "_toon" s then AttributeError else ValueError))
  /\ (forall items,
        toon_to_json (json_dumps (VArr items))
        = Err (if existsb (fun v => match v with
                                    | VStr s => String.eqb s "_toon"
                                    | _ => false
                                    end) items
               then AttributeError else ValueError)).
Proof.
  unfold toon_to_json, toon_to_json_data.
  repeat split; intros; rewrite json_loads_dumps;
    cbn [of_option bind contains_key value_get]; try reflexivity.
  - destruct (str_contains "_toon" s); reflexivity.
  - destruct (existsb _ items); reflexivity.
Qed.

(** ** Decoding and the table of references *)

Lemma map_result_ext {A B : Type} (f g : A -> result B) (l : list A) :
  (forall x, In x l -> f x = g x) -> map_result f l = map_result g l.
Proof.
  induction l as [| x l IH]; intros H; simpl; [reflexivity |].
  rewrite (H x (or_introl eq_refl)).
  rewrite IH; [reflexivity |]. intros y Hy. apply H. right. exact Hy.
Qed.

Lemma fold_result_ext {A S : Type} (f g : S -> A -> result S) (l : list A) (acc : S) :
  (forall acc' x, In x l -> f acc' x = g acc' x) ->
  fold_result f l acc = fold_result g l acc.
Proof.
  revert acc. induction l as [| x l IH]; intros acc H; simpl; [reflexivity |].
  rewrite (H acc x (or_introl eq_refl)). destruct (g acc x) as [acc' | e]; simpl; [| reflexivity].
  apply IH. intros acc'' y Hy. apply H. right. exact Hy.
Qed.

Lemma ref_free_lookup (k : string) (fields : dict value) :
  ref_free (VObj fields) = true -> ref_free (dict_get_default k VNull fields) = true.
Proof.
  simpl. unfold dict_get_default.
  induction fields as [| [k' v] fields IH]; simpl; [reflexivity |].
  rewrite andb_true_iff. intros [Hv Hrest].
  destruct (String.eqb k k'); [exact Hv | apply IH; exact Hrest].
Qed.

Lemma ref_free_chars (s : string) (c : value) :
  In c (map VStr (chars s)) -> ref_free c = true.
Proof.
  induction s as [| a s IH]; simpl; [intros [] |].
  intros [<- | H]; [| apply IH; exact H].
  simpl. rewrite andb_false_r. reflexivity.
Qed.

Lemma In_removelast {A : Type} (x : A) (l : list A) : In x (removelast l) -> In x l.
Proof.
  induction l as [| y l IH]; simpl; [intros [] |].
  destruct l as [| z l]; [intros [] |].
  intros [<- | H]; [left; reflexivity | right; apply IH; exact H].
Qed.

Lemma last_Some_In {A : Type} (l : list A) (x : A) :
  last (map Some l) None = Some x -> In x l.
Proof.
  induction l as [| y l IH]; simpl; [discriminate |].
  destruct l as [| z l]; [intros [= <-]; left; reflexivity |].
  intros H. right. apply IH. exact H.
Qed.

(** The rows of a block whose data are free of markers. *)
Lemma rows_ref_free (values : value) (rows : list value) :
  ref_free values = true -> py_iter values = Ok rows ->
  forall row, In row rows -> row_ref_free row = true.
Proof.
  destruct values; simpl; try discriminate; intros Hfree [= <-] row Hrow.
  - apply in_map_iff in Hrow. destruct Hrow as (c & <- & _). reflexivity.
  - rewrite forallb_forall in Hfree. specialize (Hfree row Hrow).
    destruct row; first [exact Hfree | reflexivity].
  - apply in_map_iff in Hrow. destruct Hrow as (k & <- & _). reflexivity.
Qed.

(** The cells and the optional fields of such a row. *)
Lemma split_row_ref_free (row : value) (optional : option value) (cells : list value) :
  row_ref_free row = true -> split_row row = Ok (optional, cells) ->
  (forall c, In c cells -> ref_free c = true)
  /\ (forall opt, optional = Some opt -> ref_free opt = true).
Proof.
  unfold split_row. destruct row; simpl; try discriminate; intros Hfree.
  - (* a string: its characters *)
    destruct (last (map (fun c => Some (VStr c)) (chars s)) None) as [final |] eqn:Hlast;
      simpl; [| discriminate].
    assert (Hfinal : exists c, final = VStr c).
    { clear Hfree. revert Hlast. generalize (chars s). intros l.
      induction l as [| c l IH]; simpl; [discriminate |].
      destruct l as [| c' l]; [intros [= <-]; eexists; reflexivity | exact IH]. }
    destruct Hfinal as (c & ->). intros [= <- <-]. split.
    + intros c'. apply ref_free_chars.
    + discriminate.
  - (* a list: its elements *)
    destruct (last (map Some items) None) as [final |] eqn:Hlast; simpl; [| discriminate].
    rewrite forallb_forall in Hfree.
    pose proof (Hfree final (last_Some_In items final Hlast)) as Hfinal.
    destruct final; try (intros [= <- <-]; split; [exact Hfree | discriminate]).
    destruct (dict_has "_opt" fields).
    + intros [= <- <-]. split.
      * intros c Hc. apply Hfree. apply In_removelast. exact Hc.
      * intros opt [= <-]. apply ref_free_lookup. exact Hfinal.
    + intros [= <- <-]. split; [exact Hfree | discriminate].
Qed.

Section RefsIrrelevant.

Variables convertA convertB : value -> result value.

Lemma decompress_object_agree (fields : dict value) :
  (forall data, ref_free data = true -> convertA data = convertB data) ->
  ref_free (VObj fields) = true ->
  _decompress_object convertA fields = _decompress_object convertB fields.
Proof.
  intros Hagree Hfree. unfold _decompress_object. simpl in Hfree.
  rewrite forallb_forall in Hfree.
  rewrite (fold_result_ext
             (fun acc kv => let* v := convertA (snd kv) in Ok (dict_set (expand (fst kv)) v acc))
             (fun acc kv => let* v := convertB (snd kv) in Ok (dict_set (expand (fst kv)) v acc)));
    [reflexivity |].
  intros acc kv Hkv. rewrite (Hagree (snd kv)); [reflexivity | apply Hfree; exact Hkv].
Qed.

Lemma decompress_row_agree (expanded_keys : list value) (row : value) :
  (forall data, ref_free data = true -> convertA data = convertB data) ->
  row_ref_free row = true ->
  decompress_row convertA expanded_keys row = decompress_row convertB expanded_keys row.
Proof.
  intros Hagree Hrow. unfold decompress_row.
  destruct (split_row row) as [[optional cells] | e] eqn:Hsplit; [| reflexivity].
  destruct (split_row_ref_free row optional cells Hrow Hsplit) as [Hcells Hopt].
  cbn [bind fst snd].
  rewrite (fold_result_ext
             (fun obj kc => let* v := convertA (snd kc) in set_item (fst kc) v obj)
             (fun obj kc => let* v := convertB (snd kc) in set_item (fst kc) v obj)).
  - match goal with
    | |- context [fold_result ?f (combine expanded_keys cells) []] =>
        destruct (fold_result f (combine expanded_keys cells) []) as [obj | e]
    end; [| reflexivity].
    cbn [bind]. destruct optional as [opt |]; [| reflexivity].
    destruct (truthy opt); [| reflexivity].
    destruct opt; try reflexivity.
    pose proof (Hopt (VObj fields) eq_refl) as Hfields. simpl in Hfields.
    rewrite forallb_forall in Hfields.
    rewrite (fold_result_ext
               (fun obj' kv => let* v := convertA (snd kv) in
                               Ok (dict_set (expand (fst kv)) v obj'))
               (fun obj' kv => let* v := convertB (snd kv) in
                               Ok (dict_set (expand (fst kv)) v obj')));
      [reflexivity |].
    intros acc kv Hkv. rewrite (Hagree (snd kv)); [reflexivity | apply Hfields; exact Hkv].
  - intros acc kc Hkc. rewrite (Hagree (snd kc)); [reflexivity |].
    apply Hcells. destruct kc as [key cell]. apply in_combine_r in Hkc. exact Hkc.
Qed.

Lemma decompress_schema_array_agree (fields : dict value) :
  (forall data, ref_free data = true -> convertA data = convertB data) ->
  ref_free (VObj fields) = true ->
  _decompress_schema_array convertA fields = _decompress_schema_array convertB fields.
Proof.
  intros Hagree Hfree. unfold _decompress_schema_array.
  destruct (py_iter (dict_get_default "_sch" VNull fields)) as [schema_items | e];
    [| reflexivity].
  cbn [bind]. destruct (map_result expand_schema_key schema_items) as [expanded_keys | e];
    [| reflexivity].
  cbn [bind].
  destruct (py_iter (dict_get_default "_dat" VNull fields)) as [rows | e] eqn:Hrows;
    [| reflexivity].
  cbn [bind].
  rewrite (map_result_ext (decompress_row convertA expanded_keys)
             (decompress_row convertB expanded_keys)); [reflexivity |].
  intros row Hrow. apply decompress_row_agree; [exact Hagree |].
  apply (rows_ref_free (dict_get_default "_dat" VNull fields) rows);
    [apply ref_free_lookup; exact Hfree | exact Hrows | exact Hrow].
Qed.

End RefsIrrelevant.

Lemma convert_from_toon_fuel_refs (fuel : nat) (refs refs' string_dict data : value) :
  ref_free data = true ->
  convert_from_toon_fuel fuel refs string_dict data
  = convert_from_toon_fuel fuel refs' string_dict data.
Proof.
  revert data. induction fuel as [| fuel IH]; intros data Hfree; [reflexivity |].
  cbn [convert_from_toon_fuel]. unfold convert_from_toon_body.
  destruct data; try reflexivity.
  - cbn [ref_free] in Hfree. apply negb_true_iff in Hfree. rewrite Hfree. reflexivity.
  - rewrite (map_result_ext (convert_from_toon_fuel fuel refs string_dict)
               (convert_from_toon_fuel fuel refs' string_dict)); [reflexivity |].
    intros item Hitem. apply IH. simpl in Hfree. rewrite forallb_forall in Hfree.
    apply Hfree. exact Hitem.
  - destruct (dict_has "_sch" fields && dict_has "_dat" fields).
    + apply decompress_schema_array_agree; [exact IH | exact Hfree].
    + apply decompress_object_agree; [exact IH | exact Hfree].
Qed.

(** X7: when no string in a value position of the data starts with
    [@r], decoding the data gives the same result, or raises the same
    error, with every table of references. *)
Theorem decoding_without_markers_ignores_references
    (data refs refs' string_dict : value) :
  ref_free data = true ->
  _convert_from_toon data refs string_dict = _convert_from_toon data refs' string_dict.
Proof.
  intros Hfree. unfold _convert_from_toon. apply convert_from_toon_fuel_refs. exact Hfree.
Qed.

(** X7 on a schema block, with an empty table and with a table that
    defines [r0]. *)
Lemma decoding_without_markers_ignores_references_witness :
  _convert_from_toon
    (VObj [("_sch", VArr [VStr "i"]); ("_dat", VArr [VArr [VStr "r0"]; VArr [VInt 2]])])
    (VObj []) (VObj [])
  = _convert_from_toon
      (VObj [("_sch", VArr [VStr "i"]); ("_dat", VArr [VArr [VStr "r0"]; VArr [VInt 2]])])
      (VObj [("r0", VObj [("id", VInt 7)])]) (VObj []).
Proof.
  apply decoding_without_markers_ignores_references. reflexivity.
Defined.

(** ** The encoder writes no reference marker *)

Lemma dict_values_set (P : value -> Prop) (k : string) (v : value) (d : dict value) :
  P v -> Forall P (dict_values d) -> Forall P (dict_values (dict_set k v d)).
Proof.
  intros Hv. induction d as [| [k' v'] d IH]; simpl; intros Hd.
  - constructor; [exact Hv | constructor].
  - inversion Hd as [| ? ? Hv' Hd']; subst.
    destruct (String.eqb k k'); simpl; constructor; auto.
Qed.

Lemma dict_values_fold (P : value -> Prop) (f : string -> string)
    (l : list (string * value)) (acc : dict value) :
  Forall P (dict_values l) -> Forall P (dict_values acc) ->
  Forall P (dict_values (fold_left (fun d kv => dict_set (f (fst kv)) (snd kv) d) l acc)).
Proof.
  revert acc. induction l as [| [k v] l IH]; simpl; intros acc Hl Hacc; [exact Hacc |].
  inversion Hl as [| ? ? Hv Hl']; subst.
  apply IH; [exact Hl' |]. apply dict_values_set; assumption.
Qed.

Lemma ref_free_object (fields : dict value) :
  ref_free (VObj fields) = true <-> Forall (fun v => ref_free v = true) (dict_values fields).
Proof.
  simpl. rewrite forallb_forall. unfold dict_values. rewrite Forall_forall. split.
  - intros H v Hv. apply in_map_iff in Hv. destruct Hv as (kv & <- & Hkv). apply H. exact Hkv.
  - intros H kv Hkv. apply H. apply in_map. exact Hkv.
Qed.

Lemma ref_free_array (items : list value) :
  ref_free (VArr items) = true <-> Forall (fun v => ref_free v = true) items.
Proof.
  simpl. rewrite forallb_forall, Forall_forall. reflexivity.
Qed.

Lemma find_string_In (s : string) (string_dict : dict string) (dict_id : string) :
  find_string s string_dict = Some dict_id -> In dict_id (dict_keys string_dict).
Proof.
  induction string_dict as [| [k v] d IH]; simpl; [discriminate |].
  destruct (String.eqb s v); [intros [= <-]; left; reflexivity | intros H; right; auto].
Qed.

Lemma abbreviate_ref_free (k : string) :
  startswith k "@r" = false -> startswith (abbreviate k) "@r" = false.
Proof.
  intros Hk. unfold abbreviate, dict_get_default.
  destruct (dict_get k KEY_ABBREV) as [code |] eqn:E; [| exact Hk].
  apply dict_get_In_values in E.
  assert (Hall : forallb (fun c => negb (startswith c "@r")) (dict_values KEY_ABBREV) = true)
    by (vm_compute; reflexivity).
  rewrite forallb_forall in Hall. apply negb_true_iff. apply Hall. exact E.
Qed.

Section EncoderRefFree.

Context {R : Runtime}.
Variable level : CompressionLevel.
Variable string_dict : dict string.

Lemma compress_string_ref_free (s : string) :
  dictionary_ids_ok string_dict = true ->
  startswith s "@r" = false ->
  startswith (_compress_string level string_dict s) "@r" = false.
Proof.
  intros Hids Hs. unfold _compress_string.
  destruct (level_value AGGRESSIVE <=? level_value level)%Z; [| exact Hs].
  destruct (find_string s string_dict) as [dict_id |] eqn:E.
  - apply find_string_In in E. apply in_map_iff in E. destruct E as (kv & <- & Hkv).
    unfold dictionary_ids_ok in Hids. rewrite forallb_forall in Hids.
    specialize (Hids kv Hkv). apply negb_true_iff in Hids.
    destruct (fst kv) as [| c rest]; [reflexivity |].
    simpl in Hids |- *. exact Hids.
  - cbn [andb]. destruct (re_match VALUE_PATTERNS_iso_timestamp s); [reflexivity |].
    destruct (re_match VALUE_PATTERNS_uuid s); [reflexivity | exact Hs].
Qed.

Lemma converted_field_ref_free (k : string) (converted : dict value) :
  Forall (fun v => ref_free v = true) (dict_values converted) ->
  ref_free (converted_field k converted) = true.
Proof.
  intros H. unfold converted_field, dict_get_default.
  destruct (dict_get k converted) as [v |] eqn:E; [| reflexivity].
  apply dict_get_In_values in E. rewrite Forall_forall in H. apply H. exact E.
Qed.

Lemma compress_object_ref_free (converted : dict value) :
  Forall (fun v => ref_free v = true) (dict_values converted) ->
  ref_free (_compress_object level converted) = true.
Proof.
  intros H. unfold _compress_object. apply ref_free_object.
  apply (dict_values_fold _
           (fun k => if (level_value MINIMAL <=? level_value level)%Z then abbreviate k else k));
    [exact H | constructor].
Qed.

Lemma partial_row_ref_free (common_keys common_keys_list : list string)
    (converted : dict value) :
  Forall (fun v => ref_free v = true) (dict_values converted) ->
  ref_free (partial_row common_keys common_keys_list converted) = true.
Proof.
  intros H. unfold partial_row.
  assert (Hrow : Forall (fun v => ref_free v = true)
                   (map (fun k => converted_field k converted) common_keys_list)).
  { apply Forall_forall. intros v Hv. apply in_map_iff in Hv. destruct Hv as (k & <- & _).
    apply converted_field_ref_free. exact H. }
  assert (Hopt : ref_free (VObj (optional_fields common_keys converted)) = true).
  { apply ref_free_object. unfold optional_fields, dict_of_items.
    apply (dict_values_fold _ (fun k => k)); [| constructor].
    unfold dict_values. rewrite map_map. simpl.
    apply Forall_forall. intros v Hv. apply in_map_iff in Hv.
    destruct Hv as (kv & <- & Hkv). apply filter_In in Hkv. destruct Hkv as [Hkv _].
    rewrite Forall_forall in H. apply H. apply in_map. exact Hkv. }
  destruct (optional_fields common_keys converted) as [| o os].
  - apply ref_free_array. exact Hrow.
  - apply ref_free_array. apply Forall_app. split; [exact Hrow |].
    constructor; [| constructor]. simpl in Hopt |- *. rewrite Hopt. reflexivity.
Qed.

Lemma schema_keys_ref_free (keys : list string) :
  (forall k, In k keys -> startswith k "@r" = false) ->
  ref_free (VArr (map (fun k => VStr (abbreviate k)) keys)) = true.
Proof.
  intros H. apply ref_free_array. apply Forall_forall. intros v Hv.
  apply in_map_iff in Hv. destruct Hv as (k & <- & Hk).
  cbn [ref_free]. apply negb_true_iff. apply abbreviate_ref_free. apply H. exact Hk.
Qed.

Lemma compress_array_ref_free (arr converted_items : list value)
    (converted_fields : list (dict value)) :
  Forall (fun v => ref_free v = true) converted_items ->
  Forall (fun converted => Forall (fun v => ref_free v = true) (dict_values converted))
    converted_fields ->
  (forall item k, In item arr -> In k (item_keys item) -> startswith k "@r" = false) ->
  ref_free (_compress_array level arr converted_items converted_fields) = true.
Proof.
  intros Hitems Hfields Hkeys. unfold _compress_array.
  destruct arr as [| first rest]; [reflexivity |].
  assert (Hfallback : ref_free (VArr converted_items) = true)
    by (apply ref_free_array; exact Hitems).
  destruct (forallb is_dict (first :: rest)); [| exact Hfallback].
  destruct (level_value STANDARD <=? level_value level)%Z; [| exact Hfallback].
  destruct (count_distinct _ =? 1).
  - cbn [ref_free forallb snd]. rewrite andb_true_r. apply andb_true_iff. split.
    + apply schema_keys_ref_free. intros k Hk. rewrite In_sorted in Hk.
      apply (Hkeys first); [left; reflexivity | exact Hk].
    + apply forallb_forall. intros row Hrow. apply in_map_iff in Hrow.
      destruct Hrow as (converted & <- & Hconverted).
      apply ref_free_array. apply Forall_forall. intros v Hv.
      apply in_map_iff in Hv. destruct Hv as (k & <- & _).
      apply converted_field_ref_free.
      rewrite Forall_forall in Hfields. apply Hfields. exact Hconverted.
  - destruct (level_value AGGRESSIVE <=? level_value level)%Z; [| exact Hfallback].
    destruct (3 <=? _); [| exact Hfallback].
    cbn [ref_free forallb snd]. rewrite andb_true_r. apply andb_true_iff. split.
    + apply schema_keys_ref_free. intros k Hk. rewrite In_sorted in Hk.
      apply (proj1 (proj2 (set_intersection_keys first rest) k)) in Hk.
      apply (Hkeys first); [left; reflexivity |]. apply Hk. left. reflexivity.
    + apply forallb_forall. intros row Hrow. apply in_map_iff in Hrow.
      destruct Hrow as (converted & <- & Hconverted).
      apply partial_row_ref_free.
      rewrite Forall_forall in Hfields. apply Hfields. exact Hconverted.
Qed.

Lemma convert_to_toon_ref_free (data : value) :
  dictionary_ids_ok string_dict = true ->
  ref_free_document data = true ->
  ref_free (_convert_to_toon level string_dict data) = true
  /\ match data with
     | VObj fields =>
         Forall (fun kv => ref_free (_convert_to_toon level string_dict (snd kv)) = true) fields
     | _ => True
     end.
Proof.
  intros Hids.
  induction data as [| b | z | m e | s | items IH | fields IH] using value_induction;
    intros Hdoc.
  - split; [reflexivity | exact I].
  - split; [destruct b; reflexivity | exact I].
  - split; [reflexivity | exact I].
  - split; [reflexivity | exact I].
  - split; [| exact I]. cbn [_convert_to_toon ref_free]. apply negb_true_iff.
    apply compress_string_ref_free; [exact Hids |].
    cbn [ref_free_document] in Hdoc. apply negb_true_iff. exact Hdoc.
  - split; [| exact I]. rewrite convert_array_unfold.
    cbn [ref_free_document] in Hdoc. rewrite forallb_forall in Hdoc.
    rewrite Forall_forall in IH.
    apply compress_array_ref_free.
    + apply Forall_forall. intros v Hv. apply in_map_iff in Hv.
      destruct Hv as (item & <- & Hitem). apply IH; [exact Hitem | apply Hdoc; exact Hitem].
    + apply Forall_forall. intros converted Hconverted. apply in_map_iff in Hconverted.
      destruct Hconverted as (item & <- & Hitem).
      destruct (IH item Hitem (Hdoc item Hitem)) as [_ Hvalues].
      destruct item; try constructor.
      unfold dict_values. rewrite map_map. simpl.
      apply Forall_forall. intros v Hv. apply in_map_iff in Hv.
      destruct Hv as (kv & <- & Hkv). rewrite Forall_forall in Hvalues.
      apply Hvalues. exact Hkv.
    + intros item k Hitem Hk. specialize (Hdoc item Hitem).
      destruct item; try contradiction. cbn [ref_free_document] in Hdoc.
      rewrite forallb_forall in Hdoc. simpl in Hk. apply in_map_iff in Hk.
      destruct Hk as (kv & <- & Hkv). specialize (Hdoc kv Hkv).
      apply andb_true_iff in Hdoc. destruct Hdoc as [Hkey _].
      apply negb_true_iff. exact Hkey.
  - cbn [ref_free_document] in Hdoc. rewrite forallb_forall in Hdoc.
    rewrite Forall_forall in IH.
    assert (Hvalues : Forall (fun kv => ref_free (_convert_to_toon level string_dict (snd kv))
                                        = true) fields).
    { apply Forall_forall. intros kv Hkv. apply IH; [exact Hkv |].
      specialize (Hdoc kv Hkv). apply andb_true_iff in Hdoc. apply Hdoc. }
    split; [| exact Hvalues].
    change (_convert_to_toon level string_dict (VObj fields))
      with (_compress_object level
              (map (fun kv => (fst kv, _convert_to_toon level string_dict (snd kv))) fields)).
    apply compress_object_ref_free.
    unfold dict_values. rewrite map_map. simpl.
    rewrite Forall_forall in Hvalues |- *. intros v Hv. apply in_map_iff in Hv.
    destruct Hv as (kv & <- & Hkv). apply Hvalues. exact Hkv.
Qed.

End EncoderRefFree.

Lemma dictionary_ids_ok_set (k v : string) (d : dict string) :
  startswith k "r" = false ->
  dictionary_ids_ok d = true -> dictionary_ids_ok (dict_set k v d) = true.
Proof.
  intros Hk. unfold dictionary_ids_ok.
  induction d as [| [k' v'] d IH]; cbn [dict_set forallb fst].
  - intros _. rewrite Hk. reflexivity.
  - rewrite andb_true_iff. intros [Hk' Hd].
    destruct (String.eqb k k'); cbn [forallb fst]; rewrite Hk'; cbn [andb];
      [exact Hd | apply IH; exact Hd].
Qed.

Lemma fold_add_string_ids_ok (entries : list (string * nat)) (counter : nat) (d : dict string) :
  dictionary_ids_ok d = true ->
  dictionary_ids_ok (snd (fold_left add_string entries (counter, d))) = true.
Proof.
  revert counter d. induction entries as [| [s n] entries IH]; intros counter d Hd.
  - exact Hd.
  - cbn [fold_left]. unfold add_string at 2. cbn [snd fst].
    destruct (2 <=? n); apply IH; [| exact Hd].
    apply dictionary_ids_ok_set; [reflexivity | exact Hd].
Qed.

Lemma encoder_string_dict_ids_ok (level : CompressionLevel) (data : value) :
  dictionary_ids_ok (encoder_string_dict level data) = true.
Proof.
  unfold encoder_string_dict.
  destruct (level_value AGGRESSIVE <=? level_value level)%Z; [| reflexivity].
  unfold _build_string_dict. apply fold_add_string_ids_ok. reflexivity.
Qed.

(** X8: when no string and no key of a document starts with [@r], the
    data that the encoder writes hold no reference marker at any level,
    and decoding what the encoder returned gives the same result as
    decoding with no table of references at all: the table [_refs] that
    the encoder emits has no effect. *)
Theorem emitted_references_are_never_used
    (R : Runtime) (level : CompressionLevel) (data : value) :
  ref_free_document data = true ->
  is_string data = false ->
  ref_free (encoder_toon_data level data) = true
  /\ round_trip level data
     = _convert_from_toon (encoder_toon_data level data) (VObj [])
         (string_dict_value (encoder_string_dict level data)).
Proof.
  intros Hdoc Hstring.
  assert (Hfree : ref_free (encoder_toon_data level data) = true).
  { unfold encoder_toon_data.
    apply convert_to_toon_ref_free; [apply encoder_string_dict_ids_ok | exact Hdoc]. }
  split; [exact Hfree |].
  rewrite round_trip_eq.
  assert (Hinput : input_document data = Ok data).
  { destruct data; try reflexivity. discriminate. }
  rewrite Hinput. cbn [bind].
  unfold _convert_from_toon. apply convert_from_toon_fuel_refs. exact Hfree.
Qed.

(** X8 on three objects of one shape, for which the encoder emits a
    table of references. *)
Lemma emitted_references_are_never_used_witness :
  ref_free
    (encoder_toon_data (R := ModelRuntime.runtime) STANDARD
       (VArr [VObj [("id", VInt 1)]; VObj [("id", VInt 2)]; VObj [("id", VInt 3)]])) = true
  /\ round_trip (R := ModelRuntime.runtime) STANDARD
       (VArr [VObj [("id", VInt 1)]; VObj [("id", VInt 2)]; VObj [("id", VInt 3)]])
     = _convert_from_toon
         (encoder_toon_data (R := ModelRuntime.runtime) STANDARD
            (VArr [VObj [("id", VInt 1)]; VObj [("id", VInt 2)]; VObj [("id", VInt 3)]]))
         (VObj [])
         (string_dict_value
            (encoder_string_dict STANDARD
               (VArr [VObj [("id", VInt 1)]; VObj [("id", VInt 2)]; VObj [("id", VInt 3)]]))).
Proof.
  apply (emitted_references_are_never_used ModelRuntime.runtime STANDARD); reflexivity.
Defined.

(** ** Objects whose keys share a code *)

Lemma dict_get_set {A : Type} (c k : string) (v : A) (d : dict A) :
  dict_get c (dict_set k v d) = if String.eqb c k then Some v else dict_get c d.
Proof.
  destruct (String.eqb c k) eqn:E.
  - apply String.eqb_eq in E. subst. apply dict_get_set_same.
  - apply String.eqb_neq in E. apply dict_get_set_other. exact E.
Qed.

Lemma dict_keys_set {A : Type} (k : string) (v : A) (d : dict A) :
  dict_keys (dict_set k v d)
  = if mem k (dict_keys d) then dict_keys d else (dict_keys d ++ [k])%list.
Proof.
  induction d as [| [k' v'] d IH]; simpl; [reflexivity |].
  destruct (String.eqb k k') eqn:E; simpl; [reflexivity |].
  rewrite IH. unfold mem. destruct (existsb (String.eqb k) (dict_keys d)); reflexivity.
Qed.

Lemma NoDup_dict_set {A : Type} (k : string) (v : A) (d : dict A) :
  NoDup (dict_keys d) -> NoDup (dict_keys (dict_set k v d)).
Proof.
  intros Hd. rewrite dict_keys_set. destruct (mem k (dict_keys d)) eqn:E; [exact Hd |].
  apply mem_false in E. apply NoDup_app; [exact Hd | constructor; [intros [] | constructor] |].
  intros x Hx [<- | []]. contradiction.
Qed.

Lemma In_dict_keys_set {A : Type} (c k : string) (v : A) (d : dict A) :
  In c (dict_keys (dict_set k v d)) <-> c = k \/ In c (dict_keys d).
Proof.
  rewrite dict_keys_set. destruct (mem k (dict_keys d)) eqn:E.
  - apply mem_In in E. split; [auto | intros [-> | H]; assumption].
  - rewrite in_app_iff. simpl. intuition.
Qed.

Lemma find_append {A : Type} (p : A -> bool) (l1 l2 : list A) :
  find p (l1 ++ l2)%list = match find p l1 with Some x => Some x | None => find p l2 end.
Proof.
  induction l1 as [| x l1 IH]; simpl; [reflexivity |].
  destruct (p x); [reflexivity | exact IH].
Qed.

(** A loop of assignments [d[f(k)] = v]: the keys stay different, they
    are the keys met, and under each key is the value assigned last. *)
Lemma fold_dict_set_spec {A : Type} (f : string -> string)
    (l : list (string * A)) (acc : dict A) :
  NoDup (dict_keys acc) ->
  NoDup (dict_keys (fold_left (fun d kv => dict_set (f (fst kv)) (snd kv) d) l acc))
  /\ (forall c,
        In c (dict_keys (fold_left (fun d kv => dict_set (f (fst kv)) (snd kv) d) l acc))
        <-> In c (dict_keys acc) \/ In c (map f (dict_keys l)))
  /\ (forall c,
        dict_get c (fold_left (fun d kv => dict_set (f (fst kv)) (snd kv) d) l acc)
        = match find (fun kv => String.eqb (f (fst kv)) c) (rev l) with
          | Some kv => Some (snd kv)
          | None => dict_get c acc
          end).
Proof.
  revert acc. induction l as [| [k v] l IH]; intros acc Hacc; simpl.
  - split; [exact Hacc |]. split; [intros c; tauto | reflexivity].
  - destruct (IH (dict_set (f k) v acc) (NoDup_dict_set (f k) v acc Hacc))
      as (Hnodup & Hkeys & Hget).
    split; [exact Hnodup |]. split.
    + intros c. rewrite Hkeys, In_dict_keys_set. intuition.
    + intros c. rewrite Hget, find_append.
      destruct (find (fun kv => String.eqb (f (fst kv)) c) (rev l)); [reflexivity |].
      simpl. rewrite dict_get_set, (String.eqb_sym c (f k)).
      destruct (String.eqb (f k) c); reflexivity.
Qed.

(** X9: the encoded object never has two equal keys; its keys are the
    codes of the keys of the object; and under each code it holds the
    converted value of the last key of the object that has this code, so
    when several keys share a code only the last of their values is
    kept. *)
Theorem encoded_object_keeps_last_value_per_code
    (R : Runtime) (level : CompressionLevel) (string_dict : dict string) (obj : dict value) :
  exists fields,
    _convert_to_toon level string_dict (VObj obj) = VObj fields
    /\ NoDup (dict_keys fields)
    /\ (forall c, In c (dict_keys fields) <-> In c (map abbreviate (dict_keys obj)))
    /\ (forall c,
          dict_get c fields
          = option_map (fun kv => _convert_to_toon level string_dict (snd kv))
              (find (fun kv => String.eqb (abbreviate (fst kv)) c) (rev obj))).
Proof.
  change (_convert_to_toon level string_dict (VObj obj))
    with (_compress_object level
            (map (fun kv => (fst kv, _convert_to_toon level string_dict (snd kv))) obj)).
  unfold _compress_object. rewrite level_at_least_minimal.
  eexists. split; [reflexivity |].
  destruct (fold_dict_set_spec abbreviate
              (map (fun kv => (fst kv, _convert_to_toon level string_dict (snd kv))) obj) []
              (NoDup_nil _)) as (Hnodup & Hkeys & Hget).
  split; [exact Hnodup |]. split.
  - intros c. rewrite Hkeys. unfold dict_keys. rewrite !map_map. simpl. tauto.
  - intros c. rewrite Hget. rewrite <- map_rev.
    induction (rev obj) as [| [k v] l IH]; simpl; [reflexivity |].
    destruct (String.eqb (abbreviate k) c); [reflexivity | exact IH].
Qed.

(** ** Bounds on the metrics *)

Lemma round_half_even_le (x : Q) (k : Z) :
  (x <= inject_Z k)%Q -> (round_half_even x <= k)%Z.
Proof.
  intros Hx. pose proof (round_half_even_close x) as Hclose.
  assert (Hlt : (inject_Z (round_half_even x) < inject_Z (k + 1))%Q).
  { rewrite inject_Z_plus. change (inject_Z 1) with 1%Q.
    revert Hclose. apply Qabs_case; intros; lra. }
  rewrite <- Zlt_Qlt in Hlt. lia.
Qed.

Lemma round_half_even_ge (x : Q) (k : Z) :
  (inject_Z k <= x)%Q -> (k <= round_half_even x)%Z.
Proof.
  intros Hx. pose proof (round_half_even_close x) as Hclose.
  assert (Hlt : (inject_Z (k - 1) < inject_Z (round_half_even x))%Q).
  { unfold Z.sub. rewrite inject_Z_plus. change (inject_Z (- (1))) with (- (1))%Q.
    revert Hclose. apply Qabs_case; intros; lra. }
  rewrite <- Zlt_Qlt in Hlt. lia.
Qed.

Lemma round2_le (x : Q) (k : Z) : (x <= inject_Z k)%Q -> (round2 x <= inject_Z k)%Q.
Proof.
  intros Hx. unfold round2.
  assert (H : (round_half_even (x * 100) <= k * 100)%Z).
  { apply round_half_even_le. rewrite inject_Z_mult. change (inject_Z 100) with 100%Q. lra. }
  unfold Qle. simpl. lia.
Qed.

Lemma round2_ge (x : Q) (k : Z) : (inject_Z k <= x)%Q -> (inject_Z k <= round2 x)%Q.
Proof.
  intros Hx. unfold round2.
  assert (H : (k * 100 <= round_half_even (x * 100))%Z).
  { apply round_half_even_ge. rewrite inject_Z_mult. change (inject_Z 100) with 100%Q. lra. }
  unfold Qle. simpl. lia.
Qed.

(** X10: the savings percent that [calculate_metrics] returns is never
    above 100; it is at least 0 when the encoded text is not longer than
    the original and at most 0 when it is longer; and the compression
    ratio is never negative. *)
Theorem metrics_bounds
    (level : CompressionLevel) (metrics : metrics_state) (original_json toon_str : string) :
  (savings_percent (calculate_metrics level metrics original_json toon_str) <= 100)%Q
  /\ (0 <= compression_ratio (calculate_metrics level metrics original_json toon_str))%Q
  /\ (if String.length toon_str <=? String.length original_json
      then (0 <= savings_percent (calculate_metrics level metrics original_json toon_str))%Q
      else (savings_percent (calculate_metrics level metrics original_json toon_str) <= 0)%Q).
Proof.
  unfold calculate_metrics. cbn [savings_percent compression_ratio].
  set (o := String.length original_json). set (e := String.length toon_str).
  destruct (0 <? o) eqn:Ho.
  - apply Nat.ltb_lt in Ho.
    assert (Hpos : (0 < inject_Z (Z.of_nat o))%Q).
    { change 0%Q with (inject_Z 0). rewrite <- Zlt_Qlt. lia. }
    assert (Hnonneg : (0 <= inject_Z (Z.of_nat e))%Q).
    { change 0%Q with (inject_Z 0). rewrite <- Zle_Qle. lia. }
    assert (Hquot : forall a : Z,
              (inject_Z a / inject_Z (Z.of_nat o) * 100
               == inject_Z a * 100 / inject_Z (Z.of_nat o))%Q).
    { intros a. field. lra. }
    split; [| split].
    + change 100%Q with (inject_Z 100) at 2. apply round2_le.
      rewrite Hquot. apply Qle_shift_div_r; [exact Hpos |].
      change 100%Q with (inject_Z 100). rewrite <- !inject_Z_mult, <- Zle_Qle. lia.
    + apply Qle_shift_div_l; [exact Hpos |]. lra.
    + destruct (e <=? o) eqn:He.
      * apply Nat.leb_le in He. change 0%Q with (inject_Z 0). apply round2_ge.
        rewrite Hquot. apply Qle_shift_div_l; [exact Hpos |].
        change 100%Q with (inject_Z 100). change 0%Q with (inject_Z 0).
        rewrite <- !inject_Z_mult, <- Zle_Qle. lia.
      * apply Nat.leb_gt in He. change 0%Q with (inject_Z 0). apply round2_le.
        rewrite Hquot. apply Qle_shift_div_r; [exact Hpos |].
        change 100%Q with (inject_Z 100). change 0%Q with (inject_Z 0).
        rewrite <- !inject_Z_mult, <- Zle_Qle. lia.
  - split; [| split].
    + vm_compute. discriminate.
    + apply Qle_refl.
    + destruct (e <=? o); vm_compute; discriminate.
Qed.

(** ** The flags and the range of the planner *)

Lemma plan_step_flags (st : CompressionStrategy) (p : Pattern) :
  use_schema_compression (plan_step st p) = use_schema_compression st || schema_trigger p
  /\ use_partial_schema (plan_step st p) = use_partial_schema st || partial_trigger p
  /\ use_reference_compression (plan_step st p)
     = use_reference_compression st || reference_trigger p
  /\ use_string_dictionary (plan_step st p) = use_string_dictionary st || dictionary_trigger p
  /\ use_value_compression (plan_step st p) = use_value_compression st || value_trigger p
  /\ (expected_savings st <= expected_savings (plan_step st p))%Q.
Proof.
  unfold plan_step, schema_trigger, partial_trigger, reference_trigger,
    dictionary_trigger, value_trigger.
  destruct (pattern_type p);
    repeat match goal with
           | |- context [Qgtb ?a ?b] => destruct (Qgtb a b)
           end;
    try (cbn; rewrite ?orb_false_r, ?orb_true_r; repeat split; lra).
  destruct (3 <=? count p)%Z eqn:Hcount;
    cbn; rewrite ?orb_false_r, ?orb_true_r; repeat split; try lra.
  apply Z.leb_le in Hcount. unfold Qmin2.
  assert (H : (0 <= inject_Z (count p) * (2 # 100))%Q).
  { apply Qmult_le_0_compat; [| lra].
    change 0%Q with (inject_Z 0). rewrite <- Zle_Qle. lia. }
  destruct (Qle_bool (20 # 100) (inject_Z (count p) * (2 # 100))); lra.
Qed.

Lemma plan_fold_flags (found : list Pattern) (st : CompressionStrategy) :
  use_schema_compression (fold_left plan_step found st)
  = use_schema_compression st || existsb schema_trigger found
  /\ use_partial_schema (fold_left plan_step found st)
     = use_partial_schema st || existsb partial_trigger found
  /\ use_reference_compression (fold_left plan_step found st)
     = use_reference_compression st || existsb reference_trigger found
  /\ use_string_dictionary (fold_left plan_step found st)
     = use_string_dictionary st || existsb dictionary_trigger found
  /\ use_value_compression (fold_left plan_step found st)
     = use_value_compression st || existsb value_trigger found
  /\ (expected_savings st <= expected_savings (fold_left plan_step found st))%Q.
Proof.
  revert st. induction found as [| p found IH]; intros st; cbn [fold_left existsb].
  - rewrite !orb_false_r. repeat split; lra.
  - destruct (IH (plan_step st p)) as (H1 & H2 & H3 & H4 & H5 & H6).
    destruct (plan_step_flags st p) as (E1 & E2 & E3 & E4 & E5 & E6).
    rewrite H1, H2, H3, H4, H5, E1, E2, E3, E4, E5, !orb_assoc.
    repeat split; lra.
Qed.

(** X11: the planner sets each flag exactly when some finding calls for
    it: schema compression for a consistent-schema array of confidence
    above 0.8, partial schema for one of confidence above 0.5 and at most
    0.8, reference compression for a repeated structure counted three
    times or more, the string dictionary for enum values, and value
    compression for a time series or a database record. *)
Theorem planner_flags_follow_findings (found : list Pattern) (custom_abbrevs : dict string) :
  (use_schema_compression (get_compression_strategy found custom_abbrevs) = true
   <-> exists p, In p found /\ pattern_type p = CONSISTENT_SCHEMA_ARRAY
                 /\ (8 # 10 < confidence p)%Q)
  /\ (use_partial_schema (get_compression_strategy found custom_abbrevs) = true
      <-> exists p, In p found /\ pattern_type p = CONSISTENT_SCHEMA_ARRAY
                    /\ (5 # 10 < confidence p)%Q /\ (confidence p <= 8 # 10)%Q)
  /\ (use_reference_compression (get_compression_strategy found custom_abbrevs) = true
      <-> exists p, In p found /\ pattern_type p = REPEATED_STRUCTURE /\ (3 <= count p)%Z)
  /\ (use_string_dictionary (get_compression_strategy found custom_abbrevs) = true
      <-> exists p, In p found /\ pattern_type p = ENUM_VALUES)
  /\ (use_value_compression (get_compression_strategy found custom_abbrevs) = true
      <-> exists p, In p found
                    /\ (pattern_type p = TIME_SERIES \/ pattern_type p = DATABASE_RECORD)).
Proof.
  unfold get_compression_strategy.
  cbn [use_schema_compression use_partial_schema use_reference_compression
       use_string_dictionary use_value_compression].
  match goal with
  | |- context [fold_left plan_step found ?st] =>
      destruct (plan_fold_flags found st) as (H1 & H2 & H3 & H4 & H5 & _)
  end.
  rewrite H1, H2, H3, H4, H5. cbn [use_schema_compression use_partial_schema
    use_reference_compression use_string_dictionary use_value_compression orb].
  rewrite !existsb_exists.
  repeat split.
  - intros (p & Hp & Ht). exists p. split; [exact Hp |].
    unfold schema_trigger in Ht. destruct (pattern_type p); try discriminate.
    split; [reflexivity | apply Qgtb_true; exact Ht].
  - intros (p & Hp & Ht & Hc). exists p. split; [exact Hp |].
    unfold schema_trigger. rewrite Ht. apply Qgtb_true. exact Hc.
  - intros (p & Hp & Ht). exists p. split; [exact Hp |].
    unfold partial_trigger in Ht. destruct (pattern_type p); try discriminate.
    apply andb_true_iff in Ht. destruct Ht as [Hhigh Hlow].
    apply negb_true_iff in Hhigh.
    split; [reflexivity |]. split; [apply Qgtb_true; exact Hlow | apply Qgtb_false; exact Hhigh].
  - intros (p & Hp & Ht & Hlow & Hhigh). exists p. split; [exact Hp |].
    unfold partial_trigger. rewrite Ht. apply andb_true_iff. split.
    + apply negb_true_iff. apply Qgtb_false. exact Hhigh.
    + apply Qgtb_true. exact Hlow.
  - intros (p & Hp & Ht). exists p. split; [exact Hp |].
    unfold reference_trigger in Ht. destruct (pattern_type p); try discriminate.
    split; [reflexivity | apply Z.leb_le; exact Ht].
  - intros (p & Hp & Ht & Hc). exists p. split; [exact Hp |].
    unfold reference_trigger. rewrite Ht. apply Z.leb_le. exact Hc.
  - intros (p & Hp & Ht). exists p. split; [exact Hp |].
    unfold dictionary_trigger in Ht. destruct (pattern_type p); try discriminate. reflexivity.
  - intros (p & Hp & Ht). exists p. split; [exact Hp |].
    unfold dictionary_trigger. rewrite Ht. reflexivity.
  - intros (p & Hp & Ht). exists p. split; [exact Hp |].
    unfold value_trigger in Ht. destruct (pattern_type p); try discriminate; auto.
  - intros (p & Hp & [Ht | Ht]); exists p; (split; [exact Hp |]);
      unfold value_trigger; rewrite Ht; reflexivity.
Qed.

(** X12: the savings estimate of the planner lies between 0 and 0.85 and
    the recommended level is one of 1, 2, 3, 4, whatever the findings
    and the custom abbreviations. *)
Theorem planner_output_ranges (found : list Pattern) (custom_abbrevs : dict string) :
  (0 <= expected_savings (get_compression_strategy found custom_abbrevs))%Q
  /\ (expected_savings (get_compression_strategy found custom_abbrevs) <= 85 # 100)%Q
  /\ (1 <= recommended_level (get_compression_strategy found custom_abbrevs) <= 4)%Z.
Proof.
  unfold get_compression_strategy. cbn [expected_savings recommended_level].
  match goal with
  | |- context [fold_left plan_step found ?st] =>
      destruct (plan_fold_flags found st) as (_ & _ & _ & _ & _ & Hsavings);
      set (looped := fold_left plan_step found st) in *
  end.
  cbn [expected_savings] in Hsavings.
  set (savings := match custom_abbrevs with
                  | [] => expected_savings looped
                  | _ :: _ => _
                  end).
  assert (Hnonneg : (0 <= savings)%Q).
  { unfold savings. destruct custom_abbrevs as [| c cs]; [exact Hsavings |].
    assert (H : (0 <= inject_Z (Z.of_nat (length (c :: cs))) * (1 # 100))%Q).
    { apply Qmult_le_0_compat; [| lra].
      change 0%Q with (inject_Z 0). rewrite <- Zle_Qle. lia. }
    lra. }
  split; [| split].
  - unfold Qmin2. destruct (Qle_bool savings (85 # 100)); lra.
  - apply Qmin2_le_r.
  - unfold level_for.
    repeat match goal with
           | |- context [Qgtb ?a ?b] => destruct (Qgtb a b)
           end; cbn [fst]; lia.
Qed.

(** ** The level that the optimizer selects *)

Import SmartOptimizer.

Lemma Qltb_true (a b : Q) : Qltb a b = true <-> (a < b)%Q.
Proof.
  unfold Qltb. destruct (Qle_bool b a) eqn:E; simpl.
  - apply Qle_bool_iff in E. split; [discriminate | intros H; lra].
  - apply Qle_bool_false in E. split; [intros _; exact E | reflexivity].
Qed.

Lemma Qltb_false (a b : Q) : Qltb a b = false <-> (b <= a)%Q.
Proof.
  unfold Qltb. destruct (Qle_bool b a) eqn:E; simpl.
  - apply Qle_bool_iff in E. split; [intros _; exact E | reflexivity].
  - apply Qle_bool_false in E. split; [discriminate | intros H; lra].
Qed.

Lemma Qltb_Qmin2 (x cap threshold : Q) :
  (threshold < cap)%Q -> Qltb (Qmin2 x cap) threshold = Qltb x threshold.
Proof.
  intros Hcap. unfold Qmin2. destruct (Qle_bool x cap) eqn:E; [reflexivity |].
  apply Qle_bool_false in E.
  transitivity false; [| symmetry]; apply Qltb_false; lra.
Qed.

(** The comparisons of a goal, each decided and read as an inequality. *)
Ltac decide_comparisons :=
  repeat match goal with
         | |- context [Qltb ?a ?b] =>
             let E := fresh "E" in
             destruct (Qltb a b) eqn:E;
             [apply Qltb_true in E | apply Qltb_false in E]
         | |- context [Qgtb ?a ?b] =>
             let E := fresh "E" in
             destruct (Qgtb a b) eqn:E;
             [apply Qgtb_true in E | apply Qgtb_false in E]
         end.

(** X13: for each profile, the level that [_select_level] returns does
    not decrease when the expected savings increase; the profile
    [SPEED] never selects a level above [STANDARD] and the profile
    [SIZE] never one below it. *)
Theorem select_level_is_monotone (profile : OptimizationProfile) (s1 s2 : Q) :
  (s1 <= s2)%Q ->
  (level_value (_select_level profile s1) <= level_value (_select_level profile s2))%Z
  /\ (level_value (_select_level SPEED s1) <= level_value STANDARD)%Z
  /\ (level_value STANDARD <= level_value (_select_level SIZE s1))%Z.
Proof.
  intros Hle. split; [| split].
  - destruct profile; unfold _select_level; decide_comparisons;
      cbn [level_value]; try lia; exfalso; lra.
  - unfold _select_level. decide_comparisons; cbn [level_value]; lia.
  - unfold _select_level. decide_comparisons; cbn [level_value]; lia.
Qed.

(** X13 for the balanced profile, at savings 0.1 and 0.7. *)
Lemma select_level_is_monotone_witness :
  (level_value (_select_level BALANCED (1 # 10))
   <= level_value (_select_level BALANCED (7 # 10)))%Z
  /\ (level_value (_select_level SPEED (1 # 10)) <= level_value STANDARD)%Z
  /\ (level_value STANDARD <= level_value (_select_level SIZE (1 # 10)))%Z.
Proof.
  apply (select_level_is_monotone BALANCED (1 # 10) (7 # 10)).
  unfold Qle. simpl. lia.
Defined.

Lemma select_level_against_level_for (x : Q) :
  level_value (_select_level SIZE (Qmin2 x (85 # 100))) = Z.max 2 (fst (level_for x))
  /\ (fst (level_for x) - 1
      <= level_value (_select_level BALANCED (Qmin2 x (85 # 100)))
      <= fst (level_for x))%Z
  /\ (level_value (_select_level SPEED (Qmin2 x (85 # 100)))
      <= Z.min 2 (fst (level_for x)))%Z.
Proof.
  unfold _select_level, level_for.
  rewrite !Qgtb_Qmin2, !Qltb_Qmin2 by lra.
  repeat split; decide_comparisons; cbn [level_value fst]; try lia; exfalso; lra.
Qed.

(** X14: the level that the optimizer selects from the savings estimate
    of the planner, against the level that the planner recommends: with
    the profile [SIZE] it is the recommended level, raised to 2 when
    that is 1; with [BALANCED] it is the recommended level or the one
    below; with [SPEED] it is at most 2 and at most the recommended
    level. *)
Theorem optimizer_level_against_recommendation
    (found : list Pattern) (custom_abbrevs : dict string) :
  level_value (_select_level SIZE
                 (expected_savings (get_compression_strategy found custom_abbrevs)))
  = Z.max 2 (recommended_level (get_compression_strategy found custom_abbrevs))
  /\ (recommended_level (get_compression_strategy found custom_abbrevs) - 1
      <= level_value (_select_level BALANCED
                        (expected_savings (get_compression_strategy found custom_abbrevs)))
      <= recommended_level (get_compression_strategy found custom_abbrevs))%Z
  /\ (level_value (_select_level SPEED
                     (expected_savings (get_compression_strategy found custom_abbrevs)))
      <= Z.min 2 (recommended_level (get_compression_strategy found custom_abbrevs)))%Z.
Proof.
  unfold get_compression_strategy. cbn [expected_savings recommended_level].
  apply select_level_against_level_for.
Qed.

(** ** The string dictionary *)

Lemma str_of_nat_inj (n m : nat) : str_of_nat n = str_of_nat m -> n = m.
Proof.
  unfold str_of_nat. intros H.
  apply (f_equal NilEmpty.uint_of_string) in H. rewrite !NilEmpty.usu in H.
  injection H as H. apply Unsigned.to_uint_inj. exact H.
Qed.

Lemma append_inj_l (prefix a b : string) : prefix ++ a = prefix ++ b -> a = b.
Proof.
  induction prefix as [| c prefix IH]; simpl; [intros H; exact H |].
  intros [= H]. apply IH. exact H.
Qed.

Lemma numbered_keys_fresh {A : Type} (prefix : string) (start : nat) (l : list A) (i : nat) :
  i < start -> ~ In (prefix ++ str_of_nat i) (dict_keys (numbered prefix start l)).
Proof.
  revert start. induction l as [| x l IH]; intros start Hi; simpl; [intros [] |].
  intros [H | H].
  - apply append_inj_l, str_of_nat_inj in H. lia.
  - revert H. apply IH. lia.
Qed.

Lemma NoDup_numbered_keys {A : Type} (prefix : string) (start : nat) (l : list A) :
  NoDup (dict_keys (numbered prefix start l)).
Proof.
  revert start. induction l as [| x l IH]; intros start; simpl; constructor.
  - apply numbered_keys_fresh. lia.
  - apply IH.
Qed.

Lemma dict_values_numbered {A : Type} (prefix : string) (start : nat) (l : list A) :
  dict_values (numbered prefix start l) = l.
Proof.
  revert start. induction l as [| x l IH]; intros start; simpl; [reflexivity |].
  f_equal. apply IH.
Qed.

Lemma fold_add_string (entries : list (string * nat)) (counter : nat) (d : dict string) :
  (forall i, counter <= i -> ~ In ("s" ++ str_of_nat i) (dict_keys d)) ->
  fold_left add_string entries (counter, d)
  = (counter + length (frequent_strings entries),
     (d ++ numbered "s" counter (frequent_strings entries))%list).
Proof.
  revert counter d. induction entries as [| [s n] entries IH]; intros counter d Hfresh.
  - simpl. rewrite Nat.add_0_r, app_nil_r. reflexivity.
  - cbn [fold_left]. unfold add_string at 2. cbn [fst snd].
    unfold frequent_strings. cbn [filter snd].
    destruct (2 <=? n).
    + rewrite dict_set_new by (apply Hfresh; lia).
      rewrite IH.
      * cbn [map fst length numbered]. unfold frequent_strings.
        rewrite <- app_assoc. cbn [app]. f_equal. lia.
      * intros i Hi. unfold dict_keys. rewrite map_app, in_app_iff. cbn [map fst In].
        intros [H | [H | []]].
        -- apply (Hfresh i); [lia | exact H].
        -- apply append_inj_l, str_of_nat_inj in H. lia.
    + apply IH. exact Hfresh.
Qed.

Lemma collect_strings_leaves (d : value) (counts : dict nat) :
  collect_strings d counts = fold_left count_string (string_leaves d) counts.
Proof.
  revert counts.
  induction d as [| b | z | m e | s | items IH | fields IH] using value_induction;
    intros counts; try reflexivity.
  - cbn [collect_strings string_leaves]. revert counts.
    induction IH as [| item items Hitem _ IHitems]; intros counts; [reflexivity |].
    cbn [flat_map]. rewrite fold_left_app, <- Hitem. apply IHitems.
  - cbn [collect_strings string_leaves]. revert counts.
    induction IH as [| [k v] fields Hfield _ IHfields]; intros counts; [reflexivity |].
    cbn [flat_map snd]. rewrite fold_left_app. cbn [snd] in Hfield. rewrite <- Hfield.
    apply IHfields.
Qed.

Lemma dict_get_default_set (s k : string) (n : nat) (d : dict nat) :
  dict_get_default s O (dict_set k n d)
  = if String.eqb s k then n else dict_get_default s O d.
Proof.
  unfold dict_get_default. rewrite dict_get_set. destruct (String.eqb s k); reflexivity.
Qed.

(** What the counter holds after a list of strings. *)
Lemma count_strings_spec (l : list string) (counts : dict nat) :
  NoDup (dict_keys counts) ->
  NoDup (dict_keys (fold_left count_string l counts))
  /\ forall s,
       dict_get_default s O (fold_left count_string l counts)
       = dict_get_default s O counts
         + (if 10 <? String.length s then count_occ string_dec l s else 0).
Proof.
  revert counts. induction l as [| x l IH]; intros counts Hnodup.
  - split; [exact Hnodup |]. intros s. cbn [fold_left count_occ].
    destruct (10 <? String.length s); lia.
  - cbn [fold_left].
    assert (Hstep : NoDup (dict_keys (count_string counts x))).
    { unfold count_string. destruct (10 <? String.length x); [| exact Hnodup].
      apply NoDup_dict_set. exact Hnodup. }
    destruct (IH (count_string counts x) Hstep) as [Hkeys Hcount].
    split; [exact Hkeys |]. intros s. rewrite Hcount. cbn [count_occ].
    unfold count_string.
    destruct (string_dec x s) as [-> | Hne].
    + destruct (10 <? String.length s).
      * rewrite dict_get_default_set, String.eqb_refl. lia.
      * lia.
    + destruct (10 <? String.length x).
      * rewrite dict_get_default_set.
        assert (E : String.eqb s x = false) by (apply String.eqb_neq; congruence).
        rewrite E. reflexivity.
      * reflexivity.
Qed.

Lemma In_dict_get {A : Type} (k : string) (v : A) (d : dict A) :
  NoDup (dict_keys d) -> (In (k, v) d <-> dict_get k d = Some v).
Proof.
  induction d as [| [k' v'] d IH]; simpl; intros Hnodup.
  - split; [intros [] | discriminate].
  - inversion Hnodup as [| ? ? Hk' Hd]; subst.
    destruct (String.eqb k k') eqn:E.
    + apply String.eqb_eq in E. subst k'. split.
      * intros [[= <-] | H]; [reflexivity |].
        exfalso. apply Hk'. apply (in_map fst) in H. exact H.
      * intros [= <-]. left. reflexivity.
    + apply String.eqb_neq in E. rewrite <- (IH Hd). split.
      * intros [[= H _] | H]; [congruence | exact H].
      * intros H. right. exact H.
Qed.

Lemma NoDup_map_fst_filter {A B : Type} (f : A * B -> bool) (l : list (A * B)) :
  NoDup (map fst l) -> NoDup (map fst (filter f l)).
Proof.
  induction l as [| x l IH]; simpl; intros H; [constructor |].
  inversion H as [| ? ? Hx Hl]; subst.
  destruct (f x); simpl; [| apply IH; exact Hl].
  constructor; [| apply IH; exact Hl].
  intros Hin. apply Hx. apply in_map_iff in Hin. destruct Hin as (y & E & Hy).
  apply filter_In in Hy. rewrite <- E. apply in_map. apply Hy.
Qed.

Lemma In_frequent_strings (counts : dict nat) (s : string) :
  NoDup (dict_keys counts) ->
  (In s (frequent_strings counts) <-> 2 <= dict_get_default s O counts).
Proof.
  intros Hnodup. unfold frequent_strings, dict_get_default. rewrite in_map_iff. split.
  - intros ([s' n] & E & Hin). simpl in E. subst s'.
    apply filter_In in Hin. destruct Hin as [Hin Hn]. simpl in Hn.
    apply (In_dict_get s n counts Hnodup) in Hin. rewrite Hin.
    apply Nat.leb_le. exact Hn.
  - intros Hn. destruct (dict_get s counts) as [n |] eqn:E; [| lia].
    exists (s, n). split; [reflexivity |]. apply filter_In. split.
    + apply (In_dict_get s n counts Hnodup). exact E.
    + apply Nat.leb_le. exact Hn.
Qed.

Lemma string_dictionary_contents_aux (data : value) :
  exists strings,
    _build_string_dict data = numbered "s" 0 strings
    /\ forall s,
         In s strings
         <-> 10 < String.length s /\ 2 <= count_occ string_dec (string_leaves data) s.
Proof.
  exists (frequent_strings (collect_strings data [])).
  destruct (count_strings_spec (string_leaves data) [] (NoDup_nil _)) as [Hnodup Hcount].
  rewrite <- collect_strings_leaves in Hnodup, Hcount.
  split.
  - unfold _build_string_dict. rewrite fold_add_string; [reflexivity |].
    intros i _ [].
  - intros s. rewrite (In_frequent_strings _ s Hnodup), Hcount.
    cbn [dict_get_default dict_get]. destruct (10 <? String.length s) eqn:E.
    + apply Nat.ltb_lt in E. split; [intros H; split; [exact E | lia] | intros [_ H]; lia].
    + apply Nat.ltb_ge in E. split; [intros H; lia | intros [H _]; lia].
Qed.

(** X15: the string dictionary gives the identifiers [s0], [s1], ... to
    the strings that are longer than ten characters and occur at least
    twice as values of the document, each of them once, and to no other
    string. *)
Theorem string_dictionary_contents (data : value) :
  exists strings,
    _build_string_dict data = numbered "s" 0 strings
    /\ NoDup strings
    /\ forall s,
         In s strings
         <-> 10 < String.length s /\ 2 <= count_occ string_dec (string_leaves data) s.
Proof.
  exists (frequent_strings (collect_strings data [])).
  destruct (count_strings_spec (string_leaves data) [] (NoDup_nil _)) as [Hnodup Hcount].
  rewrite <- collect_strings_leaves in Hnodup, Hcount.
  split; [| split].
  - unfold _build_string_dict. rewrite fold_add_string; [reflexivity |].
    intros i _ [].
  - unfold frequent_strings. apply NoDup_map_fst_filter. exact Hnodup.
  - intros s. rewrite (In_frequent_strings _ s Hnodup), Hcount.
    cbn [dict_get_default dict_get]. destruct (10 <? String.length s) eqn:E.
    + apply Nat.ltb_lt in E. split; [intros H; split; [exact E | lia] | intros [_ H]; lia].
    + apply Nat.ltb_ge in E. split; [intros H; lia | intros [H _]; lia].
Qed.

Lemma dict_get_Some_In {A : Type} (k : string) (v : A) (d : dict A) :
  dict_get k d = Some v -> In k (dict_keys d).
Proof.
  intros H. destruct (in_dec string_dec k (dict_keys d)) as [Hin | Hout]; [exact Hin |].
  apply dict_get_None in Hout. congruence.
Qed.

(** The identifier under which a string of the dictionary is found is
    the identifier under which the dictionary holds it. *)
Lemma find_string_numbered (prefix : string) (start : nat) (l : list string) (s : string) :
  In s l ->
  exists i,
    find_string s (numbered prefix start l) = Some (prefix ++ str_of_nat i)
    /\ dict_get (prefix ++ str_of_nat i) (numbered prefix start l) = Some s.
Proof.
  revert start. induction l as [| x l IH]; intros start; [intros [] |].
  intros Hin. cbn [numbered find_string dict_get].
  destruct (String.eqb s x) eqn:E.
  - apply String.eqb_eq in E. subst x. exists start.
    rewrite String.eqb_refl. split; reflexivity.
  - apply String.eqb_neq in E.
    destruct Hin as [-> | Hin]; [contradiction |].
    destruct (IH (S start) Hin) as (i & Hfind & Hget). exists i.
    split; [exact Hfind |].
    destruct (String.eqb (prefix ++ str_of_nat i) (prefix ++ str_of_nat start)) eqn:Ei;
      [| exact Hget].
    exfalso. apply String.eqb_eq in Ei. apply dict_get_Some_In in Hget.
    rewrite Ei in Hget. revert Hget. apply numbered_keys_fresh. lia.
Qed.

(** X16: at level [AGGRESSIVE] or above, a string longer than ten
    characters that occurs at least twice in the document is written as
    [@] followed by its identifier, and the decoder, given the string
    dictionary of the encoder, turns that token back into the string. *)
Theorem dictionary_substitution_is_inverted
    (R : Runtime) (level : CompressionLevel) (data refs : value) (s : string) :
  (level_value AGGRESSIVE <= level_value level)%Z ->
  10 < String.length s ->
  2 <= count_occ string_dec (string_leaves data) s ->
  exists dict_id,
    _compress_string level (encoder_string_dict level data) s = "@" ++ dict_id
    /\ _convert_from_toon (VStr ("@" ++ dict_id)) refs
         (string_dict_value (encoder_string_dict level data))
       = Ok (VStr s).
Proof.
  intros Hlevel Hlong Htwice. apply Z.leb_le in Hlevel.
  unfold encoder_string_dict, _compress_string. rewrite Hlevel.
  destruct (string_dictionary_contents_aux data) as (strings & -> & Hin).
  assert (Hs : In s strings) by (apply Hin; split; assumption).
  destruct (find_string_numbered "s" 0 strings s Hs) as (i & Hfind & Hget).
  rewrite Hfind. exists ("s" ++ str_of_nat i). split; [reflexivity |].
  unfold _convert_from_toon, string_dict_value.
  cbn [value_depth convert_from_toon_fuel convert_from_toon_body].
  change ("@" ++ "s" ++ str_of_nat i) with (String "@" (String "s" (str_of_nat i))).
  cbn [String.eqb Ascii.eqb Bool.eqb startswith andb str_drop value_get].
  unfold dict_get_default. rewrite dict_get_map_values.
  change (String "s" (str_of_nat i)) with ("s" ++ str_of_nat i).
  rewrite Hget. reflexivity.
Qed.

(** X16 on a document that holds a long string twice. *)
Lemma dictionary_substitution_is_inverted_witness :
  exists dict_id,
    _compress_string (R := ModelRuntime.runtime) AGGRESSIVE
      (encoder_string_dict AGGRESSIVE
         (VArr [VStr "a long repeated string"; VStr "a long repeated string"]))
      "a long repeated string"
    = "@" ++ dict_id
    /\ _convert_from_toon (VStr ("@" ++ dict_id)) (VObj [])
         (string_dict_value
            (encoder_string_dict AGGRESSIVE
               (VArr [VStr "a long repeated string"; VStr "a long repeated string"])))
       = Ok (VStr "a long repeated string").
Proof.
  apply (dictionary_substitution_is_inverted ModelRuntime.runtime AGGRESSIVE
           (VArr [VStr "a long repeated string"; VStr "a long repeated string"])
           (VObj []) "a long repeated string").
  - simpl. lia.
  - simpl. lia.
  - simpl. lia.
Defined.

(** ** The cache of references *)

Section RefCache.

Context {R : Runtime}.

Lemma collect_structures_occurrences (d : value) (p : string)
    (structure_counts : dict (list (string * value))) :
  collect_structures d p structure_counts
  = fold_left record_structure (occurrences d p) structure_counts.
Proof.
  revert p structure_counts.
  induction d as [| b | z | m e | s | items IH | fields IH] using value_induction;
    intros p structure_counts; try reflexivity.
  - cbn [collect_structures occurrences]. generalize 0. revert structure_counts.
    induction IH as [| item items Hitem _ IHitems]; intros structure_counts i;
      [reflexivity |].
    rewrite fold_left_app, <- Hitem. apply IHitems.
  - cbn [collect_structures occurrences fold_left].
    change (dict_set (struct_hash fields)
              (dict_get_default (struct_hash fields) [] structure_counts
               ++ [(p, VObj fields)])%list structure_counts)
      with (record_structure structure_counts (p, VObj fields)).
    generalize (record_structure structure_counts (p, VObj fields)).
    induction IH as [| [k v] fields' Hfield _ IHfields]; intros acc; [reflexivity |].
    rewrite fold_left_app. cbn [snd] in Hfield. rewrite <- Hfield. apply IHfields.
Qed.

Lemma dict_get_default_set_list {A : Type} (s k : string) (v : list A) (d : dict (list A)) :
  dict_get_default s [] (dict_set k v d)
  = if String.eqb s k then v else dict_get_default s [] d.
Proof.
  unfold dict_get_default. rewrite dict_get_set. destruct (String.eqb s k); reflexivity.
Qed.

(** What [structure_counts] holds after a list of objects: under each
    key, the objects filed under it, in order. *)
Lemma record_structures_spec (l : list (string * value))
    (structure_counts : dict (list (string * value))) :
  NoDup (dict_keys structure_counts) ->
  NoDup (dict_keys (fold_left record_structure l structure_counts))
  /\ forall h,
       dict_get_default h [] (fold_left record_structure l structure_counts)
       = (dict_get_default h [] structure_counts
          ++ filter (fun occ => String.eqb (structure_hash (snd occ)) h) l)%list.
Proof.
  revert structure_counts. induction l as [| x l IH]; intros sc Hnodup.
  - split; [exact Hnodup |]. intros h. cbn [fold_left filter]. rewrite app_nil_r. reflexivity.
  - cbn [fold_left].
    assert (Hstep : NoDup (dict_keys (record_structure sc x))).
    { unfold record_structure. apply NoDup_dict_set. exact Hnodup. }
    destruct (IH (record_structure sc x) Hstep) as [Hkeys Hget].
    split; [exact Hkeys |]. intros h. rewrite Hget. cbn [filter].
    unfold record_structure at 1. rewrite dict_get_default_set_list.
    change (struct_hash match snd x with VObj fields => fields | _ => [] end)
      with (structure_hash (snd x)).
    rewrite (String.eqb_sym h (structure_hash (snd x))).
    destruct (String.eqb (structure_hash (snd x)) h) eqn:E.
    + apply String.eqb_eq in E. rewrite E, <- app_assoc. reflexivity.
    + reflexivity.
Qed.

Lemma fold_add_reference (entries : dict (list (string * value)))
    (counter : nat) (d : dict value) :
  (forall i, counter <= i -> ~ In ("r" ++ str_of_nat i) (dict_keys d)) ->
  fold_left add_reference entries (counter, d)
  = (counter + length (frequent_structures entries),
     (d ++ numbered "r" counter (frequent_structures entries))%list).
Proof.
  revert counter d. induction entries as [| [h occs] entries IH]; intros counter d Hfresh.
  - simpl. rewrite Nat.add_0_r, app_nil_r. reflexivity.
  - cbn [fold_left]. unfold add_reference at 2. cbn [fst snd].
    unfold frequent_structures. cbn [flat_map snd].
    destruct (3 <=? length occs); [| apply IH; exact Hfresh].
    destruct occs as [| [p first] occs]; [apply IH; exact Hfresh |].
    rewrite dict_set_new by (apply Hfresh; lia).
    rewrite IH.
    + cbn [app length numbered]. unfold frequent_structures.
      rewrite <- app_assoc. cbn [app]. f_equal. lia.
    + intros i Hi. unfold dict_keys. rewrite map_app, in_app_iff. cbn [map fst In].
      intros [H | [H | []]].
      * apply (Hfresh i); [lia | exact H].
      * apply append_inj_l, str_of_nat_inj in H. lia.
Qed.

Lemma json_dumps_inj (a b : value) : json_dumps a = json_dumps b -> a = b.
Proof.
  intros H. apply (f_equal json_loads) in H. rewrite !json_loads_dumps in H.
  injection H as H. exact H.
Qed.

Lemma map_VStr_inj (a b : list string) : map VStr a = map VStr b -> a = b.
Proof.
  revert b. induction a as [| x a IH]; intros [| y b]; simpl; try discriminate.
  - reflexivity.
  - intros [= -> H]. f_equal. apply IH. exact H.
Qed.

Lemma structure_hash_shape (a b : value) :
  String.eqb (structure_hash a) (structure_hash b) = same_shape b a.
Proof.
  assert (Hhash : forall o, structure_hash o = json_dumps (VArr (map VStr (shape o)))).
  { intros o. destruct o; reflexivity. }
  rewrite !Hhash. unfold same_shape.
  destruct (list_string_eqb (shape b) (shape a)) eqn:E.
  - apply list_string_eqb_true in E. rewrite E. apply String.eqb_refl.
  - apply String.eqb_neq. intros H. apply json_dumps_inj in H. injection H as H.
    apply map_VStr_inj in H.
    assert (E' : list_string_eqb (shape b) (shape a) = true)
      by (apply list_string_eqb_true; congruence).
    congruence.
Qed.

End RefCache.

Lemma filter_map_snd {A B : Type} (f : B -> bool) (l : list (A * B)) :
  filter f (map snd l) = map snd (filter (fun x => f (snd x)) l).
Proof.
  induction l as [| x l IH]; simpl; [reflexivity |].
  destruct (f (snd x)); simpl; rewrite IH; reflexivity.
Qed.

Lemma find_map_snd {A B : Type} (f : B -> bool) (l : list (A * B)) :
  find f (map snd l) = option_map snd (find (fun x => f (snd x)) l).
Proof.
  induction l as [| x l IH]; simpl; [reflexivity |].
  destruct (f (snd x)); [reflexivity | exact IH].
Qed.

Lemma filter_head_find {A : Type} (f : A -> bool) (l : list A) (x : A) (rest : list A) :
  filter f l = x :: rest -> find f l = Some x.
Proof.
  induction l as [| y l IH]; simpl; [discriminate |].
  destruct (f y); [intros [= -> _]; reflexivity | exact IH].
Qed.

Lemma find_ext_eq {A : Type} (f g : A -> bool) (l : list A) :
  (forall x, f x = g x) -> find f l = find g l.
Proof.
  intros H. induction l as [| y l IH]; simpl; [reflexivity |].
  rewrite H, IH. reflexivity.
Qed.

Lemma In_frequent_structures (entries : dict (list (string * value))) (o : value) :
  In o (frequent_structures entries)
  <-> exists h p rest, In (h, (p, o) :: rest) entries /\ 3 <= length ((p, o) :: rest).
Proof.
  unfold frequent_structures. rewrite in_flat_map. split.
  - intros ([h occs] & Hentry & Hin). cbn [snd] in Hin.
    destruct (3 <=? length occs) eqn:E; [| destruct Hin].
    destruct occs as [| [p first] rest]; [destruct Hin |].
    destruct Hin as [<- | []]. exists h, p, rest.
    split; [exact Hentry | apply Nat.leb_le; exact E].
  - intros (h & p & rest & Hentry & Hlen). exists (h, (p, o) :: rest).
    split; [exact Hentry |]. cbn [snd].
    apply Nat.leb_le in Hlen. rewrite Hlen. left. reflexivity.
Qed.

Section RefCacheContents.

Context {R : Runtime}.

Lemma NoDup_frequent_hashes (entries : dict (list (string * value))) :
  NoDup (dict_keys entries) ->
  (forall h occs occ, In (h, occs) entries -> In occ occs -> structure_hash (snd occ) = h) ->
  NoDup (map structure_hash (frequent_structures entries)).
Proof.
  induction entries as [| [h occs] entries IH]; intros Hnodup Hhash; [constructor |].
  cbn [dict_keys map fst] in Hnodup. inversion Hnodup as [| ? ? Hh Hrest]; subst.
  assert (Htail : NoDup (map structure_hash (frequent_structures entries))).
  { apply IH; [exact Hrest |]. intros h' occs' occ Hin. apply Hhash. right. exact Hin. }
  unfold frequent_structures. cbn [flat_map snd].
  destruct (3 <=? length occs); [| exact Htail].
  destruct occs as [| [p first] occs]; [exact Htail |].
  cbn [app map]. constructor; [| exact Htail].
  intros Hin. apply in_map_iff in Hin. destruct Hin as (o & Ho & Hin).
  apply In_frequent_structures in Hin. destruct Hin as (h' & p' & rest' & Hentry & _).
  apply Hh.
  assert (E1 : structure_hash first = h).
  { apply (Hhash h ((p, first) :: occs) (p, first)); left; reflexivity. }
  assert (E2 : structure_hash o = h').
  { apply (Hhash h' ((p', o) :: rest') (p', o)); [right; exact Hentry | left; reflexivity]. }
  rewrite <- E1, <- Ho, E2. apply (in_map fst) in Hentry. exact Hentry.
Qed.

Lemma recorded_entry (data : value) (h : string) (occs : list (string * value)) :
  In (h, occs) (collect_structures data "" []) ->
  occs = filter (fun occ => String.eqb (structure_hash (snd occ)) h) (occurrences data "").
Proof.
  rewrite collect_structures_occurrences.
  destruct (record_structures_spec (occurrences data "") [] (NoDup_nil _)) as [Hnodup Hget].
  intros Hin. apply (In_dict_get h occs _ Hnodup) in Hin.
  specialize (Hget h). unfold dict_get_default in Hget at 1. rewrite Hin in Hget.
  exact Hget.
Qed.

Lemma shape_count_hash (data : value) (o : value) :
  shape_count data o
  = length (filter (fun occ => String.eqb (structure_hash (snd occ)) (structure_hash o))
              (occurrences data "")).
Proof.
  unfold shape_count, document_objects. rewrite filter_map_snd, length_map.
  f_equal. apply filter_ext. intros occ. symmetry. apply structure_hash_shape.
Qed.

End RefCacheContents.

(** X17: the cache of references gives the identifiers [r0], [r1], ...
    to one object for each shape (sorted keys) that three or more
    objects of the document have, and to no other object: the first
    object of the document that has the shape. *)
Theorem reference_cache_contents (R : Runtime) (data : value) :
  exists representatives,
    _build_ref_cache data = numbered "r" 0 representatives
    /\ NoDup (map shape representatives)
    /\ (forall o,
          In o representatives ->
          In o (document_objects data)
          /\ 3 <= shape_count data o
          /\ find (same_shape o) (document_objects data) = Some o)
    /\ (forall o,
          In o (document_objects data) ->
          3 <= shape_count data o ->
          exists representative,
            In representative representatives /\ shape representative = shape o).
Proof.
  exists (frequent_structures (collect_structures data "" [])).
  assert (Hnodup : NoDup (dict_keys (collect_structures data "" []))).
  { rewrite collect_structures_occurrences.
    apply (record_structures_spec (occurrences data "") [] (NoDup_nil _)). }
  assert (Hhash_shape : forall o, structure_hash o = json_dumps (VArr (map VStr (shape o)))).
  { intros o. destruct o; reflexivity. }
  split; [| split; [| split]].
  - unfold _build_ref_cache. rewrite fold_add_reference; [reflexivity |].
    intros i _ [].
  - apply (NoDup_map_inv (fun sh => json_dumps (VArr (map VStr sh)))).
    rewrite map_map.
    rewrite (map_ext _ structure_hash) by (intros o; symmetry; apply Hhash_shape).
    apply NoDup_frequent_hashes; [exact Hnodup |].
    intros h occs occ Hentry Hocc. apply recorded_entry in Hentry. subst occs.
    apply filter_In in Hocc. destruct Hocc as [_ E]. apply String.eqb_eq. exact E.
  - intros o Ho. apply In_frequent_structures in Ho.
    destruct Ho as (h & p & rest & Hentry & Hlen).
    pose proof (recorded_entry data h _ Hentry) as Hoccs.
    assert (Hin : In (p, o) (filter (fun occ => String.eqb (structure_hash (snd occ)) h)
                               (occurrences data ""))).
    { rewrite <- Hoccs. left. reflexivity. }
    apply filter_In in Hin. destruct Hin as [Hin Hh]. cbn [snd] in Hh.
    apply String.eqb_eq in Hh.
    split; [| split].
    + unfold document_objects. apply in_map_iff. exists (p, o). split; [reflexivity | exact Hin].
    + rewrite shape_count_hash, Hh, <- Hoccs. exact Hlen.
    + unfold document_objects. rewrite find_map_snd.
      rewrite (find_ext_eq _ (fun occ => String.eqb (structure_hash (snd occ)) h)).
      * symmetry in Hoccs. rewrite (filter_head_find _ _ _ _ Hoccs). reflexivity.
      * intros occ. rewrite <- Hh, structure_hash_shape. reflexivity.
  - intros o Ho Hcount. rewrite shape_count_hash in Hcount.
    set (h := structure_hash o) in *.
    destruct (record_structures_spec (occurrences data "") [] (NoDup_nil _)) as [_ Hget].
    specialize (Hget h). rewrite <- collect_structures_occurrences in Hget.
    cbn [dict_get_default dict_get app] in Hget.
    unfold dict_get_default in Hget.
    destruct (dict_get h (collect_structures data "" [])) as [occs |] eqn:E.
    + subst occs.
      apply (In_dict_get h _ _ Hnodup) in E.
      destruct (filter (fun occ => String.eqb (structure_hash (snd occ)) h)
                  (occurrences data "")) as [| [p representative] rest] eqn:Hfilter;
        [simpl in Hcount; lia |].
      exists representative. split.
      * apply In_frequent_structures. exists h, p, rest. split; [exact E | exact Hcount].
      * assert (Hin : In (p, representative)
                        (filter (fun occ => String.eqb (structure_hash (snd occ)) h)
                           (occurrences data "")))
          by (rewrite Hfilter; left; reflexivity).
        apply filter_In in Hin. destruct Hin as [_ Hh]. cbn [snd] in Hh.
        unfold h in Hh. rewrite structure_hash_shape in Hh.
        apply list_string_eqb_true in Hh. symmetry. exact Hh.
    + rewrite <- Hget in Hcount. simpl in Hcount. lia.
Qed.

(** ** The round trip of a table at level [STANDARD] *)

Lemma map_result_map {A B C : Type} (f : B -> result C) (g : A -> B) (h : A -> C)
    (l : list A) :
  (forall x, In x l -> f (g x) = Ok (h x)) ->
  map_result f (map g l) = Ok (map h l).
Proof.
  induction l as [| x l IH]; intros H; simpl; [reflexivity |].
  rewrite (H x (or_introl eq_refl)). simpl.
  rewrite IH; [reflexivity |]. intros y Hy. apply H. right. exact Hy.
Qed.

Lemma last_of_nonempty {A : Type} (l : list A) :
  l <> [] -> exists x, last (map Some l) None = Some x /\ In x l.
Proof.
  induction l as [| y l IH]; [congruence |]. intros _.
  destruct l as [| z l].
  - exists y. split; [reflexivity | left; reflexivity].
  - destruct IH as (x & Hlast & Hin); [discriminate |].
    exists x. split; [exact Hlast | right; exact Hin].
Qed.

(** A row that is not empty and holds no object has no optional part. *)
Lemma split_row_of_scalars (cells : list value) :
  cells <> [] ->
  (forall c, In c cells -> is_dict c = false) ->
  split_row (VArr cells) = Ok (None, cells).
Proof.
  intros Hne Hcells. unfold split_row. cbn [row_last py_iter].
  destruct (last_of_nonempty cells Hne) as (final & -> & Hin). cbn [of_option bind].
  specialize (Hcells final Hin). destruct final; try reflexivity. discriminate.
Qed.

Lemma item_field_flat (k : string) (item : value) :
  flat_object item = true ->
  is_scalar (item_field k item) = true /\ plain_document (item_field k item) = true.
Proof.
  destruct item; try discriminate. cbn [flat_object item_field].
  rewrite andb_true_iff. intros [Hfields _]. rewrite forallb_forall in Hfields.
  unfold dict_get_default. destruct (dict_get k fields) as [v |] eqn:E; [| split; reflexivity].
  assert (Hin : exists k', In (k', v) fields).
  { clear Hfields. induction fields as [| [k' v'] fields IH]; simpl in E; [discriminate |].
    destruct (String.eqb k k').
    - injection E as ->. exists k'. left. reflexivity.
    - destruct (IH E) as (k'' & H). exists k''. right. exact H. }
  destruct Hin as (k' & Hin). specialize (Hfields (k', v) Hin). cbn [fst snd] in Hfields.
  rewrite !andb_true_iff in Hfields. split; apply Hfields.
Qed.

Lemma flat_object_keys (item : value) (k : string) :
  flat_object item = true -> In k (item_keys item) -> plain_key k = true.
Proof.
  destruct item; try discriminate. cbn [flat_object item_keys].
  rewrite andb_true_iff. intros [Hfields _] Hk. rewrite forallb_forall in Hfields.
  apply in_map_iff in Hk. destruct Hk as (kv & <- & Hkv).
  specialize (Hfields kv Hkv). rewrite !andb_true_iff in Hfields. apply Hfields.
Qed.

Lemma flat_object_NoDup_keys (item : value) :
  flat_object item = true -> NoDup (item_keys item).
Proof.
  destruct item; try discriminate. cbn [flat_object item_keys].
  rewrite andb_true_iff. intros [_ Hdistinct]. apply distinct_NoDup in Hdistinct.
  apply (NoDup_map_inv abbreviate). exact Hdistinct.
Qed.

Section TableRoundTrip.

Context {R : Runtime}.
Variable string_dict : dict string.
Variables refs sd : value.

(** Below level [AGGRESSIVE] a plain scalar is decoded to itself. *)
Lemma scalar_decoded (fuel : nat) (v : value) :
  is_scalar v = true -> plain_document v = true ->
  is_dict (_convert_to_toon STANDARD string_dict v) = false
  /\ convert_from_toon_fuel (S fuel) refs sd (_convert_to_toon STANDARD string_dict v) = Ok v.
Proof.
  destruct v; try discriminate; intros _ Hplain.
  - split; reflexivity.
  - split; [reflexivity | destruct b; reflexivity].
  - split; reflexivity.
  - split; reflexivity.
  - split; [reflexivity |]. apply plain_string_decoded. exact Hplain.
Qed.

Lemma decode_cells (fuel : nat) (item : value) (keys : list string) (acc : dict value) :
  flat_object item = true ->
  NoDup keys ->
  (forall k, In k keys -> ~ In k (dict_keys acc)) ->
  fold_result
    (fun obj kc =>
       let* v := convert_from_toon_fuel (S fuel) refs sd (snd kc) in
       set_item (fst kc) v obj)
    (combine (map VStr keys)
       (map (fun k => _convert_to_toon STANDARD string_dict (item_field k item)) keys))
    acc
  = Ok (acc ++ map (fun k => (k, item_field k item)) keys)%list.
Proof.
  intros Hflat. revert acc.
  induction keys as [| k keys IH]; intros acc Hnodup Hfresh.
  - simpl. rewrite app_nil_r. reflexivity.
  - cbn [map combine fold_result fst snd].
    destruct (item_field_flat k item Hflat) as [Hscalar Hplain].
    destruct (scalar_decoded fuel (item_field k item) Hscalar Hplain) as [_ Hdecoded].
    rewrite Hdecoded. cbn [bind set_item].
    rewrite dict_set_new by (apply Hfresh; left; reflexivity).
    inversion Hnodup as [| ? ? Hk Hkeys]; subst.
    rewrite IH.
    + rewrite <- app_assoc. reflexivity.
    + exact Hkeys.
    + intros k' Hk'. unfold dict_keys. rewrite map_app, in_app_iff. cbn [map fst In].
      intros [H | [H | []]].
      * apply (Hfresh k'); [right; exact Hk' | exact H].
      * apply Hk. rewrite H. exact Hk'.
Qed.

Lemma decode_flat_row (fuel : nat) (item : value) (keys : list string) :
  flat_object item = true ->
  NoDup keys -> keys <> [] ->
  decompress_row (convert_from_toon_fuel (S fuel) refs sd) (map VStr keys)
    (VArr (map (fun k => _convert_to_toon STANDARD string_dict (item_field k item)) keys))
  = Ok (project keys item).
Proof.
  intros Hflat Hnodup Hne. unfold decompress_row.
  rewrite split_row_of_scalars.
  - cbn [bind fst snd]. rewrite (decode_cells fuel item keys [] Hflat Hnodup).
    + reflexivity.
    + intros k _ [].
  - intros H. apply map_eq_nil in H. contradiction.
  - intros c Hc. apply in_map_iff in Hc. destruct Hc as (k & <- & _).
    destruct (item_field_flat k item Hflat) as [Hscalar Hplain].
    apply (scalar_decoded fuel (item_field k item) Hscalar Hplain).
Qed.

End TableRoundTrip.

(** X18: at level [STANDARD], a table comes back with the keys of each
    row sorted: for a non-empty array of flat objects (plain scalar
    values, plain keys with different codes) that all have the same
    non-empty set of keys, encoding and then decoding returns the array
    in which each object lists the sorted keys with its own values. *)
Theorem table_round_trip_sorts_keys (R : Runtime) (first : value) (rest : list value) :
  forallb flat_object (first :: rest) = true ->
  (forall item, In item rest -> same_keys item first) ->
  item_keys first <> [] ->
  round_trip STANDARD (VArr (first :: rest))
  = Ok (VArr (map (project (sorted (item_keys first))) (first :: rest))).
Proof.
  intros Hflat Hsame Hkeys.
  rewrite forallb_forall in Hflat.
  assert (Hdicts : forallb is_dict (first :: rest) = true).
  { apply forallb_forall. intros item Hitem. specialize (Hflat item Hitem).
    destruct item; try discriminate. reflexivity. }
  rewrite round_trip_eq. cbn [input_document bind].
  unfold encoder_toon_data.
  set (string_dict := encoder_string_dict STANDARD (VArr (first :: rest))).
  set (keys := sorted (item_keys first)).
  assert (Hblock : _convert_to_toon STANDARD string_dict (VArr (first :: rest))
                   = VObj [("_sch", VArr (map (fun k => VStr (abbreviate k)) keys));
                           ("_dat", VArr (map (fun item =>
                                                VArr (map (fun k =>
                                                             _convert_to_toon STANDARD
                                                               string_dict (item_field k item))
                                                        keys))
                                             (first :: rest)))]).
  { rewrite convert_array_unfold. unfold _compress_array.
    rewrite Hdicts. cbn [level_value Z.leb Z.compare Pos.compare Pos.compare_cont].
    rewrite (uniform_keys_count first rest Hsame). cbn [Nat.eqb].
    rewrite schema_rows_conv by exact Hdicts. reflexivity. }
  rewrite Hblock.
  assert (Hnodup : NoDup keys).
  { apply NoDup_sorted. apply flat_object_NoDup_keys. apply Hflat. left. reflexivity. }
  assert (Hne : keys <> []).
  { intros H. apply Hkeys. apply (f_equal (@length string)) in H.
    unfold keys in H. rewrite length_sorted in H. destruct (item_keys first); [reflexivity |].
    discriminate. }
  unfold _convert_from_toon. cbn [value_depth].
  match goal with
  | |- convert_from_toon_fuel (S (S ?n)) _ _ _ = _ => generalize n
  end.
  intros fuel. cbn [convert_from_toon_fuel].
  set (convert := convert_from_toon_body _ _ (convert_from_toon_fuel fuel _ _)).
  unfold convert_from_toon_body.
  change (dict_has "_sch" _ && dict_has "_dat" _) with true. cbv iota.
  unfold _decompress_schema_array.
  change (dict_get_default "_sch" VNull _)
    with (VArr (map (fun k => VStr (abbreviate k)) keys)).
  change (dict_get_default "_dat" VNull _)
    with (VArr (map (fun item =>
                       VArr (map (fun k =>
                                    _convert_to_toon STANDARD string_dict (item_field k item))
                               keys))
                    (first :: rest))).
  cbn [py_iter bind].
  rewrite (map_result_map expand_schema_key (fun k => VStr (abbreviate k)) VStr keys).
  - cbn [bind].
    rewrite (map_result_map _ _ (project keys) (first :: rest)); [reflexivity |].
    intros item Hitem.
    apply (decode_flat_row string_dict _ _ fuel item keys);
      [apply Hflat; exact Hitem | exact Hnodup | exact Hne].
  - intros k Hk. cbn [expand_schema_key]. f_equal. f_equal.
    apply String.eqb_eq. apply (flat_object_keys first); [apply Hflat; left; reflexivity |].
    apply (In_sorted k (item_keys first)). exact Hk.
Qed.

(** X18 on two rows that list their keys in different orders. *)
Lemma table_round_trip_sorts_keys_witness :
  round_trip (R := ModelRuntime.runtime) STANDARD
    (VArr [VObj [("name", VStr "a"); ("id", VInt 1)];
           VObj [("id", VInt 2); ("name", VStr "b")]])
  = Ok (VArr (map (project (sorted (item_keys (VObj [("name", VStr "a"); ("id", VInt 1)]))))
                [VObj [("name", VStr "a"); ("id", VInt 1)];
                 VObj [("id", VInt 2); ("name", VStr "b")]])).
Proof.
  apply (table_round_trip_sorts_keys ModelRuntime.runtime).
  - reflexivity.
  - intros item [<- | []] k. simpl. tauto.
  - discriminate.
Defined.

(** ** The statistics of the analyzer *)

Import AnalyzerStatistics.

Lemma increment_get (k key : string) (counter : dict nat) :
  dict_get_default k O (increment key counter)
  = dict_get_default k O counter + (if string_dec key k then 1 else 0).
Proof.
  unfold increment. rewrite dict_get_default_set.
  destruct (string_dec key k) as [-> | Hne].
  - rewrite String.eqb_refl. lia.
  - assert (E : String.eqb k key = false) by (apply String.eqb_neq; congruence).
    rewrite E. lia.
Qed.

(** The two loops of [_deep_traverse], as folds. *)
Lemma deep_traverse_object (fields : dict value) (path : string) (depth : nat)
    (st : statistics) :
  _deep_traverse (VObj fields) path depth st
  = fold_left
      (fun acc kv =>
         _deep_traverse (snd kv) (path ++ "." ++ fst kv) (S depth)
           {| nesting_depths := nesting_depths acc;
              key_frequency := increment (fst kv) (key_frequency acc);
              value_type_counts := increment (type_name (snd kv)) (value_type_counts acc);
              array_sizes := array_sizes acc |})
      fields
      {| nesting_depths := (nesting_depths st ++ [depth])%list;
         key_frequency := key_frequency st;
         value_type_counts := value_type_counts st;
         array_sizes := array_sizes st |}.
Proof.
  cbn [_deep_traverse].
  match goal with
  | |- _ fields ?s = _ => generalize s
  end.
  induction fields as [| [key v] fields IH]; intros acc; [reflexivity |].
  cbn [fold_left fst snd]. apply IH.
Qed.

Lemma deep_traverse_array (items : list value) (path : string) (depth : nat)
    (st : statistics) :
  _deep_traverse (VArr items) path depth st
  = snd (fold_left
           (fun ia item =>
              (S (fst ia),
               _deep_traverse item (path ++ "[" ++ str_of_nat (fst ia) ++ "]") (S depth)
                 (snd ia)))
           items
           (0, {| nesting_depths := (nesting_depths st ++ [depth])%list;
                  key_frequency := key_frequency st;
                  value_type_counts := value_type_counts st;
                  array_sizes := (array_sizes st ++ [length items])%list |})).
Proof.
  cbn [_deep_traverse nesting_depths key_frequency value_type_counts array_sizes].
  generalize (length items).
  intros n.
  match goal with
  | |- _ 0 items ?s = _ => generalize s
  end.
  generalize 0.
  induction items as [| item items IH]; intros i acc; [reflexivity |].
  cbn [fold_left fst snd]. apply IH.
Qed.

Lemma deep_traverse_spec (data : value) :
  forall path depth st,
    nesting_depths (_deep_traverse data path depth st)
    = (nesting_depths st ++ depths_of data depth)%list
    /\ forall k,
         dict_get_default k O (key_frequency (_deep_traverse data path depth st))
         = dict_get_default k O (key_frequency st) + count_occ string_dec (all_keys data) k.
Proof.
  induction data as [| b | z | m e | s | items IH | fields IH] using value_induction;
    intros path depth st;
    try (split; [reflexivity | intros k; cbn; lia]).
  - rewrite deep_traverse_array. cbn [depths_of all_keys].
    change (depth :: flat_map (fun item => depths_of item (S depth)) items)
      with ([depth] ++ flat_map (fun item => depths_of item (S depth)) items)%list.
    rewrite app_assoc.
    generalize (length items). intros n.
    set (st2 := {| nesting_depths := (nesting_depths st ++ [depth])%list;
                   key_frequency := key_frequency st;
                   value_type_counts := value_type_counts st;
                   array_sizes := (array_sizes st ++ [n])%list |}).
    change (nesting_depths st ++ [depth])%list with (nesting_depths st2).
    change (key_frequency st) with (key_frequency st2).
    clearbody st2.
    assert (Hloop : forall acc i,
              nesting_depths
                (snd (fold_left
                        (fun ia item =>
                           (S (fst ia),
                            _deep_traverse item (path ++ "[" ++ str_of_nat (fst ia) ++ "]")
                              (S depth) (snd ia)))
                        items (i, acc)))
              = (nesting_depths acc
                 ++ flat_map (fun item => depths_of item (S depth)) items)%list
              /\ forall k,
                   dict_get_default k O
                     (key_frequency
                        (snd (fold_left
                                (fun ia item =>
                                   (S (fst ia),
                                    _deep_traverse item
                                      (path ++ "[" ++ str_of_nat (fst ia) ++ "]")
                                      (S depth) (snd ia)))
                                items (i, acc))))
                   = dict_get_default k O (key_frequency acc)
                     + count_occ string_dec (flat_map all_keys items) k);
      [| apply Hloop].
    clear st2.
    induction IH as [| item items Hitem _ IHitems]; intros acc i.
    + split; [cbn; rewrite app_nil_r; reflexivity | intros k; cbn; lia].
    + cbn [fold_left fst snd].
      destruct (IHitems
                  (_deep_traverse item (path ++ "[" ++ str_of_nat i ++ "]") (S depth) acc)
                  (S i)) as [Hd Hk].
      destruct (Hitem (path ++ "[" ++ str_of_nat i ++ "]") (S depth) acc) as [Hd1 Hk1].
      split.
      * rewrite Hd, Hd1. cbn [flat_map]. rewrite app_assoc. reflexivity.
      * intros k. rewrite Hk, Hk1. cbn [flat_map]. rewrite count_occ_app. lia.
  - rewrite deep_traverse_object. cbn [depths_of all_keys].
    change (depth :: flat_map (fun kv => depths_of (snd kv) (S depth)) fields)
      with ([depth] ++ flat_map (fun kv => depths_of (snd kv) (S depth)) fields)%list.
    rewrite app_assoc.
    set (st1 := {| nesting_depths := (nesting_depths st ++ [depth])%list;
                   key_frequency := key_frequency st;
                   value_type_counts := value_type_counts st;
                   array_sizes := array_sizes st |}).
    change (nesting_depths st ++ [depth])%list with (nesting_depths st1).
    change (key_frequency st) with (key_frequency st1).
    clearbody st1. revert st1.
    induction IH as [| [key v] fields Hfield _ IHfields]; intros acc.
    + split; [cbn; rewrite app_nil_r; reflexivity | intros k; cbn; lia].
    + cbn [fold_left fst snd]. cbn [snd] in Hfield.
      match goal with
      | |- context [_deep_traverse v ?p ?d ?a] =>
          destruct (IHfields (_deep_traverse v p d a)) as [Hd Hk];
          destruct (Hfield p d a) as [Hd1 Hk1]
      end.
      split.
      * rewrite Hd, Hd1. cbn [flat_map snd nesting_depths]. rewrite app_assoc. reflexivity.
      * intros k. rewrite Hk, Hk1. cbn [key_frequency flat_map fst snd].
        rewrite increment_get. cbn [app count_occ]. rewrite count_occ_app.
        destruct (string_dec key k); lia.
Qed.

Lemma max_depth_app (a b : list nat) :
  max_depth (a ++ b) = Nat.max (max_depth a) (max_depth b).
Proof.
  unfold max_depth. induction a as [| x a IH]; simpl; [reflexivity |].
  rewrite IH. lia.
Qed.

Lemma depths_of_facts (v : value) :
  forall d,
    length (depths_of v d) = value_nodes v /\ max_depth (depths_of v d) = d + nesting v.
Proof.
  induction v as [| b | z | m e | s | items IH | fields IH] using value_induction;
    intros d; try (split; [reflexivity | cbn; lia]).
  - cbn [depths_of value_nodes nesting length].
    assert (H : length (flat_map (fun item => depths_of item (S d)) items)
                = fold_right (fun item n => value_nodes item + n) 0 items
                /\ Nat.max d (max_depth (flat_map (fun item => depths_of item (S d)) items))
                   = d + fold_right (fun item n => Nat.max (S (nesting item)) n) 0 items).
    { induction IH as [| item items Hitem _ IHitems]; [split; cbn; lia |].
      destruct IHitems as [Hlen Hmax]. destruct (Hitem (S d)) as [Hlen1 Hmax1].
      cbn [flat_map fold_right]. rewrite length_app, max_depth_app, Hlen, Hlen1, Hmax1.
      split; [reflexivity | lia]. }
    destruct H as [Hlen Hmax]. split; [rewrite Hlen; reflexivity |].
    change (max_depth (d :: ?l)) with (Nat.max d (max_depth l)). exact Hmax.
  - cbn [depths_of value_nodes nesting length].
    assert (H : length (flat_map (fun kv => depths_of (snd kv) (S d)) fields)
                = fold_right (fun kv n => value_nodes (snd kv) + n) 0 fields
                /\ Nat.max d (max_depth (flat_map (fun kv => depths_of (snd kv) (S d)) fields))
                   = d + fold_right (fun kv n => Nat.max (S (nesting (snd kv))) n) 0 fields).
    { induction IH as [| kv fields Hfield _ IHfields]; [split; cbn; lia |].
      destruct IHfields as [Hlen Hmax]. destruct (Hfield (S d)) as [Hlen1 Hmax1].
      cbn [flat_map fold_right]. rewrite length_app, max_depth_app, Hlen, Hlen1, Hmax1.
      split; [reflexivity | lia]. }
    destruct H as [Hlen Hmax]. split; [rewrite Hlen; reflexivity |].
    change (max_depth (d :: ?l)) with (Nat.max d (max_depth l)). exact Hmax.
Qed.

(** X19: after [_deep_traverse] from the root at depth 0, the list of
    depths has one entry per node of the document and its largest entry
    is the nesting of the document, and the counter of keys holds for
    every key the number of object fields of the document that have
    it. *)
Theorem deep_traverse_visits_every_node (data : value) (path : string) :
  length (nesting_depths (_deep_traverse data path 0 empty_statistics)) = value_nodes data
  /\ max_depth (nesting_depths (_deep_traverse data path 0 empty_statistics)) = nesting data
  /\ forall k,
       dict_get_default k O (key_frequency (_deep_traverse data path 0 empty_statistics))
       = count_occ string_dec (all_keys data) k.
Proof.
  destruct (deep_traverse_spec data path 0 empty_statistics) as [Hd Hk].
  destruct (depths_of_facts data 0) as [Hlen Hmax].
  cbn [empty_statistics nesting_depths key_frequency app] in Hd, Hk.
  rewrite Hd. split; [exact Hlen |]. split; [exact Hmax |].
  intros k. rewrite Hk. reflexivity.
Qed.

Lemma sum_depths_bound (l : list nat) : sum_depths l <= max_depth l * length l.
Proof.
  unfold sum_depths, max_depth. induction l as [| x l IH]; simpl; [lia |]. nia.
Qed.

(** X20: after the traversal of a document, [_detect_deep_nesting]
    reports deep nesting, once, with confidence min(nesting / 10, 1),
    for every document nested more than five levels deep, and reports
    nothing for a document nested at most three levels deep. *)
Theorem deep_nesting_is_detected (describe : nat -> Q -> string) (data : value)
    (path : string) :
  (5 < nesting data ->
   exists finding,
     _detect_deep_nesting describe (_deep_traverse data path 0 empty_statistics) path
     = [finding]
     /\ pattern_type finding = DEEP_NESTING
     /\ confidence finding = Qmin2 (inject_Z (Z.of_nat (nesting data)) / 10) 1
     /\ location finding = path)
  /\ (nesting data <= 3 ->
      _detect_deep_nesting describe (_deep_traverse data path 0 empty_statistics) path = []).
Proof.
  destruct (deep_traverse_spec data path 0 empty_statistics) as [Hd _].
  destruct (depths_of_facts data 0) as [Hlen Hmax].
  cbn [empty_statistics nesting_depths app] in Hd.
  pose proof (sum_depths_bound (depths_of data 0)) as Hsum.
  unfold _detect_deep_nesting. rewrite Hd.
  destruct (depths_of data 0) as [| x l] eqn:El; [destruct data; discriminate |].
  rewrite Hmax in *. cbn [Nat.add] in *. split.
  - intros Hdeep.
    assert (E : (5 <? nesting data) = true) by (apply Nat.ltb_lt; exact Hdeep).
    rewrite E. cbn [orb]. eexists. split; [reflexivity |]. repeat split.
  - intros Hshallow.
    assert (E : (5 <? nesting data) = false) by (apply Nat.ltb_ge; lia).
    rewrite E. cbn [orb].
    assert (Hpos : 0 < length (x :: l)) by (cbn; lia).
    assert (Havg : Qgtb (inject_Z (Z.of_nat (sum_depths (x :: l)))
                         / inject_Z (Z.of_nat (length (x :: l)))) 3 = false).
    { apply Qgtb_false. apply Qle_shift_div_r.
      - change 0%Q with (inject_Z 0). rewrite <- Zlt_Qlt. lia.
      - change 3%Q with (inject_Z 3). rewrite <- inject_Z_mult, <- Zle_Qle. nia. }
    rewrite Havg. reflexivity.
Qed.

(** X20 on an array nested six levels deep and on a number. *)
Lemma deep_nesting_is_detected_witness :
  (exists finding,
     _detect_deep_nesting (fun _ _ => "deep")
       (_deep_traverse (VArr [VArr [VArr [VArr [VArr [VArr [VInt 1]]]]]]) "$" 0
          empty_statistics) "$"
     = [finding]
     /\ pattern_type finding = DEEP_NESTING
     /\ confidence finding
        = Qmin2 (inject_Z (Z.of_nat
                             (nesting (VArr [VArr [VArr [VArr [VArr [VArr [VInt 1]]]]]])))
                 / 10) 1
     /\ location finding = "$")
  /\ _detect_deep_nesting (fun _ _ => "deep")
       (_deep_traverse (VInt 1) "$" 0 empty_statistics) "$" = [].
Proof.
  split.
  - apply (proj1 (deep_nesting_is_detected (fun _ _ => "deep")
                    (VArr [VArr [VArr [VArr [VArr [VArr [VInt 1]]]]]]) "$")).
    simpl. lia.
  - apply (proj2 (deep_nesting_is_detected (fun _ _ => "deep") (VInt 1) "$")).
    simpl. lia.
Defined.

(** ** The consistency score *)

Import AnalyzerConsistency.

Lemma In_set_union (x : string) (a b : list string) :
  In x (set_union a b) <-> In x a \/ In x b.
Proof.
  unfold set_union. rewrite in_app_iff, filter_In, negb_true_iff, mem_false. split.
  - intros [H | [H _]]; auto.
  - intros [H | H]; [left; exact H |].
    destruct (in_dec string_dec x a) as [Hin | Hout]; [left; exact Hin | right; auto].
Qed.

Lemma NoDup_set_union (a b : list string) :
  NoDup a -> NoDup b -> NoDup (set_union a b).
Proof.
  intros Ha Hb. unfold set_union. apply NoDup_app; [exact Ha | apply NoDup_filter; exact Hb |].
  intros x Hx Hin. apply filter_In in Hin. destruct Hin as [_ Hout].
  apply negb_true_iff, mem_false in Hout. contradiction.
Qed.

Lemma fold_set_union_spec (rest : list (list string)) (s : list string) :
  NoDup s -> (forall r, In r rest -> NoDup r) ->
  NoDup (fold_left set_union rest s)
  /\ forall x, In x (fold_left set_union rest s) <-> In x s \/ exists r, In r rest /\ In x r.
Proof.
  revert s. induction rest as [| r rest IH]; intros s Hs Hrest; simpl.
  - split; [exact Hs |]. intros x. split; [auto | intros [H | (r & [] & _)]; exact H].
  - destruct (IH (set_union s r)) as [Hnodup Hin].
    + apply NoDup_set_union; [exact Hs | apply Hrest; left; reflexivity].
    + intros r' Hr'. apply Hrest. right. exact Hr'.
    + split; [exact Hnodup |]. intros x. rewrite Hin, In_set_union. split.
      * intros [[H | H] | (r' & Hr' & H)]; [left; exact H | right; exists r; auto |].
        right. exists r'. auto.
      * intros [H | (r' & [<- | Hr'] & H)]; [left; left; exact H | left; right; exact H |].
        right. exists r'. auto.
Qed.

Lemma count_distinct_differs (x : list string) (rest : list (list string)) :
  count_distinct (x :: rest) <> 1 -> exists y, In y rest /\ y <> x.
Proof.
  intros Hcount.
  destruct (forallb (list_string_eqb x) rest) eqn:E.
  - exfalso. apply Hcount. apply count_distinct_one. exists x.
    split; [left; reflexivity |]. intros y [<- | Hy]; [reflexivity |].
    rewrite forallb_forall in E. specialize (E y Hy).
    apply list_string_eqb_true in E. congruence.
  - assert (Hex : existsb (fun y => negb (list_string_eqb x y)) rest = true).
    { clear Hcount. induction rest as [| y rest IH]; simpl in *; [discriminate |].
      destruct (list_string_eqb x y); simpl in *; [apply IH; exact E | reflexivity]. }
    apply existsb_exists in Hex. destruct Hex as (y & Hy & Hne).
    exists y. split; [exact Hy |]. intros ->.
    apply negb_true_iff in Hne.
    assert (H : list_string_eqb x x = true) by (apply list_string_eqb_true; reflexivity).
    congruence.
Qed.

Lemma forallb_false_witness {A : Type} (p : A -> bool) (l : list A) :
  forallb p l = false -> exists x, In x l /\ p x = false.
Proof.
  induction l as [| x l IH]; cbn [forallb]; [discriminate |].
  destruct (p x) eqn:E; cbn [andb].
  - intros H. destruct (IH H) as (y & Hy & Hp). exists y. split; [right; exact Hy | exact Hp].
  - intros _. exists x. split; [left; reflexivity | exact E].
Qed.

(** Two different sets of keys differ by a key. *)
Lemma different_keys_witness (a b : list string) :
  sorted (pyset a) <> sorted (pyset b) ->
  exists k, (In k a /\ ~ In k b) \/ (In k b /\ ~ In k a).
Proof.
  intros Hdiff.
  destruct (forallb (fun k => mem k b) a) eqn:Ea.
  - destruct (forallb (fun k => mem k a) b) eqn:Eb.
    + exfalso. apply Hdiff. apply sorted_pyset_same. intros k.
      rewrite forallb_forall in Ea, Eb. split; intros H.
      * apply mem_In. apply Ea. exact H.
      * apply mem_In. apply Eb. exact H.
    + apply forallb_false_witness in Eb. destruct Eb as (k & Hk & Hout).
      exists k. right. split; [exact Hk |]. apply mem_false. exact Hout.
  - apply forallb_false_witness in Ea. destruct Ea as (k & Hk & Hout).
    exists k. left. split; [exact Hk |]. apply mem_false. exact Hout.
Qed.

(** When the key sets of the objects differ, fewer keys are common to
    all than occur in some. *)
Lemma fewer_common_keys (first : value) (rest : list value) :
  count_distinct (map sorted (map (fun item => pyset (item_keys item)) (first :: rest))) <> 1 ->
  length (set_intersection (map (fun item => pyset (item_keys item)) (first :: rest)))
  < length (set_union_all (map (fun item => pyset (item_keys item)) (first :: rest))).
Proof.
  intros Hcount. cbn [map] in Hcount.
  apply count_distinct_differs in Hcount. destruct Hcount as (y & Hy & Hne).
  rewrite map_map in Hy. apply in_map_iff in Hy. destruct Hy as (item & <- & Hitem).
  apply different_keys_witness in Hne. destruct Hne as (k & Hk).
  destruct (set_intersection_keys first rest) as [Hnodup Hcommon].
  cbn [map set_union_all].
  destruct (fold_set_union_spec (map (fun item => pyset (item_keys item)) rest)
              (pyset (item_keys first)) (NoDup_pyset _)) as [Hunodup Hunion].
  { intros r Hr. apply in_map_iff in Hr. destruct Hr as (i & <- & _). apply NoDup_pyset. }
  assert (Hk_all : In k (fold_left set_union (map (fun item => pyset (item_keys item)) rest)
                           (pyset (item_keys first)))).
  { apply Hunion. destruct Hk as [[Hin _] | [Hin _]].
    - right. exists (pyset (item_keys item)). split.
      + apply in_map_iff. exists item. split; [reflexivity | exact Hitem].
      + apply In_pyset. exact Hin.
    - left. apply In_pyset. exact Hin. }
  assert (Hk_common : ~ In k (set_intersection
                                (map (fun item => pyset (item_keys item)) (first :: rest)))).
  { intros Hin. apply Hcommon in Hin. destruct Hk as [[_ Hout] | [_ Hout]]; apply Hout.
    - apply Hin. left. reflexivity.
    - apply Hin. right. exact Hitem. }
  assert (Hincl : incl (k :: set_intersection
                               (map (fun item => pyset (item_keys item)) (first :: rest)))
                    (fold_left set_union (map (fun item => pyset (item_keys item)) rest)
                       (pyset (item_keys first)))).
  { intros x [<- | Hx]; [exact Hk_all |]. apply Hunion. left. apply In_pyset.
    apply Hcommon in Hx. apply Hx. left. reflexivity. }
  apply NoDup_incl_length in Hincl; [| constructor; assumption].
  cbn [length] in Hincl. cbn [map] in Hincl. lia.
Qed.

(** X21: the consistency score of an array lies between 0 and 1, and it
    is 1 exactly when the array holds an object and all its objects have
    the same set of keys. *)
Theorem schema_consistency_range (arr : list value) :
  (0 <= _calculate_schema_consistency arr)%Q
  /\ (_calculate_schema_consistency arr <= 1)%Q
  /\ ((_calculate_schema_consistency arr == 1)%Q
      <-> (exists item, In item arr /\ is_dict item = true)
          /\ forall a b, In a arr -> In b arr -> is_dict a = true -> is_dict b = true ->
                         same_keys a b).
Proof.
  unfold _calculate_schema_consistency.
  destruct arr as [| x arr]; [| set (whole := x :: arr); clearbody whole].
  { split; [apply Qle_refl |]. split; [discriminate |].
    split; [discriminate | intros [(item & [] & _) _]]. }
  destruct (filter is_dict whole) as [| first rest] eqn:Hdicts.
  { cbn [map]. split; [apply Qle_refl |]. split; [discriminate |].
    split; [discriminate |]. intros [(item & Hin & Hdict) _]. exfalso.
    assert (H : In item (filter is_dict whole)) by (apply filter_In; auto).
    rewrite Hdicts in H. exact H. }
  assert (Hmem : forall item, In item (first :: rest) <-> In item whole /\ is_dict item = true).
  { intros item. rewrite <- Hdicts. apply filter_In. }
  cbn [map].
  change (sorted (pyset (item_keys first))
          :: map sorted (map (fun item => pyset (item_keys item)) rest))
    with (map sorted (map (fun item => pyset (item_keys item)) (first :: rest))).
  change (pyset (item_keys first) :: map (fun item => pyset (item_keys item)) rest)
    with (map (fun item => pyset (item_keys item)) (first :: rest)).
  destruct (count_distinct (map sorted (map (fun item => pyset (item_keys item))
                                          (first :: rest))) =? 1) eqn:Hcount.
  - apply Nat.eqb_eq in Hcount. split; [discriminate |]. split; [apply Qle_refl |].
    split; [intros _ | reflexivity]. split.
    + exists first. apply Hmem. left. reflexivity.
    + intros a b Ha Hb Hda Hdb. apply count_distinct_one in Hcount.
      destruct Hcount as (t & _ & Hall).
      assert (Hshape : forall item, In item (first :: rest) ->
                sorted (pyset (item_keys item)) = t).
      { intros item Hitem. apply Hall. rewrite map_map. apply in_map_iff.
        exists item. split; [reflexivity | exact Hitem]. }
      unfold same_keys. apply (proj1 (sorted_pyset_same (item_keys a) (item_keys b))).
      rewrite (Hshape a), (Hshape b); [reflexivity | |]; apply Hmem; auto.
  - apply Nat.eqb_neq in Hcount.
    pose proof (fewer_common_keys first rest Hcount) as Hfewer.
    set (common := set_intersection (map (fun item => pyset (item_keys item)) (first :: rest)))
      in *.
    set (all := set_union_all (map (fun item => pyset (item_keys item)) (first :: rest))) in *.
    assert (Hnot : ~ ((exists item, In item whole /\ is_dict item = true)
                      /\ forall a b, In a whole -> In b whole ->
                                     is_dict a = true -> is_dict b = true -> same_keys a b)).
    { intros [_ Hsame]. apply Hcount. apply uniform_keys_count.
      intros item Hitem.
      assert (H1 : In item (first :: rest)) by (right; exact Hitem).
      assert (H2 : In first (first :: rest)) by (left; reflexivity).
      apply Hmem in H1. apply Hmem in H2. apply Hsame; tauto. }
    destruct all as [| k all'] eqn:Hall; [cbn [length] in Hfewer; lia |].
    assert (Hpos : (0 < inject_Z (Z.of_nat (length (k :: all'))))%Q).
    { change 0%Q with (inject_Z 0). rewrite <- Zlt_Qlt. cbn [length]. lia. }
    assert (Hlt : (inject_Z (Z.of_nat (length common))
                   / inject_Z (Z.of_nat (length (k :: all'))) < 1)%Q).
    { apply Qlt_shift_div_r; [exact Hpos |]. rewrite Qmult_1_l.
      rewrite <- Zlt_Qlt. lia. }
    split; [| split].
    + apply Qle_shift_div_l; [exact Hpos |]. rewrite Qmult_0_l.
      change 0%Q with (inject_Z 0). rewrite <- Zle_Qle. lia.
    + apply Qlt_le_weak. exact Hlt.
    + split; [| intros H; contradiction].
      intros Heq. rewrite Heq in Hlt. exfalso. revert Hlt. apply Qlt_irrefl.
Qed.
